(** * Kalina storefront bot: a shallow embedding of [bot.py]

    The development follows the layout of the program:
    - the Python values the program computes with ([str], [float]) and the
      interpreter builtins it calls ([float()], [int()], [str.lower()]);
    - the data classes ([Product], [Category], [City], [Order],
      [PaymentDetails], [OperatorSettings]);
    - [AdminManager] and [DataStorage] with their methods;
    - the conversation state ([UserState], the per-conversation dictionary,
      [FSMContext]) and the handlers registered in [register_handlers];
    - the handlers of the settings, of the administrator set, of the
      first steps of the add flows and of the statistics, and the main menu;
    - concrete stores and messages on which the model is run;
    - the properties of access control, of the store and of the handlers.

    Dictionaries are finite maps ([gmap]), the administrator set is a
    finite set ([gset]).  The JSON files are outside the model: every
    [save_*] method only writes, and nothing is read back during the life
    of the process, so the in-memory state passed from call to call is the
    whole state that the handlers observe.  A handler is a function from
    the store, the administrator set, the incoming event and the
    conversation to an [Outcome]; what the environment decides (the clock,
    whether a guarded delivery succeeds) is an argument of the handler. *)

From Stdlib Require Import ZArith NArith List String Ascii Bool Lia.
From Stdlib Require Import DecimalString.
From Stdlib Require Import Floats.SpecFloat.
From stdpp Require Import base option list strings gmap sorting.
Import ListNotations.
Open Scope Z_scope.

(* ================================================================== *)
(** * Python values *)
(* ================================================================== *)

(** ** [str]: a sequence of Unicode code points *)

Definition str := list N.

(** Literals of the source file are UTF-8 text; [py] decodes a literal into
    its code points, so that [len], [strip] and [==] count characters the
    way Python does. *)
Fixpoint utf8_decode (bs : list N) : str :=
  match bs with
  | [] => []
  | b0 :: r0 =>
    if (b0 <? 128)%N then b0 :: utf8_decode r0
    else
      match r0 with
      | [] => []
      | b1 :: r1 =>
        if (b0 <? 224)%N
        then ((b0 mod 32) * 64 + b1 mod 64)%N :: utf8_decode r1
        else
          match r1 with
          | [] => []
          | b2 :: r2 =>
            if (b0 <? 240)%N
            then ((b0 mod 16) * 4096 + (b1 mod 64) * 64 + b2 mod 64)%N
                   :: utf8_decode r2
            else
              match r2 with
              | [] => []
              | b3 :: r3 =>
                ((b0 mod 8) * 262144 + (b1 mod 64) * 4096
                 + (b2 mod 64) * 64 + b3 mod 64)%N :: utf8_decode r3
              end
          end
      end
  end.

Definition py (s : string) : str :=
  utf8_decode (map N_of_ascii (list_ascii_of_string s)).

Definition str_eqb (a b : str) : bool := bool_decide (a = b).

(** [str.isspace] on one character: the code points Python treats as
    whitespace, which [str.strip()] removes. *)
Definition is_space (c : N) : bool :=
  ((9 <=? c) && (c <=? 13) || (28 <=? c) && (c <=? 32)
   || (c =? 133) || (c =? 160) || (c =? 5760)
   || (8192 <=? c) && (c <=? 8202)
   || (c =? 8232) || (c =? 8233) || (c =? 8239) || (c =? 8287)
   || (c =? 12288))%N.

Fixpoint lstrip (s : str) : str :=
  match s with
  | c :: r => if is_space c then lstrip r else s
  | [] => []
  end.

Definition rstrip (s : str) : str := rev (lstrip (rev s)).

(** [s.strip()] *)
Definition strip (s : str) : str := rstrip (lstrip s).

(** [s.split(sep)] for a one-character separator: always at least one
    piece, empty pieces kept. *)
Fixpoint split (sep : N) (s : str) : list str :=
  match s with
  | [] => [[]]
  | c :: r =>
    if (c =? sep)%N then [] :: split sep r
    else
      match split sep r with
      | piece :: pieces => (c :: piece) :: pieces
      | [] => [[c]]
      end
  end.

Definition comma : N := 44.

(** [[x.strip() for x in text.split(',') if x.strip()]]: the idiom with
    which every list-valued message is read. *)
Definition comma_items (text : str) : list str :=
  filter (fun x => x <> []) (map strip (split comma text)).

(** [sep.join(items)] *)
Fixpoint join (sep : str) (items : list str) : str :=
  match items with
  | [] => []
  | [x] => x
  | x :: r => x ++ sep ++ join sep r
  end.

(** [str(n)] for an [int]. *)
Definition str_of_Z (z : Z) : str :=
  py (NilZero.string_of_int (Z.to_int z)).

(** ** [float]: IEEE 754 binary64, as specified by [SpecFloat] *)

Definition float := spec_float.
Definition prec : Z := 53.
Definition emax : Z := 1024.

Definition float_zero : float := S754_zero false.
Definition float_nan : float := S754_nan.

(** [x <= y] on floats; every comparison with a NaN is [False]. *)
Definition float_le (x y : float) : bool := SFleb x y.

(** The correctly rounded quotient of two positive integers. *)
Definition float_of_ratio (neg : bool) (a b : positive) : float :=
  SFdiv prec emax (S754_finite neg a 0) (S754_finite false b 0).

(** [float(n)] for an [int]. *)
Definition float_of_Z (z : Z) : float :=
  match z with
  | Z0 => float_zero
  | Zpos p => float_of_ratio false p 1
  | Zneg p => float_of_ratio true p 1
  end.

(** [a / b] on two [int]s (true division); [None] is [ZeroDivisionError]. *)
Definition int_truediv (a b : Z) : option float :=
  match a, b with
  | _, Z0 => None
  | Z0, Zpos _ => Some (S754_zero false)
  | Z0, Zneg _ => Some (S754_zero true)
  | Zpos p, Zpos q => Some (float_of_ratio false p q)
  | Zneg p, Zneg q => Some (float_of_ratio false p q)
  | Zpos p, Zneg q => Some (float_of_ratio true p q)
  | Zneg p, Zpos q => Some (float_of_ratio true p q)
  end.

Definition float_mul (x y : float) : float := SFmul prec emax x y.

(** The value [m * 10^e] of a decimal literal, rounded to the nearest
    float (ties to even), as the compiler and [float()] both do. *)
Definition float_of_decimal (neg : bool) (m : Z) (e : Z) : float :=
  match m with
  | Zpos p =>
    if 0 <=? e
    then float_of_ratio neg (p * Z.to_pos (10 ^ e)) 1
    else float_of_ratio neg p (Z.to_pos (10 ^ (- e)))
  | _ => S754_zero neg
  end.

Definition digit_char (d : Z) : N := Z.to_N (48 + d).

(** The last [k] decimal digits of [n], most significant first. *)
Fixpoint low_digits (k : nat) (n : Z) : str :=
  match k with
  | O => []
  | S k' => low_digits k' (n / 10) ++ [digit_char (n mod 10)]
  end.

(** [n] rounded to the nearest integer of [num / den], ties to even. *)
Definition div_half_even (num den : Z) : Z :=
  let q := num / den in
  let r := num mod den in
  match 2 * r ?= den with
  | Lt => q
  | Gt => q + 1
  | Eq => if Z.even q then q else q + 1
  end.

(** [f"{x:.{d}f}"]: fixed-point formatting with [d] decimals; the exact
    binary value is rounded half-to-even at the last printed digit. *)
Definition format_f (d : nat) (x : float) : str :=
  let body (n : Z) :=
    str_of_Z (n / 10 ^ Z.of_nat d)
    ++ match d with O => [] | _ => py "." ++ low_digits d n end in
  let sign (s : bool) := if s then py "-" else [] in
  match x with
  | S754_nan => py "nan"
  | S754_infinity s => sign s ++ py "inf"
  | S754_zero s => sign s ++ body 0
  | S754_finite s m e =>
    let scaled := Zpos m * 10 ^ Z.of_nat d in
    sign s ++ body (if 0 <=? e then scaled * 2 ^ e
                    else div_half_even scaled (2 ^ (- e)))
  end.

(** ** The interpreter builtins that the handlers call

    [float(text)], [int(text)] and [text.lower()] belong to the interpreter,
    not to the program.  The handlers take them as an interface; every
    general statement below holds for every implementation of it.
    [None] stands for [ValueError]. *)
Class Builtins := {
  py_float : str -> option float;
  py_int : str -> option Z;
  py_lower : str -> str
}.

(** *** A reference implementation on ASCII input

    Used to run the handlers on concrete messages.  It covers the grammar
    of [float()] and [int()] for ASCII text (surrounding whitespace, sign,
    [inf], [infinity], [nan], decimal digits with single underscores between
    them, fraction, exponent) and lower-cases Latin and Cyrillic letters.
    The interpreter also reads the decimal digits and the white space of
    other scripts; a number written with a character outside ASCII is
    outside this implementation, which answers [None] for it. *)

Definition is_digit (c : N) : bool := ((48 <=? c) && (c <=? 57))%N.

(** The white space that [float()] and [int()] skip at the two ends of an
    ASCII text: the space and the control characters from TAB to CR.  The
    separators U+001C to U+001F, which [str.strip()] removes, are not
    skipped there: the text is refused. *)
Definition is_ascii_space (c : N) : bool :=
  ((9 <=? c) && (c <=? 13) || (c =? 32))%N.

Fixpoint skip_spaces (s : str) : str :=
  match s with
  | c :: r => if is_ascii_space c then skip_spaces r else s
  | [] => []
  end.

Definition trim (s : str) : str := rev (skip_spaces (rev (skip_spaces s))).
Definition digit_val (c : N) : Z := Z.of_N c - 48.

Definition ascii_lower_char (c : N) : N :=
  if ((65 <=? c) && (c <=? 90))%N then (c + 32)%N
  else if ((1040 <=? c) && (c <=? 1071))%N then (c + 32)%N
  else if ((1024 <=? c) && (c <=? 1039))%N then (c + 80)%N
  else c.

Definition ascii_lower (s : str) : str := map ascii_lower_char s.

(** A run [d(_?d)*] of digits at the head of [s]: its value so far, the
    number of digits read, and the rest of the text. *)
Fixpoint digit_run (s : str) (acc : Z) (n : Z) : Z * Z * str :=
  match s with
  | c :: r =>
    if is_digit c then digit_run r (10 * acc + digit_val c) (n + 1)
    else
      match r with
      | c' :: _ =>
        if (c =? 95)%N && is_digit c' && (0 <? n) then digit_run r acc n
        else (acc, n, s)
      | [] => (acc, n, s)
      end
  | [] => (acc, n, s)
  end.

Definition split_sign (s : str) : bool * str :=
  match s with
  | c :: r =>
    if (c =? 45)%N then (true, r)
    else if (c =? 43)%N then (false, r)
    else (false, s)
  | [] => (false, s)
  end.

Definition ascii_int (text : str) : option Z :=
  let '(neg, body) := split_sign (trim text) in
  match digit_run body 0 0 with
  | (v, n, []) => if 0 <? n then Some (if neg then - v else v) else None
  | _ => None
  end.

(** The exponent part [[eE][+-]?digits] (or nothing) up to the end. *)
Definition exponent_part (s : str) : option Z :=
  match s with
  | [] => Some 0
  | c :: r =>
    if ((c =? 101) || (c =? 69))%N then
      let '(neg, digits) := split_sign r in
      match digit_run digits 0 0 with
      | (v, n, []) => if 0 <? n then Some (if neg then - v else v) else None
      | _ => None
      end
    else None
  end.

Definition ascii_float (text : str) : option float :=
  let '(neg, body) := split_sign (trim text) in
  let word := ascii_lower body in
  if str_eqb word (py "inf") || str_eqb word (py "infinity")
  then Some (S754_infinity neg)
  else if str_eqb word (py "nan") then Some S754_nan
  else
    let '(ip, ni, r1) := digit_run body 0 0 in
    let '(m, nf, r2) :=
      match r1 with
      | c :: r =>
        if (c =? 46)%N then
          let '(m, n, r') := digit_run r ip 0 in (m, n, r')
        else (ip, 0, r1)
      | [] => (ip, 0, r1)
      end in
    if 0 <? ni + nf then
      match exponent_part r2 with
      | Some e => Some (float_of_decimal neg m (e - nf))
      | None => None
      end
    else None.

Definition ascii_builtins : Builtins :=
  {| py_float := ascii_float; py_int := ascii_int; py_lower := ascii_lower |}.

(* ================================================================== *)
(** * Data classes *)
(* ================================================================== *)

(** The annotations of a [@dataclass] are not enforced at run time: the
    handlers build a [Product] from [user_data.get(...)], which is [None]
    for a key that was never stored.  Fields that receive such values are
    optional here; [None] is Python's [None]. *)

Module Product.
Record t := mk {
  id : Z;
  name : option str;
  description : option str;
  price : option float;
  category_id : option Z;
  city_id : option Z;
  photo_url : option str;
  is_active : bool
}.
(** [product.id = i] *)
Definition set_id (i : Z) (p : t) : t :=
  mk i (name p) (description p) (price p) (category_id p) (city_id p)
     (photo_url p) (is_active p).
End Product.

Module Category.
Record t := mk {
  id : Z;
  name : str;
  city_id : option Z;
  is_active : bool
}.
Definition set_id (i : Z) (c : t) : t :=
  mk i (name c) (city_id c) (is_active c).
End Category.

Module City.
Record t := mk {
  id : Z;
  name : str;
  order : Z;
  is_active : bool
}.
Definition set_id (i : Z) (c : t) : t :=
  mk i (name c) (order c) (is_active c).
(** [city.order = o] *)
Definition set_order (o : Z) (c : t) : t :=
  mk (id c) (name c) o (is_active c).
End City.

Module Order.
Record t := mk {
  id : Z;
  user_id : Z;
  username : str;
  product_id : Z;
  product_name : option str;
  price : option float;
  payment_method : option str;
  payment_proof : str;
  status : str;
  timestamp : str
}.
Definition set_id (i : Z) (o : t) : t :=
  mk i (user_id o) (username o) (product_id o) (product_name o) (price o)
     (payment_method o) (payment_proof o) (status o) (timestamp o).
(** The default of the [status] field. *)
Definition default_status : str := py "pending".
End Order.

(** An entry of [users.json]: [{'id': ..., 'username': ..., 'date': ...}]. *)
Module User.
Record t := mk {
  id : Z;
  username : str;
  date : str
}.
End User.

(** The values that a field of the settings can hold and that a keyword
    argument carries here: [None], booleans, numbers and strings.  (Python
    lets a keyword argument carry any object; classes and dictionaries are
    not among these values.) *)
Inductive pyval :=
| VNone
| VBool (b : bool)
| VInt (z : Z)
| VFloat (x : float)
| VStr (s : str).

(** ** Attributes of a dataclass instance

    The settings singletons are instances of plain [@dataclass] classes.
    [hasattr(obj, key)] is true of the declared fields, and also of every
    other attribute that the instance gets from its class and from
    [object] ([__class__], [__dict__], [__eq__], [__doc__], ...).  What
    [setattr(obj, key, value)] does under that guard depends on the name:
    - a declared field is rebound to the value, whatever the value is;
    - [__class__], [__dict__] and [__weakref__] are data descriptors of the
      type: the assignment goes to the descriptor, which raises for every
      value of [pyval] ([TypeError]: not a class, not a dictionary;
      [AttributeError]: not writable);
    - for every other attribute the assignment stores an instance
      attribute of that name beside the fields, which stay as they are.
    A key that names no attribute at all does not pass the guard, and the
    fields stay as they are as well.  The records below hold the fields:
    an instance attribute stored under another name is read nowhere in the
    program and is not part of them. *)
Definition data_descriptors : list string :=
  ["__class__"; "__dict__"; "__weakref__"]%string.
Definition is_data_descriptor (key : string) : bool :=
  existsb (String.eqb key) data_descriptors.

(** The two settings singletons.  [setattr] stores whatever value it is
    given, so a field holds a [pyval]. *)
Module PaymentDetails.
Record t := mk {
  card_number : pyval;
  card_holder : pyval;
  crypto_wallet : pyval;
  crypto_network : pyval;
  crypto_coin : pyval
}.
Definition default : t :=
  mk (VStr (py "2200 1234 5678 9012")) (VStr (py "Иван Иванов"))
     (VStr (py "TXYZ1234567890abcdef")) (VStr (py "TRC20 (TRON)"))
     (VStr (py "USDT")).
(** The names of the dataclass fields. *)
Definition fields : list string :=
  ["card_number"; "card_holder"; "crypto_wallet"; "crypto_network";
   "crypto_coin"]%string.
(** Whether [key] is the name of a declared field. *)
Definition is_field (key : string) : bool := existsb (String.eqb key) fields.
(** The field that [key] names, as [obj.key] reads it; [None] for a key
    that names no field. *)
Definition field (key : string) (o : t) : option pyval :=
  if String.eqb key "card_number" then Some (card_number o)
  else if String.eqb key "card_holder" then Some (card_holder o)
  else if String.eqb key "crypto_wallet" then Some (crypto_wallet o)
  else if String.eqb key "crypto_network" then Some (crypto_network o)
  else if String.eqb key "crypto_coin" then Some (crypto_coin o)
  else None.
(** [setattr(obj, key, value)] for the name of a declared field. *)
Definition setattr (key : string) (v : pyval) (o : t) : t :=
  if String.eqb key "card_number"
  then mk v (card_holder o) (crypto_wallet o) (crypto_network o) (crypto_coin o)
  else if String.eqb key "card_holder"
  then mk (card_number o) v (crypto_wallet o) (crypto_network o) (crypto_coin o)
  else if String.eqb key "crypto_wallet"
  then mk (card_number o) (card_holder o) v (crypto_network o) (crypto_coin o)
  else if String.eqb key "crypto_network"
  then mk (card_number o) (card_holder o) (crypto_wallet o) v (crypto_coin o)
  else if String.eqb key "crypto_coin"
  then mk (card_number o) (card_holder o) (crypto_wallet o) (crypto_network o) v
  else o.
End PaymentDetails.

Module OperatorSettings.
Record t := mk {
  operator_link : pyval;
  operator_enabled : pyval;
  operator_button_text : pyval
}.
Definition default : t :=
  mk (VStr (py "https://t.me/operator_bot")) (VBool false)
     (VStr (py "👨‍💼 Связаться с оператором")).
Definition fields : list string :=
  ["operator_link"; "operator_enabled"; "operator_button_text"]%string.
Definition is_field (key : string) : bool := existsb (String.eqb key) fields.
Definition field (key : string) (o : t) : option pyval :=
  if String.eqb key "operator_link" then Some (operator_link o)
  else if String.eqb key "operator_enabled" then Some (operator_enabled o)
  else if String.eqb key "operator_button_text"
  then Some (operator_button_text o)
  else None.
Definition setattr (key : string) (v : pyval) (o : t) : t :=
  if String.eqb key "operator_link"
  then mk v (operator_enabled o) (operator_button_text o)
  else if String.eqb key "operator_enabled"
  then mk (operator_link o) v (operator_button_text o)
  else if String.eqb key "operator_button_text"
  then mk (operator_link o) (operator_enabled o) v
  else o.
End OperatorSettings.

(* ================================================================== *)
(** * AdminManager *)
(* ================================================================== *)

Module AdminManager.

(** [self.admins] *)
Record t := mk { admins : gset Z }.

(** [__init__]: the loaded set, with the owner added when it is missing
    ([YOUR_TELEGRAM_ID and YOUR_TELEGRAM_ID not in self.admins]). *)
Definition init (loaded : gset Z) (owner : Z) : t :=
  if bool_decide (owner <> 0) && negb (bool_decide (owner ∈ loaded))
  then mk ({[owner]} ∪ loaded)
  else mk loaded.

Definition is_admin (self : t) (user_id : Z) : bool :=
  bool_decide (user_id ∈ admins self).

Definition add_admin (self : t) (user_id requester_id : Z) : bool * t :=
  if negb (is_admin self requester_id) then (false, self)
  else (true, mk ({[user_id]} ∪ admins self)).

Definition remove_admin (self : t) (user_id requester_id : Z) : bool * t :=
  if negb (is_admin self requester_id) then (false, self)
  else if bool_decide (user_id = requester_id) then (false, self)
  else if bool_decide (user_id ∈ admins self)
  then (true, mk (admins self ∖ {[user_id]}))
  else (false, self).

(** [list(self.admins)]: the members of the set, each once.  The order
    in which the interpreter lists a set is that of its hash table; the
    order of [elements] stands for it, and nothing below is stated about
    the order of this list. *)
Definition get_admins_list (self : t) : list Z := elements (admins self).

End AdminManager.

(* ================================================================== *)
(** * DataStorage *)
(* ================================================================== *)

Module DataStorage.

Record t := mk {
  products : gmap Z Product.t;
  categories : gmap Z Category.t;
  cities : gmap Z City.t;
  orders : gmap Z Order.t;
  users : list User.t;
  payment_details : PaymentDetails.t;
  operator_settings : OperatorSettings.t;
  next_product_id : Z;
  next_category_id : Z;
  next_city_id : Z;
  next_order_id : Z
}.

Definition set_products (v : gmap Z Product.t) (s : t) : t :=
  mk v (categories s) (cities s) (orders s) (users s) (payment_details s)
     (operator_settings s) (next_product_id s) (next_category_id s)
     (next_city_id s) (next_order_id s).
Definition set_categories (v : gmap Z Category.t) (s : t) : t :=
  mk (products s) v (cities s) (orders s) (users s) (payment_details s)
     (operator_settings s) (next_product_id s) (next_category_id s)
     (next_city_id s) (next_order_id s).
Definition set_cities (v : gmap Z City.t) (s : t) : t :=
  mk (products s) (categories s) v (orders s) (users s) (payment_details s)
     (operator_settings s) (next_product_id s) (next_category_id s)
     (next_city_id s) (next_order_id s).
Definition set_orders (v : gmap Z Order.t) (s : t) : t :=
  mk (products s) (categories s) (cities s) v (users s) (payment_details s)
     (operator_settings s) (next_product_id s) (next_category_id s)
     (next_city_id s) (next_order_id s).
Definition set_users (v : list User.t) (s : t) : t :=
  mk (products s) (categories s) (cities s) (orders s) v (payment_details s)
     (operator_settings s) (next_product_id s) (next_category_id s)
     (next_city_id s) (next_order_id s).
Definition set_payment_details (v : PaymentDetails.t) (s : t) : t :=
  mk (products s) (categories s) (cities s) (orders s) (users s) v
     (operator_settings s) (next_product_id s) (next_category_id s)
     (next_city_id s) (next_order_id s).
Definition set_operator_settings (v : OperatorSettings.t) (s : t) : t :=
  mk (products s) (categories s) (cities s) (orders s) (users s)
     (payment_details s) v (next_product_id s) (next_category_id s)
     (next_city_id s) (next_order_id s).
Definition set_next_product_id (v : Z) (s : t) : t :=
  mk (products s) (categories s) (cities s) (orders s) (users s)
     (payment_details s) (operator_settings s) v (next_category_id s)
     (next_city_id s) (next_order_id s).
Definition set_next_category_id (v : Z) (s : t) : t :=
  mk (products s) (categories s) (cities s) (orders s) (users s)
     (payment_details s) (operator_settings s) (next_product_id s) v
     (next_city_id s) (next_order_id s).
Definition set_next_city_id (v : Z) (s : t) : t :=
  mk (products s) (categories s) (cities s) (orders s) (users s)
     (payment_details s) (operator_settings s) (next_product_id s)
     (next_category_id s) v (next_order_id s).
Definition set_next_order_id (v : Z) (s : t) : t :=
  mk (products s) (categories s) (cities s) (orders s) (users s)
     (payment_details s) (operator_settings s) (next_product_id s)
     (next_category_id s) (next_city_id s) v.

(** [max(ids + [0])] *)
Definition max_id (ids : list Z) : Z := foldr Z.max 0 ids.

(** ** Adding entities *)

Definition add_user (user_id : Z) (username now : str) (s : t) : t :=
  if existsb (fun u => User.id u =? user_id) (users s) then s
  else set_users (users s ++ [User.mk user_id username now]) s.

Definition add_product (product : Product.t) (s : t) : Z * t :=
  let product := Product.set_id (next_product_id s) product in
  let s := set_products (<[Product.id product := product]> (products s)) s in
  let s := set_next_product_id (next_product_id s + 1) s in
  (Product.id product, s).

Definition add_category (category : Category.t) (s : t) : Z * t :=
  let category := Category.set_id (next_category_id s) category in
  let s :=
    set_categories (<[Category.id category := category]> (categories s)) s in
  let s := set_next_category_id (next_category_id s + 1) s in
  (Category.id category, s).

Definition add_city (city : City.t) (s : t) : Z * t :=
  let city := City.set_id (next_city_id s) city in
  let s := set_cities (<[City.id city := city]> (cities s)) s in
  let s := set_next_city_id (next_city_id s + 1) s in
  (City.id city, s).

Definition add_order (order : Order.t) (s : t) : Z * t :=
  let order := Order.set_id (next_order_id s) order in
  let s := set_orders (<[Order.id order := order]> (orders s)) s in
  let s := set_next_order_id (next_order_id s + 1) s in
  (Order.id order, s).

(** ** Settings: [**kwargs] is the dictionary of the keyword arguments,
    whose items come in the order in which the call names them. *)

(** [if hasattr(obj, key): setattr(obj, key, value)] on the fields of the
    object; [None] when the assignment raises. *)
Definition patch_step {T : Type} (is_field : string -> bool)
    (setattr : string -> pyval -> T -> T) (o : T) (kv : string * pyval)
  : option T :=
  if is_field kv.1 then Some (setattr kv.1 kv.2 o)
  else if is_data_descriptor kv.1 then None
  else Some o.

(** [for key, value in kwargs.items(): ...] inside [try]: an assignment
    that raises ends the loop; [except Exception] prints the error and the
    method returns.  The assignments made before it stay, the items after
    it are not looked at. *)
Fixpoint patch_loop {T : Type} (is_field : string -> bool)
    (setattr : string -> pyval -> T -> T) (o : T)
    (items : list (string * pyval)) : T :=
  match items with
  | [] => o
  | kv :: items =>
    match patch_step is_field setattr o kv with
    | Some o => patch_loop is_field setattr o items
    | None => o
    end
  end.

Definition update_payment_details (kwargs : list (string * pyval)) (s : t) : t :=
  set_payment_details
    (patch_loop PaymentDetails.is_field PaymentDetails.setattr
                (payment_details s) kwargs) s.

Definition update_operator_settings (kwargs : list (string * pyval)) (s : t) : t :=
  set_operator_settings
    (patch_loop OperatorSettings.is_field OperatorSettings.setattr
                (operator_settings s) kwargs) s.

(** ** City order *)

Definition update_city_order (city_id order : Z) (s : t) : bool * t :=
  match cities s !! city_id with
  | Some _ => (true, set_cities (alter (City.set_order order) city_id (cities s)) s)
  | None => (false, s)
  end.

(** One turn of the loop of [bulk_update_city_orders]. *)
Definition bulk_update_step (cs : gmap Z City.t) (item : Z * Z) : gmap Z City.t :=
  match cs !! item.1 with
  | Some _ => alter (City.set_order item.2) item.1 cs
  | None => cs
  end.

Definition bulk_update_city_orders (order_mapping : gmap Z Z) (s : t) : bool * t :=
  (true, set_cities (foldl bulk_update_step (cities s) (map_to_list order_mapping)) s).

(** ** Deleting entities *)

Definition delete_product (product_id : Z) (s : t) : bool * t :=
  match products s !! product_id with
  | Some _ => (true, set_products (delete product_id (products s)) s)
  | None => (false, s)
  end.

Definition delete_category (category_id : Z) (s : t) : bool * t :=
  match categories s !! category_id with
  | Some _ =>
    let s := set_categories (delete category_id (categories s)) s in
    let products_to_delete :=
      (filter (fun kp => Product.category_id kp.2 = Some category_id)
              (map_to_list (products s))).*1 in
    (true, foldl (fun s prod_id => (delete_product prod_id s).2) s products_to_delete)
  | None => (false, s)
  end.

Definition delete_city (city_id : Z) (s : t) : bool * t :=
  match cities s !! city_id with
  | Some _ =>
    let s := set_cities (delete city_id (cities s)) s in
    let categories_to_delete :=
      (filter (fun kc => Category.city_id kc.2 = Some city_id)
              (map_to_list (categories s))).*1 in
    (true, foldl (fun s cat_id => (delete_category cat_id s).2) s categories_to_delete)
  | None => (false, s)
  end.

(** [get_city_products]: the active products attached directly to a city. *)
Definition get_city_products (city_id : Z) (s : t) : list Product.t :=
  filter (fun p => Product.city_id p = Some city_id
                   /\ Product.category_id p = None
                   /\ Product.is_active p = true)
         (map_to_list (products s)).*2.

(** ** Start-up *)

Definition test_city_names : list str :=
  map py ["🌍Калининград🌍"; "Гурьевск"; "Зеленоградск"; "Гвардейск";
          "Советск"; "Полесск"; "Балтийск"; "Светлогорск"; "Гусев";
          "Черняховск"; "Светлый"; "Пионерский"; "Багратионовск"; "Янтарный";
          "Мамоново"; "Неман"; "Краснознаменск"; "Нестеров"; "Знаменск";
          "Правдинск"; "Приморск"]%string.

(** The [city_order] dictionary of [create_test_data]: the n-th name has
    order n. *)
Definition city_order : list (str * Z) :=
  imap (fun i nm => (nm, Z.of_nat i + 1)) test_city_names.

Definition create_test_data (s : t) : t :=
  let '(cs, _) :=
    foldl (fun '(cs, current_id) '(city_name, order) =>
             (<[current_id := City.mk current_id city_name order true]> cs,
              current_id + 1))
          (cities s, 1) city_order in
  let s := set_cities cs s in
  let category1 := Category.mk 1 (py "Электроника") (Some 1) true in
  let category2 := Category.mk 2 (py "Одежда") (Some 1) true in
  let s := set_categories (<[2 := category2]> (<[1 := category1]> (categories s))) s in
  let product1 :=
    Product.mk 1 (Some (py "iPhone 15 Pro"))
               (Some (py "Новый iPhone с улучшенной камерой"))
               (Some (float_of_decimal false 9999999 (-2)))
               (Some 1) None None true in
  let product2 :=
    Product.mk 2 (Some (py "Футболка Premium"))
               (Some (py "Качественная хлопковая футболка"))
               (Some (float_of_decimal false 299999 (-2)))
               (Some 2) None None true in
  set_products (<[2 := product2]> (<[1 := product1]> (products s))) s.

(** [__init__] on the collections read from disk. *)
Definition init (products : gmap Z Product.t) (categories : gmap Z Category.t)
    (cities : gmap Z City.t) (orders : gmap Z Order.t) (users : list User.t)
    (payment_details : PaymentDetails.t)
    (operator_settings : OperatorSettings.t) : t :=
  let s :=
    mk products categories cities orders users payment_details
       operator_settings
       (max_id (Product.id <$> (map_to_list products).*2) + 1)
       (max_id (Category.id <$> (map_to_list categories).*2) + 1)
       (max_id (City.id <$> (map_to_list cities).*2) + 1)
       (max_id (Order.id <$> (map_to_list orders).*2) + 1) in
  if bool_decide (cities = ∅) then create_test_data s else s.

End DataStorage.

(* ================================================================== *)
(** * The conversation engine *)
(* ================================================================== *)

(** [class UserState(StatesGroup)] *)
Inductive UserState :=
| waiting_for_payment_proof
| waiting_for_city_name
| waiting_for_category_name
| waiting_for_product_name
| waiting_for_product_description
| waiting_for_product_price
| waiting_for_product_category
| waiting_for_product_photo
| waiting_for_broadcast_message
| waiting_for_new_admin_id
| waiting_for_remove_admin_id
| waiting_for_delete_city
| waiting_for_delete_category
| waiting_for_delete_product
| waiting_for_card_number
| waiting_for_card_holder
| waiting_for_crypto_wallet
| waiting_for_crypto_network
| waiting_for_crypto_coin
| waiting_for_multiple_products_category
| waiting_for_multiple_products_data
| waiting_for_multiple_products_descriptions
| waiting_for_multiple_products_prices
| waiting_for_multiple_products_photos
| waiting_for_operator_link
| waiting_for_operator_button_text
| waiting_for_city_order
| waiting_for_city_for_direct_product
| waiting_for_product_name_direct
| waiting_for_product_description_direct
| waiting_for_product_price_direct
| waiting_for_product_photo_direct.

(** The per-conversation dictionary behind [state.get_data()] and
    [state.update_data(key=value)].  The program stores a fixed set of keys,
    each always with a value of one type; a field is [None] when its key is
    absent (or holds [None]), which is what [user_data.get(key)] returns. *)
Module Data.
Record t := mk {
  selected_product_id : option Z;
  payment_method : option str;
  direct_city_id : option Z;
  direct_product_name : option str;
  direct_product_description : option str;
  direct_product_price : option float;
  category_city_id : option Z;
  product_category_id : option Z;
  product_name : option str;
  product_description : option str;
  product_price : option float;
  multiple_category_id : option Z;
  multiple_city_id : option Z;
  multiple_type : option str;
  product_names : option (list str);
  product_descriptions : option (list str);
  product_prices : option (list float);
  card_number : option str;
  crypto_wallet : option str;
  crypto_network : option str;
  broadcast_message : option str
}.

Definition empty : t :=
  mk None None None None None None None None None None None None None None
     None None None None None None None.

Definition set_selected_product_id (v : Z) (d : t) : t :=
  mk (Some v) (payment_method d) (direct_city_id d)
     (direct_product_name d) (direct_product_description d)
     (direct_product_price d) (category_city_id d) (product_category_id d)
     (product_name d) (product_description d) (product_price d)
     (multiple_category_id d) (multiple_city_id d) (multiple_type d)
     (product_names d) (product_descriptions d) (product_prices d)
     (card_number d) (crypto_wallet d) (crypto_network d)
     (broadcast_message d).

Definition set_payment_method (v : str) (d : t) : t :=
  mk (selected_product_id d) (Some v) (direct_city_id d)
     (direct_product_name d) (direct_product_description d)
     (direct_product_price d) (category_city_id d) (product_category_id d)
     (product_name d) (product_description d) (product_price d)
     (multiple_category_id d) (multiple_city_id d) (multiple_type d)
     (product_names d) (product_descriptions d) (product_prices d)
     (card_number d) (crypto_wallet d) (crypto_network d)
     (broadcast_message d).

Definition set_direct_product_price (v : float) (d : t) : t :=
  mk (selected_product_id d) (payment_method d) (direct_city_id d)
     (direct_product_name d) (direct_product_description d) (Some v)
     (category_city_id d) (product_category_id d) (product_name d)
     (product_description d) (product_price d) (multiple_category_id d)
     (multiple_city_id d) (multiple_type d) (product_names d)
     (product_descriptions d) (product_prices d) (card_number d)
     (crypto_wallet d) (crypto_network d) (broadcast_message d).

Definition set_product_price (v : float) (d : t) : t :=
  mk (selected_product_id d) (payment_method d) (direct_city_id d)
     (direct_product_name d) (direct_product_description d)
     (direct_product_price d) (category_city_id d) (product_category_id d)
     (product_name d) (product_description d) (Some v)
     (multiple_category_id d) (multiple_city_id d) (multiple_type d)
     (product_names d) (product_descriptions d) (product_prices d)
     (card_number d) (crypto_wallet d) (crypto_network d)
     (broadcast_message d).

Definition set_product_names (v : list str) (d : t) : t :=
  mk (selected_product_id d) (payment_method d) (direct_city_id d)
     (direct_product_name d) (direct_product_description d)
     (direct_product_price d) (category_city_id d) (product_category_id d)
     (product_name d) (product_description d) (product_price d)
     (multiple_category_id d) (multiple_city_id d) (multiple_type d)
     (Some v) (product_descriptions d) (product_prices d)
     (card_number d) (crypto_wallet d) (crypto_network d)
     (broadcast_message d).

Definition set_product_descriptions (v : list str) (d : t) : t :=
  mk (selected_product_id d) (payment_method d) (direct_city_id d)
     (direct_product_name d) (direct_product_description d)
     (direct_product_price d) (category_city_id d) (product_category_id d)
     (product_name d) (product_description d) (product_price d)
     (multiple_category_id d) (multiple_city_id d) (multiple_type d)
     (product_names d) (Some v) (product_prices d)
     (card_number d) (crypto_wallet d) (crypto_network d)
     (broadcast_message d).

Definition set_product_prices (v : list float) (d : t) : t :=
  mk (selected_product_id d) (payment_method d) (direct_city_id d)
     (direct_product_name d) (direct_product_description d)
     (direct_product_price d) (category_city_id d) (product_category_id d)
     (product_name d) (product_description d) (product_price d)
     (multiple_category_id d) (multiple_city_id d) (multiple_type d)
     (product_names d) (product_descriptions d) (Some v)
     (card_number d) (crypto_wallet d) (crypto_network d)
     (broadcast_message d).

(** [update_data(broadcast_message=message.text)]; the text may be [None]. *)
Definition set_broadcast_message (v : option str) (d : t) : t :=
  mk (selected_product_id d) (payment_method d) (direct_city_id d)
     (direct_product_name d) (direct_product_description d)
     (direct_product_price d) (category_city_id d) (product_category_id d)
     (product_name d) (product_description d) (product_price d)
     (multiple_category_id d) (multiple_city_id d) (multiple_type d)
     (product_names d) (product_descriptions d) (product_prices d)
     (card_number d) (crypto_wallet d) (crypto_network d) v.
End Data.

(** [FSMContext]: the current state of one conversation ([None] is idle)
    and its dictionary. *)
Module FSMContext.
Record t := mk {
  state : option UserState;
  data : Data.t
}.
(** [await state.clear()] *)
Definition clear (c : t) : t := mk None Data.empty.
(** [await state.set_state(s)] *)
Definition set_state (s : UserState) (c : t) : t := mk (Some s) (data c).
(** [await state.update_data(...)] *)
Definition update_data (f : Data.t -> Data.t) (c : t) : t :=
  mk (state c) (f (data c)).
End FSMContext.

(** An incoming message.  [photo] lists the file ids of the sizes of the
    attached photo, smallest first (empty when there is none). *)
Module Message.
Record t := mk {
  from_user_id : Z;
  from_user_username : option str;
  text : option str;
  photo : list str;
  document : option str
}.
End Message.

(** A button press. *)
Module CallbackQuery.
Record t := mk {
  from_user_id : Z;
  data : str
}.
End CallbackQuery.

Inductive Exn :=
| ValueError
| TypeError
| AttributeError
| IndexError
| ZeroDivisionError.

(** What a handler sends back to the chat it serves.  A constructor stands
    for one message of the source (quoted beside it) and carries the values
    that the message text is formatted from. *)
Inductive Reply :=
(* show_product_detail, select_payment_method *)
| ProductUnavailable                    (* "⚠️ Товар не найден" *)
| ProductCard (product_id : Z) (price : str)  (* "📦 ... 💰 Цена: ...₽ ... Выберите способ оплаты:" *)
| ProductLoadError                      (* "⚠️ Произошла ошибка при загрузке товара" *)
| PaymentInfo (payment_method : str) (amount : option str)  (* "💳 Оплата банковской картой ..." / "₿ Оплата криптовалютой ..." *)
| PaymentSelectError                    (* "⚠️ Произошла ошибка при выборе оплаты" *)
(* receive_payment_proof *)
| ProductNotFound                       (* "⚠️ Ошибка: товар не найден" *)
| AskPaymentProof                       (* "⚠️ Пожалуйста, отправьте фото или документ ..." *)
| OrderAccepted (order_id : Z)          (* "✅ Спасибо! Ваш заказ #... принят." *)
| OrderAcceptedUnnotified               (* "⚠️ Заказ принят, но возникли проблемы ..." *)
| WhatNext                              (* "Что хотите сделать дальше?" *)
| PaymentError                          (* "⚠️ Произошла ошибка при обработке платежа" *)
(* single product add, both flows *)
| PriceMustBePositive                   (* "⚠️ Цена должна быть больше 0" *)
| PriceNotANumber                       (* "⚠️ Пожалуйста, введите корректную цену (число)" *)
| AskProductPhoto                       (* "Отправьте фото товара (или отправьте 'нет' ...):" *)
| AskPhotoOrNo                          (* "⚠️ Пожалуйста, отправьте фото или 'нет'" *)
| CityNotFound                          (* "❌ Ошибка: город не найден" / "Город не найден" *)
| ProductAdded (product_id : Z) (price : str)        (* "✅ Товар успешно добавлен!" *)
| ProductAddedToCity (product_id : Z) (price : str)  (* "✅ Товар успешно добавлен в город!" *)
(* bulk product add *)
| NoProductNames                        (* "⚠️ Не найдено названий товаров. ..." *)
| AskDescriptions (names : list str)    (* "✅ Найдено ... товаров. ..." *)
| DescriptionCountMismatch (given expected : nat)  (* "⚠️ Количество описаний (...) не совпадает ..." *)
| AskPrices (names descriptions : list str)        (* "✅ Описания сохранены. ..." *)
| PriceCountMismatch (given expected : nat)        (* "⚠️ Количество цен (...) не совпадает ..." *)
| BulkPriceMustBePositive (name : option str)      (* "⚠️ Цена для товара '...' должна быть больше 0" *)
| BulkPriceNotANumber (name : option str) (price_text : str)  (* "⚠️ Некорректная цена для товара ..." *)
| AskBulkPhoto (prices : list str)      (* "✅ Цены сохранены. ..." *)
| BulkPriceError (e : Exn)              (* "⚠️ Ошибка при обработке цен: ..." *)
| BulkCountsDiffer                      (* "❌ Ошибка: количество названий, описаний и цен не совпадает" *)
| BulkAdded (to_city : bool) (product_ids : list Z)  (* "✅ Успешно добавлено ... товаров ..." *)
| BulkNothingAdded                      (* "❌ Не удалось добавить товары" *)
(* city and category add *)
| CityNameTooShort                      (* "⚠️ Название города должно быть не менее 2 символов" *)
| CityAdded (city_id : Z)               (* "✅ Город '...' добавлен (ID: ...)!" *)
| CategoryNameTooShort                  (* "⚠️ Название категории должно быть не менее 2 символов" *)
| CategoryAdded (category_id : Z)       (* "✅ Категория '...' добавлена в город '...' (ID: ...)!" *)
(* city order *)
| AskCityIds                            (* "⚠️ Введите список ID городов через запятую ..." *)
| CitiesNotFound (missing_ids : list Z) (* "⚠️ Не найдены города с ID: ..." *)
| CityOrderUpdated (cities : list City.t)  (* "✅ Порядок городов обновлен!" *)
| CityOrderFailed                       (* "❌ Не удалось обновить порядок городов" *)
| CityOrderBadFormat                    (* "⚠️ Некорректный формат. ..." *)
| CityOrderError (e : Exn)              (* "⚠️ Ошибка: ..." *)
(* deletion *)
| CityDeleted (name : str)              (* "✅ Город '...' удален!" *)
| CityNotDeleted                        (* "❌ Не удалось удалить город" *)
| CategoryNotFound                      (* "Категория не найдена" *)
| CategoryDeleted (name : str)          (* "✅ Категория '...' удалена!" *)
| CategoryNotDeleted                    (* "❌ Не удалось удалить категорию" *)
| ProductMissing                        (* "Товар не найден" *)
| ProductDeleted (name : option str)    (* "✅ Товар '...' удален!" *)
| ProductNotDeleted                     (* "❌ Не удалось удалить товар" *)
(* broadcast *)
| NoUsers                               (* "⚠️ Нет пользователей для рассылки" *)
| ConfirmBroadcast (recipients : nat)   (* "📢 Подтверждение рассылки" *)
| BroadcastNothingToSend                (* "❌ Ошибка: нет сообщения или пользователей" *)
| BroadcastStarted (recipients : nat)   (* "📢 Начинаю рассылку для ... пользователей..." *)
| BroadcastProgress (i success failed : Z)  (* "📢 Рассылка: отправлено ... из ..." *)
| BroadcastReport (text : str).         (* "📢 Рассылка завершена ..." *)

(** What a handler leaves behind: the store, the conversation, the messages
    sent to the chat, the deliveries attempted to other chats (recipient
    ids, in order), and the exception that escaped the handler, if any. *)
Record Outcome := mkOutcome {
  storage_db : DataStorage.t;
  fsm : FSMContext.t;
  replies : list Reply;
  deliveries : list Z;
  raised : option Exn
}.

Definition done (db : DataStorage.t) (c : FSMContext.t) (rs : list Reply) : Outcome :=
  mkOutcome db c rs [] None.

Definition raise (e : Exn) (db : DataStorage.t) (c : FSMContext.t) : Outcome :=
  mkOutcome db c [] [] (Some e).

(** [x or default] on an optional string. *)
Definition str_or (x : option str) (default : str) : str :=
  match x with
  | Some (c :: r) => c :: r
  | _ => default
  end.

(** [int(callback.data.split("_")[n])] *)
Definition callback_arg `{Builtins} (n : nat) (data : str) : Exn + Z :=
  match split 95 data !! n with
  | None => inl IndexError
  | Some piece =>
    match py_int piece with
    | None => inl ValueError
    | Some z => inr z
    end
  end.

(* ================================================================== *)
(** * Handlers *)
(* ================================================================== *)

(** Every handler reads the two process-wide objects [admin_manager] and
    [storage_db] and, for message handlers, the [FSMContext] of the sender.
    Calls to the Telegram API that the source does not guard
    ([message.answer], [edit_text]) are taken to succeed; the deliveries
    that the source guards with [try]/[except] (admin notifications,
    broadcast) succeed or fail as an oracle of the environment says. *)

Section Handlers.
Context `{B : Builtins}.

(** [message.photo[-1].file_id] when [message.photo] is non-empty. *)
Definition last_photo (message : Message.t) : option str :=
  last (Message.photo message).

(** [message.text and message.text.lower() != 'нет'] *)
Definition text_is_not_no (message : Message.t) : bool :=
  match Message.text message with
  | Some (c :: r) => negb (str_eqb (py_lower (c :: r)) (py "нет"))
  | _ => false
  end.

(** ** Checkout *)

(** The whole body of the two selection handlers is inside [try]: an
    exception is answered with an error message. *)
Definition show_product_detail (db : DataStorage.t)
    (callback : CallbackQuery.t) (state : FSMContext.t) : Outcome :=
  match callback_arg 1 (CallbackQuery.data callback) with
  | inl _ => done db state [ProductLoadError]
  | inr product_id =>
    match DataStorage.products db !! product_id with
    | None => done db state [ProductUnavailable]
    | Some product =>
      if negb (Product.is_active product) then done db state [ProductUnavailable]
      else
        let state :=
          FSMContext.update_data (Data.set_selected_product_id product_id) state in
        match Product.price product with
        | None => done db state [ProductLoadError]
        | Some price => done db state [ProductCard product_id (format_f 2 price)]
        end
    end
  end.

Definition select_payment_method (db : DataStorage.t)
    (callback : CallbackQuery.t) (state : FSMContext.t) : Outcome :=
  match split 95 (CallbackQuery.data callback) !! 1%nat with
  | None => done db state [PaymentSelectError]
  | Some payment_method =>
    let state :=
      FSMContext.update_data (Data.set_payment_method payment_method) state in
    let product_id := Data.selected_product_id (FSMContext.data state) in
    (* [storage_db.products.get(product_id) if product_id else None] *)
    let product :=
      match product_id with
      | Some i => if i =? 0 then None else DataStorage.products db !! i
      | None => None
      end in
    match product with
    | Some product =>
      match Product.price product with
      | None => done db state [PaymentSelectError]
      | Some price =>
        done db (FSMContext.set_state waiting_for_payment_proof state)
             [PaymentInfo payment_method (Some (format_f 2 price))]
      end
    | None =>
      done db (FSMContext.set_state waiting_for_payment_proof state)
           [PaymentInfo payment_method None]
    end
  end.

(** [now] is the reading of the clock; [notify_ok admin_id] tells whether
    the notification to that admin is delivered. *)
Definition receive_payment_proof (now : str) (notify_ok : Z -> bool)
    (admin_manager : AdminManager.t) (db : DataStorage.t)
    (message : Message.t) (state : FSMContext.t) : Outcome :=
  let user_data := FSMContext.data state in
  let product_id := Data.selected_product_id user_data in
  let payment_method := Data.payment_method user_data in
  match product_id with
  | None => done db (FSMContext.clear state) [ProductNotFound]
  | Some product_id =>
    match DataStorage.products db !! product_id with
    | None => done db (FSMContext.clear state) [ProductNotFound]
    | Some product =>
      let proof :=
        match last_photo message with
        | Some file_id => Some file_id
        | None => Message.document message
        end in
      match proof with
      | None => done db state [AskPaymentProof]
      | Some payment_proof =>
        let order :=
          Order.mk 0 (Message.from_user_id message)
                   (str_or (Message.from_user_username message) (py "Без имени"))
                   product_id (Product.name product) (Product.price product)
                   payment_method payment_proof Order.default_status now in
        let '(order_id, db) := DataStorage.add_order order db in
        match Product.price product with
        | None =>
          (* [f"{product.price:.2f}"] raises inside the handler's [try] *)
          done db (FSMContext.clear state) [PaymentError]
        | Some _ =>
          let admins := AdminManager.get_admins_list admin_manager in
          let notification_sent := existsb notify_ok admins in
          mkOutcome db (FSMContext.clear state)
                    [if notification_sent then OrderAccepted order_id
                     else OrderAcceptedUnnotified; WhatNext]
                    admins None
        end
      end
    end
  end.

(** ** Single product add: the price step *)

Definition admin_add_product_to_city_price (admin_manager : AdminManager.t)
    (db : DataStorage.t) (message : Message.t) (state : FSMContext.t) : Outcome :=
  if negb (AdminManager.is_admin admin_manager (Message.from_user_id message))
  then done db (FSMContext.clear state) []
  else
    match Message.text message with
    | None => raise TypeError db state
    | Some text =>
      match py_float text with
      | None => done db state [PriceNotANumber]
      | Some price =>
        if float_le price float_zero then done db state [PriceMustBePositive]
        else
          let state :=
            FSMContext.update_data (Data.set_direct_product_price price) state in
          done db (FSMContext.set_state waiting_for_product_photo_direct state)
               [AskProductPhoto]
      end
    end.

Definition admin_add_product_price (admin_manager : AdminManager.t)
    (db : DataStorage.t) (message : Message.t) (state : FSMContext.t) : Outcome :=
  if negb (AdminManager.is_admin admin_manager (Message.from_user_id message))
  then done db (FSMContext.clear state) []
  else
    match Message.text message with
    | None => raise TypeError db state
    | Some text =>
      match py_float text with
      | None => done db state [PriceNotANumber]
      | Some price =>
        if float_le price float_zero then done db state [PriceMustBePositive]
        else
          let state :=
            FSMContext.update_data (Data.set_product_price price) state in
          done db (FSMContext.set_state waiting_for_product_photo state)
               [AskProductPhoto]
      end
    end.

(** ** Single product add: the photo step, which commits the product *)

Definition admin_add_product_finish (admin_manager : AdminManager.t)
    (db : DataStorage.t) (message : Message.t) (state : FSMContext.t) : Outcome :=
  if negb (AdminManager.is_admin admin_manager (Message.from_user_id message))
  then done db (FSMContext.clear state) []
  else
    let user_data := FSMContext.data state in
    let photo_url := last_photo message in
    if negb (bool_decide (is_Some photo_url)) && text_is_not_no message
    then done db state [AskPhotoOrNo]
    else
      let product :=
        Product.mk 0 (Data.product_name user_data)
                   (Data.product_description user_data)
                   (Data.product_price user_data)
                   (Data.product_category_id user_data)
                   None photo_url true in
      let '(product_id, db) := DataStorage.add_product product db in
      match Product.price product with
      | None => raise TypeError db state
      | Some price =>
        done db (FSMContext.clear state)
             [ProductAdded product_id (format_f 2 price)]
      end.

Definition admin_add_product_to_city_finish (admin_manager : AdminManager.t)
    (db : DataStorage.t) (message : Message.t) (state : FSMContext.t) : Outcome :=
  if negb (AdminManager.is_admin admin_manager (Message.from_user_id message))
  then done db (FSMContext.clear state) []
  else
    let user_data := FSMContext.data state in
    let photo_url := last_photo message in
    if negb (bool_decide (is_Some photo_url)) && text_is_not_no message
    then done db state [AskPhotoOrNo]
    else
      let city_id := Data.direct_city_id user_data in
      match city_id ≫= (fun i => DataStorage.cities db !! i) with
      | None => done db (FSMContext.clear state) [CityNotFound]
      | Some city =>
        let product :=
          Product.mk 0 (Data.direct_product_name user_data)
                     (Data.direct_product_description user_data)
                     (Data.direct_product_price user_data)
                     None city_id photo_url true in
        let '(product_id, db) := DataStorage.add_product product db in
        match Product.price product with
        | None => raise TypeError db state
        | Some price =>
          done db (FSMContext.clear state)
               [ProductAddedToCity product_id (format_f 2 price)]
        end
      end.

(** ** Bulk product add *)

Definition admin_add_multiple_products_names (admin_manager : AdminManager.t)
    (db : DataStorage.t) (message : Message.t) (state : FSMContext.t) : Outcome :=
  if negb (AdminManager.is_admin admin_manager (Message.from_user_id message))
  then done db (FSMContext.clear state) []
  else
    match Message.text message with
    | None => raise AttributeError db state
    | Some text =>
      let product_names := comma_items text in
      match product_names with
      | [] => done db state [NoProductNames]
      | _ =>
        let state :=
          FSMContext.update_data (Data.set_product_names product_names) state in
        done db
             (FSMContext.set_state waiting_for_multiple_products_descriptions state)
             [AskDescriptions product_names]
      end
    end.

Definition admin_add_multiple_products_descriptions
    (admin_manager : AdminManager.t) (db : DataStorage.t)
    (message : Message.t) (state : FSMContext.t) : Outcome :=
  if negb (AdminManager.is_admin admin_manager (Message.from_user_id message))
  then done db (FSMContext.clear state) []
  else
    let user_data := FSMContext.data state in
    let product_names := default [] (Data.product_names user_data) in
    match Message.text message with
    | None => raise AttributeError db state
    | Some text =>
      let descriptions := comma_items text in
      if negb (length descriptions =? length product_names)%nat
      then done db state
                [DescriptionCountMismatch (length descriptions) (length product_names)]
      else
        let state :=
          FSMContext.update_data (Data.set_product_descriptions descriptions) state in
        done db (FSMContext.set_state waiting_for_multiple_products_prices state)
             [AskPrices product_names descriptions]
    end.

(** The loop over [enumerate(price_texts)]: the prices read so far, or the
    answer that reports the first token that is refused. *)
Fixpoint read_prices (product_names : list str) (i : nat)
    (price_texts : list str) (prices : list float) : Reply + list float :=
  match price_texts with
  | [] => inr prices
  | price_text :: rest =>
    match py_float price_text with
    | None => inl (BulkPriceNotANumber (product_names !! i) price_text)
    | Some price =>
      if float_le price float_zero
      then inl (BulkPriceMustBePositive (product_names !! i))
      else read_prices product_names (S i) rest (prices ++ [price])
    end
  end.

Definition admin_add_multiple_products_prices (admin_manager : AdminManager.t)
    (db : DataStorage.t) (message : Message.t) (state : FSMContext.t) : Outcome :=
  if negb (AdminManager.is_admin admin_manager (Message.from_user_id message))
  then done db (FSMContext.clear state) []
  else
    let user_data := FSMContext.data state in
    let product_names := default [] (Data.product_names user_data) in
    match Message.text message with
    | None => done db state [BulkPriceError AttributeError]
    | Some text =>
      let price_texts := comma_items text in
      if negb (length price_texts =? length product_names)%nat
      then done db state
                [PriceCountMismatch (length price_texts) (length product_names)]
      else
        match read_prices product_names 0 price_texts [] with
        | inl answer => done db state [answer]
        | inr prices =>
          let state :=
            FSMContext.update_data (Data.set_product_prices prices) state in
          (* the summary indexes the stored descriptions by every name *)
          if (length (default [] (Data.product_descriptions user_data))
              <? length product_names)%nat
          then done db state [BulkPriceError IndexError]
          else
            done db (FSMContext.set_state waiting_for_multiple_products_photos state)
                 [AskBulkPhoto (format_f 2 <$> prices)]
        end
    end.

(** The loop [for i, product_name in enumerate(product_names)] of the last
    step: one [add_product] per name. *)
Fixpoint add_products_loop (build : nat -> str -> Product.t) (i : nat)
    (product_names : list str) (db : DataStorage.t) (added : list Z)
  : list Z * DataStorage.t :=
  match product_names with
  | [] => (added, db)
  | product_name :: rest =>
    let '(product_id, db) := DataStorage.add_product (build i product_name) db in
    add_products_loop build (S i) rest db (added ++ [product_id])
  end.

Definition admin_add_multiple_products_finish (admin_manager : AdminManager.t)
    (db : DataStorage.t) (message : Message.t) (state : FSMContext.t) : Outcome :=
  if negb (AdminManager.is_admin admin_manager (Message.from_user_id message))
  then done db (FSMContext.clear state) []
  else
    let user_data := FSMContext.data state in
    let product_names := default [] (Data.product_names user_data) in
    let product_descriptions := default [] (Data.product_descriptions user_data) in
    let product_prices := default [] (Data.product_prices user_data) in
    let multiple_type := default (py "category") (Data.multiple_type user_data) in
    if negb (length product_names =? length product_descriptions)%nat
       || negb (length product_names =? length product_prices)%nat
    then done db (FSMContext.clear state) [BulkCountsDiffer]
    else
      let photo_url := last_photo message in
      if negb (bool_decide (is_Some photo_url)) && text_is_not_no message
      then done db state [AskPhotoOrNo]
      else if str_eqb multiple_type (py "category") then
        let category_id := Data.multiple_category_id user_data in
        let build i product_name :=
          Product.mk 0 (Some product_name)
                     (Some (default [] (product_descriptions !! i)))
                     (Some (default float_zero (product_prices !! i)))
                     category_id None photo_url true in
        let '(added, db) := add_products_loop build 0 product_names db [] in
        done db (FSMContext.clear state)
             [match added with [] => BulkNothingAdded | _ => BulkAdded false added end]
      else
        let city_id := Data.multiple_city_id user_data in
        let city := city_id ≫= (fun i => DataStorage.cities db !! i) in
        let build i product_name :=
          Product.mk 0 (Some product_name)
                     (Some (default [] (product_descriptions !! i)))
                     (Some (default float_zero (product_prices !! i)))
                     None city_id photo_url true in
        let '(added, db) := add_products_loop build 0 product_names db [] in
        match added, city with
        | [], _ => done db (FSMContext.clear state) [BulkNothingAdded]
        | _, Some _ => done db (FSMContext.clear state) [BulkAdded true added]
        | _, None => raise AttributeError db state   (* [city.order] on [None] *)
        end.

(** ** City order *)

(** [[int(id_str.strip()) for id_str in ... if id_str.strip()]]; [None] is
    the [ValueError] of the first piece that is not an integer. *)
Definition parse_city_ids (text : str) : option (list Z) :=
  mapM py_int (comma_items (strip text)).

(** [for order, city_id in enumerate(city_ids, 1): order_mapping[city_id] = order] *)
Definition order_mapping_step (m : gmap Z Z) (item : Z * Z) : gmap Z Z :=
  <[item.2 := item.1]> m.

Definition build_order_mapping (city_ids : list Z) : gmap Z Z :=
  foldl order_mapping_step ∅
        (imap (fun i city_id => (Z.of_nat i + 1, city_id)) city_ids).

Definition admin_set_city_order_finish (admin_manager : AdminManager.t)
    (db : DataStorage.t) (message : Message.t) (state : FSMContext.t) : Outcome :=
  if negb (AdminManager.is_admin admin_manager (Message.from_user_id message))
  then done db (FSMContext.clear state) []
  else
    match Message.text message with
    | None => done db (FSMContext.clear state) [CityOrderError AttributeError]
    | Some text =>
      match parse_city_ids text with
      | None => done db (FSMContext.clear state) [CityOrderBadFormat]
      | Some [] => done db state [AskCityIds]
      | Some city_ids =>
        let missing_ids :=
          filter (fun city_id => DataStorage.cities db !! city_id = None) city_ids in
        match missing_ids with
        | _ :: _ => done db state [CitiesNotFound missing_ids]
        | [] =>
          let order_mapping := build_order_mapping city_ids in
          let '(ok, db) := DataStorage.bulk_update_city_orders order_mapping db in
          let updated_cities :=
            omap (fun city_id => DataStorage.cities db !! city_id) city_ids in
          done db (FSMContext.clear state)
               [if ok then CityOrderUpdated updated_cities else CityOrderFailed]
        end
      end
    end.

(** ** Deletion *)

(** The callback handlers receive no [FSMContext]; the conversation is
    passed through unchanged. *)

Definition admin_delete_city_finish (admin_manager : AdminManager.t)
    (db : DataStorage.t) (callback : CallbackQuery.t) (state : FSMContext.t) : Outcome :=
  if negb (AdminManager.is_admin admin_manager (CallbackQuery.from_user_id callback))
  then done db state []
  else
    match callback_arg 3 (CallbackQuery.data callback) with
    | inl e => raise e db state
    | inr city_id =>
      match DataStorage.cities db !! city_id with
      | None => done db state [CityNotFound]
      | Some city =>
        let city_name := City.name city in
        let '(ok, db) := DataStorage.delete_city city_id db in
        done db state [if ok then CityDeleted city_name else CityNotDeleted]
      end
    end.

Definition admin_delete_category_finish (admin_manager : AdminManager.t)
    (db : DataStorage.t) (callback : CallbackQuery.t) (state : FSMContext.t) : Outcome :=
  if negb (AdminManager.is_admin admin_manager (CallbackQuery.from_user_id callback))
  then done db state []
  else
    match callback_arg 3 (CallbackQuery.data callback) with
    | inl e => raise e db state
    | inr category_id =>
      match DataStorage.categories db !! category_id with
      | None => done db state [CategoryNotFound]
      | Some category =>
        let category_name := Category.name category in
        let '(ok, db) := DataStorage.delete_category category_id db in
        done db state [if ok then CategoryDeleted category_name else CategoryNotDeleted]
      end
    end.

Definition admin_delete_product_finish (admin_manager : AdminManager.t)
    (db : DataStorage.t) (callback : CallbackQuery.t) (state : FSMContext.t) : Outcome :=
  if negb (AdminManager.is_admin admin_manager (CallbackQuery.from_user_id callback))
  then done db state []
  else
    match callback_arg 3 (CallbackQuery.data callback) with
    | inl e => raise e db state
    | inr product_id =>
      match DataStorage.products db !! product_id with
      | None => done db state [ProductMissing]
      | Some product =>
        let product_name := Product.name product in
        let '(ok, db) := DataStorage.delete_product product_id db in
        done db state [if ok then ProductDeleted product_name else ProductNotDeleted]
      end
    end.

(** ** Broadcast *)

Definition admin_broadcast_send (admin_manager : AdminManager.t)
    (db : DataStorage.t) (message : Message.t) (state : FSMContext.t) : Outcome :=
  if negb (AdminManager.is_admin admin_manager (Message.from_user_id message))
  then done db (FSMContext.clear state) []
  else
    match DataStorage.users db with
    | [] => done db (FSMContext.clear state) [NoUsers]
    | users =>
      let state :=
        FSMContext.update_data
          (Data.set_broadcast_message (Message.text message)) state in
      done db state [ConfirmBroadcast (length users)]
    end.

(** The counters and the trace of the sending loop. *)
Record Tally := mkTally {
  success : Z;
  failed : Z;
  attempted : list Z;       (* recipients of [bot.send_message], in order *)
  progress : list Reply     (* the progress messages shown *)
}.

(** The body of [for i, user in enumerate(users, 1)].  [send_ok i] tells
    whether the i-th [bot.send_message] returns, [edit_ok i] whether the
    progress update after the i-th send does; an exception from either one
    is caught by the same [except], which counts a failure. *)
Fixpoint broadcast_loop (send_ok edit_ok : nat -> bool)
    (i : nat) (users : list User.t) (t : Tally) : Tally :=
  match users with
  | [] => t
  | user :: rest =>
    let t := mkTally (success t) (failed t) (attempted t ++ [User.id user])
                     (progress t) in
    let t :=
      if send_ok i then
        let t := mkTally (success t + 1) (failed t) (attempted t) (progress t) in
        if (Z.of_nat i mod 10 =? 0) then
          if edit_ok i then
            mkTally (success t) (failed t) (attempted t)
                    (progress t ++ [BroadcastProgress (Z.of_nat i) (success t) (failed t)])
          else mkTally (success t) (failed t + 1) (attempted t) (progress t)
        else t
      else mkTally (success t) (failed t + 1) (attempted t) (progress t) in
    broadcast_loop send_ok edit_ok (S i) rest t
  end.

Definition nl : str := [10%N].

(** [result_text] of [confirm_broadcast]; [rate] is
    [success/len(users)*100]. *)
Definition broadcast_result_text (total : nat) (success failed : Z) (rate : float) : str :=
  py "📢 <b>Рассылка завершена</b>" ++ nl ++ nl
  ++ py "📊 <b>Результаты:</b>" ++ nl
  ++ py "• Всего получателей: " ++ str_of_Z (Z.of_nat total) ++ nl
  ++ py "• ✅ Успешно отправлено: " ++ str_of_Z success ++ nl
  ++ py "• ❌ Не удалось отправить: " ++ str_of_Z failed ++ nl ++ nl
  ++ py "📈 <b>Успешность:</b> " ++ format_f 1 rate ++ py "%".

Definition confirm_broadcast (send_ok edit_ok : nat -> bool)
    (admin_manager : AdminManager.t) (db : DataStorage.t)
    (callback : CallbackQuery.t) (state : FSMContext.t) : Outcome :=
  if negb (AdminManager.is_admin admin_manager (CallbackQuery.from_user_id callback))
  then done db state []
  else
    let user_data := FSMContext.data state in
    let users := DataStorage.users db in
    match Data.broadcast_message user_data, users with
    | Some (_ :: _), _ :: _ =>
      let t := broadcast_loop send_ok edit_ok 1 users
                              (mkTally 0 0 [] []) in
      match int_truediv (success t) (Z.of_nat (length users)) with
      | None =>
        mkOutcome db state (BroadcastStarted (length users) :: progress t)
                  (attempted t) (Some ZeroDivisionError)
      | Some ratio =>
        let rate := float_mul ratio (float_of_Z 100) in
        mkOutcome db (FSMContext.clear state)
                  (BroadcastStarted (length users) :: progress t
                   ++ [BroadcastReport
                         (broadcast_result_text (length users) (success t) (failed t) rate)])
                  (attempted t) None
      end
    | _, _ => done db (FSMContext.clear state) [BroadcastNothingToSend]
    end.

(** ** City and category add, registration *)

(** [not message.text or len(message.text.strip()) < 2] *)
Definition name_too_short (message : Message.t) : bool :=
  match Message.text message with
  | Some (c :: r) => (length (strip (c :: r)) <? 2)%nat
  | _ => true
  end.

Definition admin_add_city_finish (admin_manager : AdminManager.t)
    (db : DataStorage.t) (message : Message.t) (state : FSMContext.t) : Outcome :=
  if negb (AdminManager.is_admin admin_manager (Message.from_user_id message))
  then done db (FSMContext.clear state) []
  else if name_too_short message then done db state [CityNameTooShort]
  else
    let city := City.mk 0 (strip (default [] (Message.text message))) 999 true in
    let '(city_id, db) := DataStorage.add_city city db in
    done db (FSMContext.clear state) [CityAdded city_id].

Definition admin_add_category_finish (admin_manager : AdminManager.t)
    (db : DataStorage.t) (message : Message.t) (state : FSMContext.t) : Outcome :=
  if negb (AdminManager.is_admin admin_manager (Message.from_user_id message))
  then done db (FSMContext.clear state) []
  else
    let user_data := FSMContext.data state in
    let city_id := Data.category_city_id user_data in
    if name_too_short message then done db state [CategoryNameTooShort]
    else
      let category :=
        Category.mk 0 (strip (default [] (Message.text message))) city_id true in
      let '(category_id, db) := DataStorage.add_category category db in
      done db (FSMContext.clear state) [CategoryAdded category_id].

(** ** Runs of the program

    One step of the store: the effect of one handler call on [storage_db],
    for every handler that writes to it.  The administrator set, the
    message and the conversation of each call are arbitrary.  The settings
    handlers and [/start] are represented by the store methods they call. *)
Inductive workflow_step (db : DataStorage.t) : DataStorage.t -> Prop :=
| step_receive_payment_proof now notify_ok am m st :
    workflow_step db (storage_db (receive_payment_proof now notify_ok am db m st))
| step_add_product_finish am m st :
    workflow_step db (storage_db (admin_add_product_finish am db m st))
| step_add_product_to_city_finish am m st :
    workflow_step db (storage_db (admin_add_product_to_city_finish am db m st))
| step_add_multiple_products_finish am m st :
    workflow_step db (storage_db (admin_add_multiple_products_finish am db m st))
| step_set_city_order_finish am m st :
    workflow_step db (storage_db (admin_set_city_order_finish am db m st))
| step_delete_city_finish am cb st :
    workflow_step db (storage_db (admin_delete_city_finish am db cb st))
| step_delete_category_finish am cb st :
    workflow_step db (storage_db (admin_delete_category_finish am db cb st))
| step_delete_product_finish am cb st :
    workflow_step db (storage_db (admin_delete_product_finish am db cb st))
| step_add_city_finish am m st :
    workflow_step db (storage_db (admin_add_city_finish am db m st))
| step_add_category_finish am m st :
    workflow_step db (storage_db (admin_add_category_finish am db m st))
| step_add_user user_id username now :
    workflow_step db (DataStorage.add_user user_id username now db)
| step_update_payment_details kwargs :
    workflow_step db (DataStorage.update_payment_details kwargs db)
| step_update_operator_settings kwargs :
    workflow_step db (DataStorage.update_operator_settings kwargs db).

(** The stores that a run of handler calls can reach. *)
Definition reachable : DataStorage.t -> DataStorage.t -> Prop := rtc workflow_step.

End Handlers.

(** ** Calls of the store methods

    One call of a mutating method of [DataStorage].  The store accepts any
    product; [P] records what the callers guarantee about the products they
    pass to [add_product]. *)
Inductive store_call (P : Product.t -> Prop) (s : DataStorage.t) : DataStorage.t -> Prop :=
| call_add_user user_id username now :
    store_call P s (DataStorage.add_user user_id username now s)
| call_add_product p :
    P p -> store_call P s (DataStorage.add_product p s).2
| call_add_category c :
    store_call P s (DataStorage.add_category c s).2
| call_add_city c :
    store_call P s (DataStorage.add_city c s).2
| call_add_order o :
    store_call P s (DataStorage.add_order o s).2
| call_update_payment_details kwargs :
    store_call P s (DataStorage.update_payment_details kwargs s)
| call_update_operator_settings kwargs :
    store_call P s (DataStorage.update_operator_settings kwargs s)
| call_update_city_order city_id order :
    store_call P s (DataStorage.update_city_order city_id order s).2
| call_bulk_update_city_orders order_mapping :
    store_call P s (DataStorage.bulk_update_city_orders order_mapping s).2
| call_delete_city city_id :
    store_call P s (DataStorage.delete_city city_id s).2
| call_delete_category category_id :
    store_call P s (DataStorage.delete_category category_id s).2
| call_delete_product product_id :
    store_call P s (DataStorage.delete_product product_id s).2.

(** ** The products of a city's categories *)

(** The product references a category of the city [city_id]. *)
Definition in_category_of_city (categories : gmap Z Category.t) (city_id : Z)
    (p : Product.t) : bool :=
  match Product.category_id p with
  | Some c =>
    match categories !! c with
    | Some category => bool_decide (Category.city_id category = Some city_id)
    | None => false
    end
  | None => false
  end.

(** ** The design invariant on attachments *)

(** A product is attached to a category, or directly to a city, or to
    neither, never to both. *)
Definition single_attachment (p : Product.t) : Prop :=
  Product.category_id p = None \/ Product.city_id p = None.

Definition at_most_one_attachment (ps : gmap Z Product.t) : Prop :=
  forall product_id p, ps !! product_id = Some p -> single_attachment p.

(** ** Identifier allocation *)

(** Every key of a collection is below the counter that [add_*] will use. *)
Definition ids_below {A} (next : Z) (m : gmap Z A) : Prop :=
  forall k, is_Some (m !! k) -> k < next.

(* ================================================================== *)
(** * Further Python values *)
(* ================================================================== *)

(** [a < b] on two [str]: lexicographic on the code points. *)
Fixpoint str_ltb (a b : str) : bool :=
  match a, b with
  | _, [] => false
  | [], _ :: _ => true
  | x :: a', y :: b' =>
    if (x <? y)%N then true
    else if (y <? x)%N then false
    else str_ltb a' b'
  end.

(** [text.startswith(prefix)] *)
Fixpoint startswith (prefix text : str) : bool :=
  match prefix, text with
  | [], _ => true
  | _ :: _, [] => false
  | p :: prefix', c :: text' => (p =? c)%N && startswith prefix' text'
  end.

(** [bool(v)]: the truth value that [not v] and [if v] test. *)
Definition truthy (v : pyval) : bool :=
  match v with
  | VNone => false
  | VBool b => b
  | VInt z => negb (z =? 0)
  | VFloat (S754_zero _) => false
  | VFloat _ => true
  | VStr [] => false
  | VStr (_ :: _) => true
  end.

(** [x + y] on floats. *)
Definition float_add (x y : float) : float := SFadd prec emax x y.

(** [sum(prices)]: the running total starts at [0]; [None] is the
    [TypeError] of adding a price that is [None]. *)
Definition sum_prices (prices : list (option float)) : option float :=
  foldl (fun total price =>
           match total, price with
           | Some t, Some p => Some (float_add t p)
           | _, _ => None
           end)
        (Some float_zero) prices.

(** [items.sort(key=...)] and [sorted(items, key=...)]: the stable sort.
    [lt a b] is [key(a) < key(b)].  An item is placed behind the items
    already placed that are not greater, so equal keys keep the order in
    which they came. *)
Fixpoint insort {A : Type} (lt : A -> A -> bool) (x : A) (placed : list A) : list A :=
  match placed with
  | [] => [x]
  | y :: rest => if lt x y then x :: placed else y :: insort lt x rest
  end.

Definition sort_by {A : Type} (lt : A -> A -> bool) (items : list A) : list A :=
  foldl (fun placed x => insort lt x placed) [] items.

(** [(a.order, a.name) < (b.order, b.name)] *)
Definition city_key_ltb (a b : City.t) : bool :=
  (City.order a <? City.order b)
  || (City.order a =? City.order b) && str_ltb (City.name a) (City.name b).

(** A keyword argument taken from the conversation dictionary: the stored
    text, or [None] when the key is absent. *)
Definition value_of (x : option str) : pyval :=
  match x with
  | Some s => VStr s
  | None => VNone
  end.

(* ================================================================== *)
(** * Further handlers *)
(* ================================================================== *)

(** [state.update_data(key=value)] for the keys written by the handlers of
    this part. *)
Module Draft.
Definition set_direct_city_id (v : Z) (d : Data.t) : Data.t :=
  Data.mk (Data.selected_product_id d) (Data.payment_method d) (Some v)
     (Data.direct_product_name d) (Data.direct_product_description d)
     (Data.direct_product_price d) (Data.category_city_id d)
     (Data.product_category_id d) (Data.product_name d)
     (Data.product_description d) (Data.product_price d)
     (Data.multiple_category_id d) (Data.multiple_city_id d)
     (Data.multiple_type d) (Data.product_names d)
     (Data.product_descriptions d) (Data.product_prices d)
     (Data.card_number d) (Data.crypto_wallet d) (Data.crypto_network d)
     (Data.broadcast_message d).

Definition set_direct_product_name (v : str) (d : Data.t) : Data.t :=
  Data.mk (Data.selected_product_id d) (Data.payment_method d)
     (Data.direct_city_id d) (Some v) (Data.direct_product_description d)
     (Data.direct_product_price d) (Data.category_city_id d)
     (Data.product_category_id d) (Data.product_name d)
     (Data.product_description d) (Data.product_price d)
     (Data.multiple_category_id d) (Data.multiple_city_id d)
     (Data.multiple_type d) (Data.product_names d)
     (Data.product_descriptions d) (Data.product_prices d)
     (Data.card_number d) (Data.crypto_wallet d) (Data.crypto_network d)
     (Data.broadcast_message d).

Definition set_direct_product_description (v : str) (d : Data.t) : Data.t :=
  Data.mk (Data.selected_product_id d) (Data.payment_method d)
     (Data.direct_city_id d) (Data.direct_product_name d) (Some v)
     (Data.direct_product_price d) (Data.category_city_id d)
     (Data.product_category_id d) (Data.product_name d)
     (Data.product_description d) (Data.product_price d)
     (Data.multiple_category_id d) (Data.multiple_city_id d)
     (Data.multiple_type d) (Data.product_names d)
     (Data.product_descriptions d) (Data.product_prices d)
     (Data.card_number d) (Data.crypto_wallet d) (Data.crypto_network d)
     (Data.broadcast_message d).

Definition set_category_city_id (v : Z) (d : Data.t) : Data.t :=
  Data.mk (Data.selected_product_id d) (Data.payment_method d)
     (Data.direct_city_id d) (Data.direct_product_name d)
     (Data.direct_product_description d) (Data.direct_product_price d)
     (Some v) (Data.product_category_id d) (Data.product_name d)
     (Data.product_description d) (Data.product_price d)
     (Data.multiple_category_id d) (Data.multiple_city_id d)
     (Data.multiple_type d) (Data.product_names d)
     (Data.product_descriptions d) (Data.product_prices d)
     (Data.card_number d) (Data.crypto_wallet d) (Data.crypto_network d)
     (Data.broadcast_message d).

Definition set_product_category_id (v : Z) (d : Data.t) : Data.t :=
  Data.mk (Data.selected_product_id d) (Data.payment_method d)
     (Data.direct_city_id d) (Data.direct_product_name d)
     (Data.direct_product_description d) (Data.direct_product_price d)
     (Data.category_city_id d) (Some v) (Data.product_name d)
     (Data.product_description d) (Data.product_price d)
     (Data.multiple_category_id d) (Data.multiple_city_id d)
     (Data.multiple_type d) (Data.product_names d)
     (Data.product_descriptions d) (Data.product_prices d)
     (Data.card_number d) (Data.crypto_wallet d) (Data.crypto_network d)
     (Data.broadcast_message d).

Definition set_product_name (v : str) (d : Data.t) : Data.t :=
  Data.mk (Data.selected_product_id d) (Data.payment_method d)
     (Data.direct_city_id d) (Data.direct_product_name d)
     (Data.direct_product_description d) (Data.direct_product_price d)
     (Data.category_city_id d) (Data.product_category_id d) (Some v)
     (Data.product_description d) (Data.product_price d)
     (Data.multiple_category_id d) (Data.multiple_city_id d)
     (Data.multiple_type d) (Data.product_names d)
     (Data.product_descriptions d) (Data.product_prices d)
     (Data.card_number d) (Data.crypto_wallet d) (Data.crypto_network d)
     (Data.broadcast_message d).

Definition set_product_description (v : str) (d : Data.t) : Data.t :=
  Data.mk (Data.selected_product_id d) (Data.payment_method d)
     (Data.direct_city_id d) (Data.direct_product_name d)
     (Data.direct_product_description d) (Data.direct_product_price d)
     (Data.category_city_id d) (Data.product_category_id d)
     (Data.product_name d) (Some v) (Data.product_price d)
     (Data.multiple_category_id d) (Data.multiple_city_id d)
     (Data.multiple_type d) (Data.product_names d)
     (Data.product_descriptions d) (Data.product_prices d)
     (Data.card_number d) (Data.crypto_wallet d) (Data.crypto_network d)
     (Data.broadcast_message d).

Definition set_multiple_category_id (v : Z) (d : Data.t) : Data.t :=
  Data.mk (Data.selected_product_id d) (Data.payment_method d)
     (Data.direct_city_id d) (Data.direct_product_name d)
     (Data.direct_product_description d) (Data.direct_product_price d)
     (Data.category_city_id d) (Data.product_category_id d)
     (Data.product_name d) (Data.product_description d) (Data.product_price
     d) (Some v) (Data.multiple_city_id d) (Data.multiple_type d)
     (Data.product_names d) (Data.product_descriptions d)
     (Data.product_prices d) (Data.card_number d) (Data.crypto_wallet d)
     (Data.crypto_network d) (Data.broadcast_message d).

Definition set_multiple_city_id (v : Z) (d : Data.t) : Data.t :=
  Data.mk (Data.selected_product_id d) (Data.payment_method d)
     (Data.direct_city_id d) (Data.direct_product_name d)
     (Data.direct_product_description d) (Data.direct_product_price d)
     (Data.category_city_id d) (Data.product_category_id d)
     (Data.product_name d) (Data.product_description d) (Data.product_price
     d) (Data.multiple_category_id d) (Some v) (Data.multiple_type d)
     (Data.product_names d) (Data.product_descriptions d)
     (Data.product_prices d) (Data.card_number d) (Data.crypto_wallet d)
     (Data.crypto_network d) (Data.broadcast_message d).

Definition set_multiple_type (v : str) (d : Data.t) : Data.t :=
  Data.mk (Data.selected_product_id d) (Data.payment_method d)
     (Data.direct_city_id d) (Data.direct_product_name d)
     (Data.direct_product_description d) (Data.direct_product_price d)
     (Data.category_city_id d) (Data.product_category_id d)
     (Data.product_name d) (Data.product_description d) (Data.product_price
     d) (Data.multiple_category_id d) (Data.multiple_city_id d) (Some v)
     (Data.product_names d) (Data.product_descriptions d)
     (Data.product_prices d) (Data.card_number d) (Data.crypto_wallet d)
     (Data.crypto_network d) (Data.broadcast_message d).

Definition set_card_number (v : str) (d : Data.t) : Data.t :=
  Data.mk (Data.selected_product_id d) (Data.payment_method d)
     (Data.direct_city_id d) (Data.direct_product_name d)
     (Data.direct_product_description d) (Data.direct_product_price d)
     (Data.category_city_id d) (Data.product_category_id d)
     (Data.product_name d) (Data.product_description d) (Data.product_price
     d) (Data.multiple_category_id d) (Data.multiple_city_id d)
     (Data.multiple_type d) (Data.product_names d)
     (Data.product_descriptions d) (Data.product_prices d) (Some v)
     (Data.crypto_wallet d) (Data.crypto_network d) (Data.broadcast_message
     d).

Definition set_crypto_wallet (v : str) (d : Data.t) : Data.t :=
  Data.mk (Data.selected_product_id d) (Data.payment_method d)
     (Data.direct_city_id d) (Data.direct_product_name d)
     (Data.direct_product_description d) (Data.direct_product_price d)
     (Data.category_city_id d) (Data.product_category_id d)
     (Data.product_name d) (Data.product_description d) (Data.product_price
     d) (Data.multiple_category_id d) (Data.multiple_city_id d)
     (Data.multiple_type d) (Data.product_names d)
     (Data.product_descriptions d) (Data.product_prices d)
     (Data.card_number d) (Some v) (Data.crypto_network d)
     (Data.broadcast_message d).

Definition set_crypto_network (v : str) (d : Data.t) : Data.t :=
  Data.mk (Data.selected_product_id d) (Data.payment_method d)
     (Data.direct_city_id d) (Data.direct_product_name d)
     (Data.direct_product_description d) (Data.direct_product_price d)
     (Data.category_city_id d) (Data.product_category_id d)
     (Data.product_name d) (Data.product_description d) (Data.product_price
     d) (Data.multiple_category_id d) (Data.multiple_city_id d)
     (Data.multiple_type d) (Data.product_names d)
     (Data.product_descriptions d) (Data.product_prices d)
     (Data.card_number d) (Data.crypto_wallet d) (Some v)
     (Data.broadcast_message d).
End Draft.

(** [not message.text or len(message.text.strip()) < n] *)
Definition text_shorter_than (n : nat) (message : Message.t) : bool :=
  match Message.text message with
  | Some (c :: r) => (length (strip (c :: r)) <? n)%nat
  | _ => true
  end.

(** The figures of the statistics screen. *)
Record Stats := mkStats {
  active_cities : nat;
  total_cities : nat;
  active_categories : nat;
  total_categories : nat;
  active_products : nat;
  total_products : nat;
  total_users : nat;
  total_orders : nat;
  pending_orders : nat;
  confirmed_orders : nat;
  total_revenue : str;                (* [f"{total_revenue:.2f}"] *)
  admins_count : nat;
  first_cities : list (Z * str)       (* [(city.order, city.name)], at most ten *)
}.

(** The messages of the handlers of this part, each with the values that the
    text is formatted from. *)
Inductive Notice :=
(* /start *)
| Welcome                               (* "👋 Добро пожаловать в наш магазин!" *)
(* single product add: choosing the place, name and description *)
| AskProductName                        (* "Введите название товара:" *)
| CityNotFoundAlert                     (* callback.answer("Город не найден") *)
| AskDirectProductName (city_name : str)  (* "📍 Добавление товара в город: ... Введите название товара:" *)
| ProductNameTooShort                   (* "⚠️ Название товара должно быть не менее 2 символов" *)
| AskProductDescription                 (* "Введите описание товара:" *)
| DescriptionTooShort                   (* "⚠️ Описание должно быть не менее 5 символов" *)
| AskProductPrice                       (* "Введите цену товара (только число, например: 2999.99):" *)
| AskCategoryName                       (* "Введите название новой категории:" *)
(* bulk product add: choosing the place *)
| AskBulkNamesForCategory (category_name : option str)  (* "📦 Массовое добавление товаров ... Категория: ..." *)
| AskBulkNamesForCity (city_name : option str)          (* "📦 Массовое добавление товаров в город ..." *)
(* payment settings *)
| CardNumberTooShort                    (* "⚠️ Номер карты должен содержать не менее 16 цифр" *)
| AskCardHolder                         (* "Введите имя получателя:" *)
| CardHolderEmpty                       (* "⚠️ Имя получателя не может быть пустым" *)
| CardUpdated (card_number : option str) (card_holder : str)  (* "✅ Реквизиты карты обновлены!" *)
| WalletTooShort                        (* "⚠️ Крипто-адрес должен содержать не менее 10 символов" *)
| AskCryptoNetwork                      (* "Введите сеть (например: TRC20, ERC20):" *)
| NetworkTooShort                       (* "⚠️ Название сети должно содержать не менее 3 символов" *)
| AskCryptoCoin                         (* "Введите монету (например: USDT, BTC, ETH):" *)
| CoinEmpty                             (* "⚠️ Название монеты не может быть пустым" *)
| CryptoUpdated (crypto_network : option str) (crypto_coin : str)
                (crypto_wallet : option str)  (* "✅ Крипто-реквизиты обновлены!" *)
(* operator settings *)
| OperatorToggled (new_status : bool)   (* callback.answer("✅ Кнопка оператора включена/выключена") *)
| OperatorMenu (enabled : bool)         (* "👨‍💼 Настройки оператора", with ✅ or ❌ on the first button *)
| OperatorLinkBadPrefix                 (* "⚠️ Ссылка должна начинаться с https://t.me/" *)
| OperatorLinkUpdated (link : str)      (* "✅ Ссылка оператора обновлена: ..." *)
| OperatorTextTooShort                  (* "⚠️ Текст должен содержать не менее 2 символов" *)
| OperatorTextUpdated (text : str)      (* "✅ Текст кнопки обновлен: ..." *)
(* administrators *)
| AdminIdNotANumber                     (* "⚠️ Пожалуйста, введите корректный ID (число)" *)
| AdminAdded (user_id : Z)              (* "✅ Пользователь ... добавлен в админы" *)
| AdminNotAdded                         (* "❌ Не удалось добавить админа. ..." *)
| AdminRemoved (user_id : Z)            (* "✅ Админ ... удален" *)
| AdminNotRemoved                       (* "❌ Не удалось удалить админа. ..." *)
(* broadcast, statistics *)
| BroadcastCancelled                    (* "❌ Рассылка отменена" *)
| Statistics (figures : Stats).         (* "📊 Статистика магазина ..." *)

(** What a handler of this part leaves behind: the store, the conversation,
    the messages shown, the chats to which a delivery was attempted, and the
    exception that escaped the handler, if any. *)
Record Turn := mkTurn {
  turn_db : DataStorage.t;
  turn_fsm : FSMContext.t;
  notices : list Notice;
  notified : list Z;
  escaped : option Exn
}.

Definition answer (db : DataStorage.t) (c : FSMContext.t) (ns : list Notice) : Turn :=
  mkTurn db c ns [] None.

Definition escape (e : Exn) (db : DataStorage.t) (c : FSMContext.t) : Turn :=
  mkTurn db c [] [] (Some e).

(** A button of an inline keyboard: [callback_data] or [url]. *)
Inductive Button :=
| CallbackButton (text : str) (callback_data : str)
| UrlButton (text : pyval) (url : pyval).

(** The calls that [get_cities_keyboard_two_columns] makes on its
    [InlineKeyboardBuilder]: the buttons passed to [add], in order, the
    sizes passed to [adjust], and the buttons of the final [row]. *)
Record CitiesKeyboard := mkCitiesKeyboard {
  added : list Button;
  adjust : list nat;
  row : list Button
}.

(** [active_cities] of [get_cities_keyboard_two_columns], after the sort.
    The sort is stable: the order in which the dictionary is walked shows
    only between cities that agree on both [order] and [name]. *)
Definition active_cities_sorted (db : DataStorage.t) : list (Z * City.t) :=
  sort_by (fun x y => city_key_ltb x.2 y.2)
          (filter (fun kc => City.is_active kc.2 = true)
                  (map_to_list (DataStorage.cities db))).

Definition city_button (item : Z * City.t) : Button :=
  CallbackButton (City.name item.2) (py "city_" ++ str_of_Z item.1).

Definition get_cities_keyboard_two_columns (db : DataStorage.t) : CitiesKeyboard :=
  let city_buttons := city_button <$> active_cities_sorted db in
  let settings := DataStorage.operator_settings db in
  let back := CallbackButton (py "🔙 Назад") (py "main_menu") in
  if truthy (OperatorSettings.operator_enabled settings)
  then mkCitiesKeyboard
         (city_buttons
          ++ [UrlButton (OperatorSettings.operator_button_text settings)
                        (OperatorSettings.operator_link settings)])
         [2; 1]%nat [back]
  else mkCitiesKeyboard city_buttons [2]%nat [back].

Section FurtherHandlers.
Context `{B : Builtins}.

(** ** Registration *)

(** [/start]; [now] is the reading of the clock.  The handler takes no
    [FSMContext]: the conversation is passed through. *)
Definition cmd_start (now : str) (db : DataStorage.t) (message : Message.t)
    (state : FSMContext.t) : Turn :=
  let db :=
    DataStorage.add_user (Message.from_user_id message)
                         (str_or (Message.from_user_username message) []) now db in
  answer db state [Welcome].

(** ** Single product add: the steps before the price *)

Definition admin_add_product_category (admin_manager : AdminManager.t)
    (db : DataStorage.t) (callback : CallbackQuery.t) (state : FSMContext.t) : Turn :=
  if negb (AdminManager.is_admin admin_manager (CallbackQuery.from_user_id callback))
  then answer db state []
  else
    match callback_arg 2 (CallbackQuery.data callback) with
    | inl e => escape e db state
    | inr category_id =>
      let state :=
        FSMContext.update_data (Draft.set_product_category_id category_id) state in
      answer db (FSMContext.set_state waiting_for_product_name state) [AskProductName]
    end.

Definition admin_add_product_name (admin_manager : AdminManager.t)
    (db : DataStorage.t) (message : Message.t) (state : FSMContext.t) : Turn :=
  if negb (AdminManager.is_admin admin_manager (Message.from_user_id message))
  then answer db (FSMContext.clear state) []
  else if text_shorter_than 2 message then answer db state [ProductNameTooShort]
  else
    let state :=
      FSMContext.update_data
        (Draft.set_product_name (strip (default [] (Message.text message)))) state in
    answer db (FSMContext.set_state waiting_for_product_description state)
           [AskProductDescription].

Definition admin_add_product_description (admin_manager : AdminManager.t)
    (db : DataStorage.t) (message : Message.t) (state : FSMContext.t) : Turn :=
  if negb (AdminManager.is_admin admin_manager (Message.from_user_id message))
  then answer db (FSMContext.clear state) []
  else if text_shorter_than 5 message then answer db state [DescriptionTooShort]
  else
    let state :=
      FSMContext.update_data
        (Draft.set_product_description (strip (default [] (Message.text message))))
        state in
    answer db (FSMContext.set_state waiting_for_product_price state) [AskProductPrice].

(** The direct-to-city flow checks the city when it is chosen. *)
Definition admin_add_product_to_city_city (admin_manager : AdminManager.t)
    (db : DataStorage.t) (callback : CallbackQuery.t) (state : FSMContext.t) : Turn :=
  if negb (AdminManager.is_admin admin_manager (CallbackQuery.from_user_id callback))
  then answer db state []
  else
    match callback_arg 2 (CallbackQuery.data callback) with
    | inl e => escape e db state
    | inr city_id =>
      match DataStorage.cities db !! city_id with
      | None => answer db state [CityNotFoundAlert]
      | Some city =>
        let state := FSMContext.update_data (Draft.set_direct_city_id city_id) state in
        answer db (FSMContext.set_state waiting_for_product_name_direct state)
               [AskDirectProductName (City.name city)]
      end
    end.

Definition admin_add_product_to_city_name (admin_manager : AdminManager.t)
    (db : DataStorage.t) (message : Message.t) (state : FSMContext.t) : Turn :=
  if negb (AdminManager.is_admin admin_manager (Message.from_user_id message))
  then answer db (FSMContext.clear state) []
  else if text_shorter_than 2 message then answer db state [ProductNameTooShort]
  else
    let state :=
      FSMContext.update_data
        (Draft.set_direct_product_name (strip (default [] (Message.text message))))
        state in
    answer db (FSMContext.set_state waiting_for_product_description_direct state)
           [AskProductDescription].

Definition admin_add_product_to_city_description (admin_manager : AdminManager.t)
    (db : DataStorage.t) (message : Message.t) (state : FSMContext.t) : Turn :=
  if negb (AdminManager.is_admin admin_manager (Message.from_user_id message))
  then answer db (FSMContext.clear state) []
  else if text_shorter_than 5 message then answer db state [DescriptionTooShort]
  else
    let state :=
      FSMContext.update_data
        (Draft.set_direct_product_description
           (strip (default [] (Message.text message)))) state in
    answer db (FSMContext.set_state waiting_for_product_price_direct state)
           [AskProductPrice].

(** The category flow stores the city id of the button as it is. *)
Definition admin_add_category_city (admin_manager : AdminManager.t)
    (db : DataStorage.t) (callback : CallbackQuery.t) (state : FSMContext.t) : Turn :=
  if negb (AdminManager.is_admin admin_manager (CallbackQuery.from_user_id callback))
  then answer db state []
  else
    match callback_arg 2 (CallbackQuery.data callback) with
    | inl e => escape e db state
    | inr city_id =>
      let state := FSMContext.update_data (Draft.set_category_city_id city_id) state in
      answer db (FSMContext.set_state waiting_for_category_name state) [AskCategoryName]
    end.

(** ** Bulk product add: choosing the place *)

Definition admin_add_multiple_products_category (admin_manager : AdminManager.t)
    (db : DataStorage.t) (callback : CallbackQuery.t) (state : FSMContext.t) : Turn :=
  if negb (AdminManager.is_admin admin_manager (CallbackQuery.from_user_id callback))
  then answer db state []
  else
    match callback_arg 3 (CallbackQuery.data callback) with
    | inl e => escape e db state
    | inr category_id =>
      let state :=
        FSMContext.update_data (Draft.set_multiple_category_id category_id) state in
      let state :=
        FSMContext.update_data (Draft.set_multiple_type (py "category")) state in
      let category := DataStorage.categories db !! category_id in
      answer db (FSMContext.set_state waiting_for_multiple_products_data state)
             [AskBulkNamesForCategory (Category.name <$> category)]
    end.

Definition admin_add_multiple_products_city (admin_manager : AdminManager.t)
    (db : DataStorage.t) (callback : CallbackQuery.t) (state : FSMContext.t) : Turn :=
  if negb (AdminManager.is_admin admin_manager (CallbackQuery.from_user_id callback))
  then answer db state []
  else
    match callback_arg 3 (CallbackQuery.data callback) with
    | inl e => escape e db state
    | inr city_id =>
      let state :=
        FSMContext.update_data (Draft.set_multiple_city_id city_id) state in
      let state :=
        FSMContext.update_data (Draft.set_multiple_type (py "city")) state in
      let city := DataStorage.cities db !! city_id in
      answer db (FSMContext.set_state waiting_for_multiple_products_data state)
             [AskBulkNamesForCity (City.name <$> city)]
    end.

(** ** Payment settings *)

Definition admin_set_card_number (admin_manager : AdminManager.t)
    (db : DataStorage.t) (message : Message.t) (state : FSMContext.t) : Turn :=
  if negb (AdminManager.is_admin admin_manager (Message.from_user_id message))
  then answer db (FSMContext.clear state) []
  else if text_shorter_than 16 message then answer db state [CardNumberTooShort]
  else
    let state :=
      FSMContext.update_data
        (Draft.set_card_number (strip (default [] (Message.text message)))) state in
    answer db (FSMContext.set_state waiting_for_card_holder state) [AskCardHolder].

Definition admin_set_card_finish (admin_manager : AdminManager.t)
    (db : DataStorage.t) (message : Message.t) (state : FSMContext.t) : Turn :=
  if negb (AdminManager.is_admin admin_manager (Message.from_user_id message))
  then answer db (FSMContext.clear state) []
  else
    let user_data := FSMContext.data state in
    let card_number := Data.card_number user_data in
    match Message.text message with
    | None => escape AttributeError db state
    | Some text =>
      match strip text with
      | [] => answer db state [CardHolderEmpty]
      | card_holder =>
        let db :=
          DataStorage.update_payment_details
            [("card_number", value_of card_number);
             ("card_holder", VStr card_holder)]%string db in
        answer db (FSMContext.clear state) [CardUpdated card_number card_holder]
      end
    end.

Definition admin_set_crypto_wallet (admin_manager : AdminManager.t)
    (db : DataStorage.t) (message : Message.t) (state : FSMContext.t) : Turn :=
  if negb (AdminManager.is_admin admin_manager (Message.from_user_id message))
  then answer db (FSMContext.clear state) []
  else if text_shorter_than 10 message then answer db state [WalletTooShort]
  else
    let state :=
      FSMContext.update_data
        (Draft.set_crypto_wallet (strip (default [] (Message.text message)))) state in
    answer db (FSMContext.set_state waiting_for_crypto_network state) [AskCryptoNetwork].

Definition admin_set_crypto_network (admin_manager : AdminManager.t)
    (db : DataStorage.t) (message : Message.t) (state : FSMContext.t) : Turn :=
  if negb (AdminManager.is_admin admin_manager (Message.from_user_id message))
  then answer db (FSMContext.clear state) []
  else if text_shorter_than 3 message then answer db state [NetworkTooShort]
  else
    let state :=
      FSMContext.update_data
        (Draft.set_crypto_network (strip (default [] (Message.text message)))) state in
    answer db (FSMContext.set_state waiting_for_crypto_coin state) [AskCryptoCoin].

Definition admin_set_crypto_finish (admin_manager : AdminManager.t)
    (db : DataStorage.t) (message : Message.t) (state : FSMContext.t) : Turn :=
  if negb (AdminManager.is_admin admin_manager (Message.from_user_id message))
  then answer db (FSMContext.clear state) []
  else
    let user_data := FSMContext.data state in
    let crypto_wallet := Data.crypto_wallet user_data in
    let crypto_network := Data.crypto_network user_data in
    match Message.text message with
    | None => escape AttributeError db state
    | Some text =>
      match strip text with
      | [] => answer db state [CoinEmpty]
      | crypto_coin =>
        let db :=
          DataStorage.update_payment_details
            [("crypto_wallet", value_of crypto_wallet);
             ("crypto_network", value_of crypto_network);
             ("crypto_coin", VStr crypto_coin)]%string db in
        answer db (FSMContext.clear state)
               [CryptoUpdated crypto_network crypto_coin crypto_wallet]
      end
    end.

(** ** Operator settings *)

(** The handler ends by calling [admin_operator_settings], which shows the
    menu built from the settings as they are then. *)
Definition admin_toggle_operator (admin_manager : AdminManager.t)
    (db : DataStorage.t) (callback : CallbackQuery.t) (state : FSMContext.t) : Turn :=
  if negb (AdminManager.is_admin admin_manager (CallbackQuery.from_user_id callback))
  then answer db state []
  else
    let settings := DataStorage.operator_settings db in
    let new_status := negb (truthy (OperatorSettings.operator_enabled settings)) in
    let db :=
      DataStorage.update_operator_settings
        [("operator_enabled", VBool new_status)]%string db in
    answer db state
           [OperatorToggled new_status;
            OperatorMenu
              (truthy (OperatorSettings.operator_enabled
                         (DataStorage.operator_settings db)))].

Definition admin_set_operator_link_finish (admin_manager : AdminManager.t)
    (db : DataStorage.t) (message : Message.t) (state : FSMContext.t) : Turn :=
  if negb (AdminManager.is_admin admin_manager (Message.from_user_id message))
  then answer db (FSMContext.clear state) []
  else
    match Message.text message with
    | None => escape AttributeError db state
    | Some text =>
      if negb (startswith (py "https://t.me/") text)
      then answer db state [OperatorLinkBadPrefix]
      else
        let db :=
          DataStorage.update_operator_settings
            [("operator_link", VStr (strip text))]%string db in
        answer db (FSMContext.clear state) [OperatorLinkUpdated (strip text)]
    end.

Definition admin_set_operator_text_finish (admin_manager : AdminManager.t)
    (db : DataStorage.t) (message : Message.t) (state : FSMContext.t) : Turn :=
  if negb (AdminManager.is_admin admin_manager (Message.from_user_id message))
  then answer db (FSMContext.clear state) []
  else if text_shorter_than 2 message then answer db state [OperatorTextTooShort]
  else
    let text := strip (default [] (Message.text message)) in
    let db :=
      DataStorage.update_operator_settings
        [("operator_button_text", VStr text)]%string db in
    answer db (FSMContext.clear state) [OperatorTextUpdated text].

(** ** Administrators *)

(** The two handlers below change [admin_manager]; they return it beside
    the turn.  [int(message.text)] raises [TypeError] for a message without
    text, which [except ValueError] does not catch. *)
Definition admin_add_admin_finish (admin_manager : AdminManager.t)
    (db : DataStorage.t) (message : Message.t) (state : FSMContext.t)
  : AdminManager.t * Turn :=
  if negb (AdminManager.is_admin admin_manager (Message.from_user_id message))
  then (admin_manager, answer db (FSMContext.clear state) [])
  else
    match Message.text message with
    | None => (admin_manager, escape TypeError db state)
    | Some text =>
      match py_int text with
      | None => (admin_manager, answer db (FSMContext.clear state) [AdminIdNotANumber])
      | Some new_admin_id =>
        let '(ok, admin_manager) :=
          AdminManager.add_admin admin_manager new_admin_id
                                 (Message.from_user_id message) in
        if ok
        then (admin_manager,
              mkTurn db (FSMContext.clear state) [AdminAdded new_admin_id]
                     [new_admin_id] None)
        else (admin_manager, answer db (FSMContext.clear state) [AdminNotAdded])
      end
    end.

Definition admin_remove_admin_finish (admin_manager : AdminManager.t)
    (db : DataStorage.t) (message : Message.t) (state : FSMContext.t)
  : AdminManager.t * Turn :=
  if negb (AdminManager.is_admin admin_manager (Message.from_user_id message))
  then (admin_manager, answer db (FSMContext.clear state) [])
  else
    match Message.text message with
    | None => (admin_manager, escape TypeError db state)
    | Some text =>
      match py_int text with
      | None => (admin_manager, answer db (FSMContext.clear state) [AdminIdNotANumber])
      | Some admin_id_to_remove =>
        let '(ok, admin_manager) :=
          AdminManager.remove_admin admin_manager admin_id_to_remove
                                    (Message.from_user_id message) in
        (admin_manager,
         answer db (FSMContext.clear state)
                [if ok then AdminRemoved admin_id_to_remove else AdminNotRemoved])
      end
    end.

(** ** Broadcast: the cancel button *)

Definition cancel_broadcast (admin_manager : AdminManager.t)
    (db : DataStorage.t) (callback : CallbackQuery.t) (state : FSMContext.t) : Turn :=
  if negb (AdminManager.is_admin admin_manager (CallbackQuery.from_user_id callback))
  then answer db state []
  else answer db (FSMContext.clear state) [BroadcastCancelled].

(** ** Statistics

    The collections are dictionaries, walked in the order of insertion;
    the maps of the model are walked in the order of their keys.  The
    counts do not depend on the order.  The order shows in the list of the
    first cities, between cities of equal [order], and in the last digits
    of a sum of several prices; nothing below is stated about either. *)

Definition admin_stats (admin_manager : AdminManager.t)
    (db : DataStorage.t) (callback : CallbackQuery.t) (state : FSMContext.t) : Turn :=
  if negb (AdminManager.is_admin admin_manager (CallbackQuery.from_user_id callback))
  then answer db state []
  else
    let cities := (map_to_list (DataStorage.cities db)).*2 in
    let categories := (map_to_list (DataStorage.categories db)).*2 in
    let products := (map_to_list (DataStorage.products db)).*2 in
    let orders := (map_to_list (DataStorage.orders db)).*2 in
    let confirmed := filter (fun o => Order.status o = py "confirmed") orders in
    match sum_prices (Order.price <$> confirmed) with
    | None => escape TypeError db state
    | Some revenue =>
      let cities_list := sort_by (fun a b => City.order a <? City.order b) cities in
      answer db state
        [Statistics
           (mkStats
              (length (filter (fun c => City.is_active c = true) cities))
              (length cities)
              (length (filter (fun c => Category.is_active c = true) categories))
              (length categories)
              (length (filter (fun p => Product.is_active p = true) products))
              (length products)
              (length (DataStorage.users db))
              (length orders)
              (length (filter (fun o => Order.status o = py "pending") orders))
              (length confirmed)
              (format_f 2 revenue)
              (length (AdminManager.get_admins_list admin_manager))
              ((fun city => (City.order city, City.name city))
                 <$> take 10 cities_list))]
    end.

End FurtherHandlers.

(** ** Runs of the administrator handlers

    One call of one of the two handlers that change [admin_manager], with
    a message whose sender satisfies [allowed]; the store, the text and the
    conversation of the call are arbitrary. *)
Section AdminRuns.
Context `{B : Builtins}.

Inductive admin_turn (allowed : Z -> Prop) (a : AdminManager.t) : AdminManager.t -> Prop :=
| turn_add_admin db m st :
    allowed (Message.from_user_id m) ->
    admin_turn allowed a (admin_add_admin_finish a db m st).1
| turn_remove_admin db m st :
    allowed (Message.from_user_id m) ->
    admin_turn allowed a (admin_remove_admin_finish a db m st).1.

End AdminRuns.

(** ** Invariants of the store *)

(** Every entity is stored under its own id: the key of an entry is the
    [id] field of the entry. *)
Definition well_keyed (s : DataStorage.t) : Prop :=
  (forall k x, DataStorage.products s !! k = Some x -> Product.id x = k)
  /\ (forall k x, DataStorage.categories s !! k = Some x -> Category.id x = k)
  /\ (forall k x, DataStorage.cities s !! k = Some x -> City.id x = k)
  /\ (forall k x, DataStorage.orders s !! k = Some x -> Order.id x = k).

(** Every order has the status with which orders are created. *)
Definition all_pending (orders : gmap Z Order.t) : Prop :=
  forall k o, orders !! k = Some o -> Order.status o = py "pending".

(** ** The photo step *)

Section PhotoStep.
Context `{B : Builtins}.

(** The messages on which the photo step of the add flows goes on: a
    photo, or a message without text, or the text [нет] in any case. *)
Definition photo_or_no (message : Message.t) : Prop :=
  Message.photo message <> [] \/ text_is_not_no message = false.

End PhotoStep.

(** ** Runs of users who are not administrators

    The handlers behind [if not admin_manager.is_admin(...)], by the kind
    of event they take and of result they give. *)
Section Visitors.
Context `{B : Builtins}.

Definition guarded_message_handlers
  : list (AdminManager.t -> DataStorage.t -> Message.t -> FSMContext.t -> Outcome) :=
  [admin_add_product_to_city_price; admin_add_product_price;
   admin_add_product_finish; admin_add_product_to_city_finish;
   admin_add_multiple_products_names; admin_add_multiple_products_descriptions;
   admin_add_multiple_products_prices; admin_add_multiple_products_finish;
   admin_set_city_order_finish; admin_broadcast_send;
   admin_add_city_finish; admin_add_category_finish].

Definition guarded_callback_handlers (send_ok edit_ok : nat -> bool)
  : list (AdminManager.t -> DataStorage.t -> CallbackQuery.t -> FSMContext.t
          -> Outcome) :=
  [admin_delete_city_finish; admin_delete_category_finish;
   admin_delete_product_finish; confirm_broadcast send_ok edit_ok].

Definition guarded_message_turns
  : list (AdminManager.t -> DataStorage.t -> Message.t -> FSMContext.t -> Turn) :=
  [admin_add_product_name; admin_add_product_description;
   admin_add_product_to_city_name; admin_add_product_to_city_description;
   admin_set_card_number; admin_set_card_finish;
   admin_set_crypto_wallet; admin_set_crypto_network; admin_set_crypto_finish;
   admin_set_operator_link_finish; admin_set_operator_text_finish;
   (fun a db m st => (admin_add_admin_finish a db m st).2);
   (fun a db m st => (admin_remove_admin_finish a db m st).2)].

Definition guarded_callback_turns
  : list (AdminManager.t -> DataStorage.t -> CallbackQuery.t -> FSMContext.t
          -> Turn) :=
  [admin_add_product_category; admin_add_product_to_city_city;
   admin_add_category_city; admin_add_multiple_products_category;
   admin_add_multiple_products_city; admin_toggle_operator; cancel_broadcast;
   admin_stats].

(** One event handled for a user who is not an administrator: any of the
    handlers open to everybody, or a guarded handler with an event whose
    sender [is_admin] refuses. *)
Inductive visitor_step (admin_manager : AdminManager.t) (db : DataStorage.t)
  : DataStorage.t -> Prop :=
| visit_start now m st :
    visitor_step admin_manager db (turn_db (cmd_start now db m st))
| visit_show_product_detail cb st :
    visitor_step admin_manager db (storage_db (show_product_detail db cb st))
| visit_select_payment_method cb st :
    visitor_step admin_manager db (storage_db (select_payment_method db cb st))
| visit_receive_payment_proof now notify_ok m st :
    visitor_step admin_manager db
      (storage_db (receive_payment_proof now notify_ok admin_manager db m st))
| visit_guarded_message handler m st :
    handler ∈ guarded_message_handlers ->
    AdminManager.is_admin admin_manager (Message.from_user_id m) = false ->
    visitor_step admin_manager db (storage_db (handler admin_manager db m st))
| visit_guarded_callback send_ok edit_ok handler cb st :
    handler ∈ guarded_callback_handlers send_ok edit_ok ->
    AdminManager.is_admin admin_manager (CallbackQuery.from_user_id cb) = false ->
    visitor_step admin_manager db (storage_db (handler admin_manager db cb st))
| visit_guarded_message_turn handler m st :
    handler ∈ guarded_message_turns ->
    AdminManager.is_admin admin_manager (Message.from_user_id m) = false ->
    visitor_step admin_manager db (turn_db (handler admin_manager db m st))
| visit_guarded_callback_turn handler cb st :
    handler ∈ guarded_callback_turns ->
    AdminManager.is_admin admin_manager (CallbackQuery.from_user_id cb) = false ->
    visitor_step admin_manager db (turn_db (handler admin_manager db cb st)).

End Visitors.

(** The part of the store that the administrators manage: the catalog
    with its counters, and the two settings objects. *)
Definition managed (s : DataStorage.t)
  : gmap Z Product.t * gmap Z Category.t * gmap Z City.t
    * PaymentDetails.t * OperatorSettings.t * (Z * Z * Z) :=
  (DataStorage.products s, DataStorage.categories s, DataStorage.cities s,
   DataStorage.payment_details s, DataStorage.operator_settings s,
   (DataStorage.next_product_id s, DataStorage.next_category_id s,
    DataStorage.next_city_id s)).

(* ================================================================== *)
(** * Concrete stores and messages, for running the model *)
(* ================================================================== *)

(** The owner configured in [YOUR_TELEGRAM_ID], and the administrator set
    of a first start. *)
Definition owner_id : Z := 8104914597.
Definition owner_only : AdminManager.t := AdminManager.init ∅ owner_id.

(** The store of a first start: every persisted collection is empty. *)
Definition fresh_start : DataStorage.t :=
  DataStorage.init ∅ ∅ ∅ ∅ [] PaymentDetails.default OperatorSettings.default.

(** A small catalog as it would be read from disk: two cities with one
    category each, a product in each category, and one product attached
    directly to the first city. *)
Definition hammer : Product.t :=
  Product.mk 1 (Some (py "Hammer")) (Some (py "Claw hammer, 450 g"))
             (Some (float_of_decimal false 999 (-2))) (Some 1) None None true.
Definition ladder : Product.t :=
  Product.mk 2 (Some (py "Ladder")) (Some (py "Three-step ladder"))
             (Some (float_of_decimal false 4500 (-2))) None (Some 1) None true.
Definition atlas : Product.t :=
  Product.mk 3 (Some (py "Atlas")) (Some (py "Road atlas"))
             (Some (float_of_decimal false 1250 (-2))) (Some 2) None None true.

Definition demo_products : gmap Z Product.t :=
  <[3 := atlas]> (<[2 := ladder]> (<[1 := hammer]> ∅)).
Definition demo_categories : gmap Z Category.t :=
  <[2 := Category.mk 2 (py "Books") (Some 2) true]>
    (<[1 := Category.mk 1 (py "Tools") (Some 1) true]> ∅).
Definition demo_cities : gmap Z City.t :=
  <[2 := City.mk 2 (py "Lakeside") 2 true]>
    (<[1 := City.mk 1 (py "Riverton") 1 true]> ∅).

Definition demo_store : DataStorage.t :=
  DataStorage.init demo_products demo_categories demo_cities ∅ []
    PaymentDetails.default OperatorSettings.default.

Definition idle : FSMContext.t := FSMContext.mk None Data.empty.

(** 23 registered users, with ids 101 to 123. *)
Definition users_23 : list User.t :=
  (fun i => User.mk (Z.of_nat i + 100) [] []) <$> seq 1 23.

Definition store_23_users : DataStorage.t :=
  DataStorage.set_users users_23 demo_store.

(** The conversation of an administrator who typed a broadcast text. *)
Definition broadcast_draft : FSMContext.t :=
  FSMContext.mk (Some waiting_for_broadcast_message)
    (Data.set_broadcast_message (Some (py "Sale today")) Data.empty).

(** The sends of a broadcast in which only the 15th fails. *)
Definition all_but_15th (i : nat) : bool := negb (i =? 15)%nat.
Definition always (i : nat) : bool := true.

(** A photo message from a buyer who selected product 1 and chose [card]. *)
Definition buyer_photo : Message.t :=
  Message.mk 555 (Some (py "buyer")) None [py "photo-small"; py "photo-large"] None.
Definition buyer_checkout : FSMContext.t :=
  FSMContext.mk (Some waiting_for_payment_proof)
    (Data.mk (Some 1) (Some (py "card")) None None None None None None None None
       None None None None None None None None None None None).

(** The draft of a direct-to-city product after its price step. *)
Definition direct_draft : FSMContext.t :=
  FSMContext.mk (Some waiting_for_product_photo_direct)
    (Data.mk None None (Some 2) (Some (py "Canoe")) (Some (py "Two-seat canoe"))
       (Some (float_of_decimal false 39900 (-2))) None None None None
       None None None None None None None None None None None).

(** A text message and a button press from the owner. *)
Definition owner_says (text : string) : Message.t :=
  Message.mk owner_id None (Some (py text)) [] None.
Definition owner_presses (data : string) : CallbackQuery.t :=
  CallbackQuery.mk owner_id (py data).

(* ================================================================== *)
(** * Properties *)
(* ================================================================== *)

(** ** Access control *)

Lemma is_admin_spec (self : AdminManager.t) (user_id : Z) :
  AdminManager.is_admin self user_id = true <-> user_id ∈ AdminManager.admins self.
Proof. unfold AdminManager.is_admin. apply bool_decide_eq_true. Qed.

(** The owner is an administrator after start-up, whatever was loaded. *)
Lemma owner_is_admin (loaded : gset Z) (owner : Z) :
  owner <> 0 -> AdminManager.is_admin (AdminManager.init loaded owner) owner = true.
Proof.
  intros Hown. apply is_admin_spec. unfold AdminManager.init.
  rewrite bool_decide_eq_true_2 by done.
  destruct (decide (owner ∈ loaded)) as [Hin|Hnin].
  - rewrite (bool_decide_eq_true_2 _ Hin). done.
  - rewrite (bool_decide_eq_false_2 _ Hnin). simpl. set_solver.
Qed.

(** An administrator can remove another administrator: [remove_admin]
    does succeed outside the two rejected cases. *)
Lemma remove_admin_other (self : AdminManager.t) (user_id requester_id : Z) :
  AdminManager.is_admin self requester_id = true ->
  user_id <> requester_id ->
  user_id ∈ AdminManager.admins self ->
  AdminManager.remove_admin self user_id requester_id
  = (true, AdminManager.mk (AdminManager.admins self ∖ {[user_id]})).
Proof.
  intros Hreq Hne Hin. unfold AdminManager.remove_admin.
  rewrite Hreq. simpl.
  rewrite (bool_decide_eq_false_2 _ Hne), (bool_decide_eq_true_2 _ Hin). done.
Qed.

(** C5. [remove_admin] returns [False] and leaves the administrator set as
    it was when the target is the requester, whatever the set, and when
    the requester is not an administrator. *)
Theorem remove_admin_rejected (self : AdminManager.t) (user_id requester_id : Z) :
  user_id = requester_id \/ AdminManager.is_admin self requester_id = false ->
  AdminManager.remove_admin self user_id requester_id = (false, self).
Proof.
  intros Hcase. unfold AdminManager.remove_admin.
  destruct (AdminManager.is_admin self requester_id) eqn:Hreq; simpl.
  - destruct Hcase as [-> | Hfalse]; [|discriminate].
    rewrite bool_decide_eq_true_2; done.
  - reflexivity.
Qed.

Lemma remove_admin_rejected_witness :
  AdminManager.remove_admin (AdminManager.mk {[1; 2; 3]}) 2 2
  = (false, AdminManager.mk {[1; 2; 3]})
  /\ AdminManager.remove_admin (AdminManager.mk {[1]}) 1 5
     = (false, AdminManager.mk {[1]}).
Proof.
  split; apply remove_admin_rejected.
  - left. reflexivity.
  - right. vm_compute. reflexivity.
Defined.

(** ** Settings singletons *)


Section SettingsPatch.

(** The loop [for key, value in kwargs.items()] over any object whose
    fields are read by [field] and rebound by [setattr] as those of a
    dataclass are. *)
Context {T : Type} (is_field : string -> bool)
        (field : string -> T -> option pyval)
        (setattr : string -> pyval -> T -> T).
Hypothesis field_is_field :
  forall key o, is_Some (field key o) <-> is_field key = true.
Hypothesis field_setattr_eq :
  forall key v o, is_field key = true -> field key (setattr key v o) = Some v.
Hypothesis field_setattr_ne :
  forall key key' v o, key <> key' -> field key (setattr key' v o) = field key o.
Hypothesis descriptor_is_no_field :
  forall key, is_data_descriptor key = true -> is_field key = false.






End SettingsPatch.






(** A [PaymentDetails] object is determined by its fields. *)
Lemma payment_ext (a b : PaymentDetails.t) :
  (forall key, PaymentDetails.field key a = PaymentDetails.field key b) -> a = b.
Proof.
  intros Hext. destruct a, b.
  pose proof (Hext "card_number"%string) as H1.
  pose proof (Hext "card_holder"%string) as H2.
  pose proof (Hext "crypto_wallet"%string) as H3.
  pose proof (Hext "crypto_network"%string) as H4.
  pose proof (Hext "crypto_coin"%string) as H5.
  vm_compute in H1, H2, H3, H4, H5. congruence.
Qed.





Lemma operator_ext (a b : OperatorSettings.t) :
  (forall key, OperatorSettings.field key a = OperatorSettings.field key b) -> a = b.
Proof.
  intros Hext. destruct a, b.
  pose proof (Hext "operator_link"%string) as H1.
  pose proof (Hext "operator_enabled"%string) as H2.
  pose proof (Hext "operator_button_text"%string) as H3.
  vm_compute in H1, H2, H3. congruence.
Qed.






(** A run of the update: the named field is assigned, the unknown key is
    passed over, the other fields keep their values. *)
Example update_payment_details_run :
  DataStorage.payment_details
    (DataStorage.update_payment_details
       [("card_number"%string, VStr (py "1111")); ("no_such_field"%string, VInt 5)]
       fresh_start)
  = PaymentDetails.mk (VStr (py "1111")) (VStr (py "Иван Иванов"))
      (VStr (py "TXYZ1234567890abcdef")) (VStr (py "TRC20 (TRON)"))
      (VStr (py "USDT")).
Proof. vm_compute. reflexivity. Qed.

(** ** The store: record bookkeeping *)

Lemma set_products_id (s : DataStorage.t) :
  DataStorage.set_products (DataStorage.products s) s = s.
Proof. by destruct s. Qed.

Lemma set_categories_id (s : DataStorage.t) :
  DataStorage.set_categories (DataStorage.categories s) s = s.
Proof. by destruct s. Qed.

Lemma set_cities_id (s : DataStorage.t) :
  DataStorage.set_cities (DataStorage.cities s) s = s.
Proof. by destruct s. Qed.

(** ** Cascading deletion *)

Lemma delete_product_eq (product_id : Z) (s : DataStorage.t) :
  (DataStorage.delete_product product_id s).2
  = DataStorage.set_products (delete product_id (DataStorage.products s)) s.
Proof.
  unfold DataStorage.delete_product.
  destruct (DataStorage.products s !! product_id) eqn:Hp; simpl; [done|].
  by rewrite delete_id, set_products_id.
Qed.

Lemma delete_products_loop (ids : list Z) (s : DataStorage.t) :
  foldl (fun s prod_id => (DataStorage.delete_product prod_id s).2) s ids
  = DataStorage.set_products
      (filter (fun kp => kp.1 ∉ ids) (DataStorage.products s)) s.
Proof.
  revert s. induction ids as [|i ids IH]; intros s; simpl.
  - rewrite <- (set_products_id s) at 1. f_equal.
    symmetry. apply map_filter_id. intros k p _. simpl. apply not_elem_of_nil.
  - rewrite IH, delete_product_eq. simpl. unfold DataStorage.set_products. simpl.
    f_equal. apply map_eq. intros k.
    rewrite !map_lookup_filter.
    destruct (decide (k = i)) as [->|Hne].
    + rewrite lookup_delete_eq. simpl.
      destruct (DataStorage.products s !! i); simpl; [|done].
      rewrite option_guard_False; [done|]. simpl. intros Hn. apply Hn. left.
    + rewrite lookup_delete_ne by done.
      destruct (DataStorage.products s !! k); simpl; [|done].
      apply option_guard_iff. simpl. rewrite not_elem_of_cons. tauto.
Qed.

(** [delete_category] removes the category and exactly the products that
    reference it. *)
Lemma delete_category_spec (category_id : Z) (s : DataStorage.t) :
  DataStorage.delete_category category_id s
  = match DataStorage.categories s !! category_id with
    | Some _ =>
      (true,
       DataStorage.set_products
         (filter (fun kp => Product.category_id kp.2 <> Some category_id)
                 (DataStorage.products s))
         (DataStorage.set_categories (delete category_id (DataStorage.categories s)) s))
    | None => (false, s)
    end.
Proof.
  unfold DataStorage.delete_category.
  destruct (DataStorage.categories s !! category_id); [|done].
  f_equal. rewrite delete_products_loop. simpl.
  unfold DataStorage.set_products. simpl. f_equal.
  apply map_eq. intros k. rewrite !map_lookup_filter.
  destruct (DataStorage.products s !! k) as [p|] eqn:Hp; simpl; [|done].
  apply option_guard_iff. simpl.
  rewrite list_elem_of_fmap. split.
  - intros Hnot Hcat. apply Hnot. exists (k, p). split; [done|].
    apply list_elem_of_filter. split; [done|]. by apply elem_of_map_to_list.
  - intros Hcat ([k' p'] & -> & Hin).
    apply list_elem_of_filter in Hin as [Hc Hin].
    apply elem_of_map_to_list in Hin. simpl in *. congruence.
Qed.

Lemma delete_categories_loop (ids : list Z) (s : DataStorage.t) :
  NoDup ids ->
  (forall c, c ∈ ids -> is_Some (DataStorage.categories s !! c)) ->
  foldl (fun s cat_id => (DataStorage.delete_category cat_id s).2) s ids
  = DataStorage.set_products
      (filter (fun kp => Product.category_id kp.2 ∉ Some <$> ids)
              (DataStorage.products s))
      (DataStorage.set_categories
         (filter (fun kc => kc.1 ∉ ids) (DataStorage.categories s)) s).
Proof.
  revert s. induction ids as [|c ids IH]; intros s Hnd Hall; simpl.
  - rewrite !map_filter_id.
    + by rewrite set_categories_id, set_products_id.
    + intros k x _. apply not_elem_of_nil.
    + intros k x _. apply not_elem_of_nil.
  - apply NoDup_cons in Hnd as [Hfresh Hnd].
    destruct (Hall c) as [cat Hcat]; [left|].
    rewrite delete_category_spec, Hcat. simpl.
    rewrite IH; [|done|].
    + simpl. unfold DataStorage.set_products, DataStorage.set_categories. simpl.
      f_equal.
      * rewrite map_filter_filter. apply map_filter_ext. intros k p _. simpl.
        rewrite not_elem_of_cons. split; [|tauto].
        intros [H1 H2]. split; [|done]. congruence.
      * rewrite map_filter_delete. apply map_eq. intros k.
        destruct (decide (k = c)) as [->|Hne].
        -- rewrite lookup_delete_eq. symmetry. apply map_lookup_filter_None.
           right. intros x _ Hn. apply Hn. left.
        -- rewrite lookup_delete_ne by done. rewrite !map_lookup_filter.
           destruct (DataStorage.categories s !! k); simpl; [|done].
           apply option_guard_iff. simpl. rewrite not_elem_of_cons. tauto.
    + intros c' Hin. simpl. rewrite lookup_delete_ne.
      * apply Hall. by right.
      * intros ->. done.
Qed.

(** [delete_city] removes the city, the categories of the city and the
    products of those categories, and nothing else.  A product attached
    directly to the city ([category_id] is [None]) is not among them. *)
Lemma delete_city_spec (city_id : Z) (s : DataStorage.t) :
  DataStorage.delete_city city_id s
  = match DataStorage.cities s !! city_id with
    | Some _ =>
      (true,
       DataStorage.set_products
         (filter (fun kp =>
                    in_category_of_city (DataStorage.categories s) city_id kp.2 = false)
                 (DataStorage.products s))
         (DataStorage.set_categories
            (filter (fun kc => Category.city_id kc.2 <> Some city_id)
                    (DataStorage.categories s))
            (DataStorage.set_cities (delete city_id (DataStorage.cities s)) s)))
    | None => (false, s)
    end.
Proof.
  unfold DataStorage.delete_city.
  destruct (DataStorage.cities s !! city_id); [|done].
  f_equal.
  set (ids := (filter (fun kc : Z * Category.t => Category.city_id kc.2 = Some city_id)
                 (map_to_list (DataStorage.categories
                    (DataStorage.set_cities (delete city_id (DataStorage.cities s)) s)))).*1).
  assert (forall c, c ∈ ids <->
            exists cat, DataStorage.categories s !! c = Some cat
                        /\ Category.city_id cat = Some city_id) as Hids.
  { intros c. unfold ids. rewrite list_elem_of_fmap. simpl. split.
    - intros ([c' cat] & -> & Hin). apply list_elem_of_filter in Hin as [Hc Hin].
      apply elem_of_map_to_list in Hin. by exists cat.
    - intros (cat & Hcat & Hc). exists (c, cat). split; [done|].
      apply list_elem_of_filter. split; [done|]. by apply elem_of_map_to_list. }
  rewrite delete_categories_loop.
  - simpl. unfold DataStorage.set_products, DataStorage.set_categories. simpl.
    f_equal.
    + apply map_filter_ext. intros k p _. simpl.
      unfold in_category_of_city. rewrite list_elem_of_fmap.
      destruct (Product.category_id p) as [c|] eqn:Hpc.
      * destruct (DataStorage.categories s !! c) as [cat|] eqn:Hcat.
        -- rewrite bool_decide_eq_false. split.
           ++ intros Hn Hc. apply Hn. exists c. split; [done|].
              apply Hids. by exists cat.
           ++ intros Hn (c' & Heq & Hin). injection Heq as <-.
              apply Hids in Hin as (cat' & Hcat' & Hc). congruence.
        -- split; [done|]. intros _ (c' & Heq & Hin). injection Heq as <-.
           apply Hids in Hin as (cat' & Hcat' & Hc). congruence.
      * split; [done|]. intros _ (c' & Heq & _). discriminate.
    + apply map_filter_ext. intros k cat Hcat. simpl. rewrite Hids. split.
      * intros Hn Hc. apply Hn. by exists cat.
      * intros Hn (cat' & Hcat' & Hc). congruence.
  - unfold ids. apply NoDup_fmap_fst.
    + intros k x y Hx Hy.
      apply list_elem_of_filter in Hx as [_ Hx]. apply list_elem_of_filter in Hy as [_ Hy].
      apply elem_of_map_to_list in Hx. apply elem_of_map_to_list in Hy. congruence.
    + apply NoDup_filter, NoDup_map_to_list.
  - intros c Hin. apply Hids in Hin as (cat & Hcat & _). simpl. by exists cat.
Qed.

(** C1. Deleting a city through the confirmation handler removes the city,
    its categories and their products, and keeps the product attached
    directly to the city: after the delete, product 2 is still in the
    store and still references city 1, which no longer exists.  The
    unrelated city, category and product are untouched. *)
Theorem delete_city_keeps_direct_product :
  let out :=
    admin_delete_city_finish (B := ascii_builtins) owner_only demo_store
      (owner_presses "confirm_delete_city_1") idle in
  replies out = [CityDeleted (py "Riverton")]
  /\ DataStorage.cities (storage_db out) !! 1 = None
  /\ DataStorage.categories (storage_db out) !! 1 = None
  /\ DataStorage.products (storage_db out) !! 1 = None
  /\ DataStorage.products (storage_db out) !! 2 = Some ladder
  /\ Product.city_id ladder = Some 1
  /\ Product.category_id ladder = None
  /\ DataStorage.get_city_products 1 (storage_db out) = [ladder]
  /\ DataStorage.products (storage_db out) !! 3 = Some atlas
  /\ is_Some (DataStorage.categories (storage_db out) !! 2)
  /\ is_Some (DataStorage.cities (storage_db out) !! 2).
Proof.
  vm_compute. repeat split; try reflexivity; eexists; reflexivity.
Qed.

(** The general reason: a product without a category is never among the
    products that [delete_city] removes. *)
Lemma delete_city_keeps_uncategorised (city_id : Z) (s : DataStorage.t)
    (product_id : Z) (p : Product.t) :
  DataStorage.products s !! product_id = Some p ->
  Product.category_id p = None ->
  DataStorage.products (DataStorage.delete_city city_id s).2 !! product_id = Some p.
Proof.
  intros Hp Hnone. rewrite delete_city_spec.
  destruct (DataStorage.cities s !! city_id); simpl; [|done].
  apply map_lookup_filter_Some. split; [done|]. simpl.
  unfold in_category_of_city. by rewrite Hnone.
Qed.

(** ** Identifier allocation *)

(** Each [add_*] returns the current counter, stores the entity under it
    and increments the counter; nothing else in the store changes. *)
Lemma add_product_spec (p : Product.t) (s : DataStorage.t) :
  DataStorage.add_product p s
  = (DataStorage.next_product_id s,
     DataStorage.set_next_product_id (DataStorage.next_product_id s + 1)
       (DataStorage.set_products
          (<[DataStorage.next_product_id s
             := Product.set_id (DataStorage.next_product_id s) p]>
             (DataStorage.products s)) s)).
Proof. reflexivity. Qed.

Lemma add_category_spec (c : Category.t) (s : DataStorage.t) :
  DataStorage.add_category c s
  = (DataStorage.next_category_id s,
     DataStorage.set_next_category_id (DataStorage.next_category_id s + 1)
       (DataStorage.set_categories
          (<[DataStorage.next_category_id s
             := Category.set_id (DataStorage.next_category_id s) c]>
             (DataStorage.categories s)) s)).
Proof. reflexivity. Qed.

Lemma add_city_spec (c : City.t) (s : DataStorage.t) :
  DataStorage.add_city c s
  = (DataStorage.next_city_id s,
     DataStorage.set_next_city_id (DataStorage.next_city_id s + 1)
       (DataStorage.set_cities
          (<[DataStorage.next_city_id s
             := City.set_id (DataStorage.next_city_id s) c]>
             (DataStorage.cities s)) s)).
Proof. reflexivity. Qed.

Lemma add_order_spec (o : Order.t) (s : DataStorage.t) :
  DataStorage.add_order o s
  = (DataStorage.next_order_id s,
     DataStorage.set_next_order_id (DataStorage.next_order_id s + 1)
       (DataStorage.set_orders
          (<[DataStorage.next_order_id s
             := Order.set_id (DataStorage.next_order_id s) o]>
             (DataStorage.orders s)) s)).
Proof. reflexivity. Qed.

(** When every key is below the counter, the id handed out is not in use,
    and every key is again below the new counter. *)
Lemma ids_below_fresh {A} (next : Z) (m : gmap Z A) :
  ids_below next m -> m !! next = None.
Proof.
  intros Hbelow. destruct (m !! next) eqn:Hm; [|done].
  assert (next < next); [|lia]. apply Hbelow. by rewrite Hm.
Qed.

Lemma ids_below_insert {A} (next : Z) (m : gmap Z A) (x : A) :
  ids_below next m -> ids_below (next + 1) (<[next := x]> m).
Proof.
  intros Hbelow k Hk. destruct (decide (k = next)) as [->|Hne]; [lia|].
  rewrite lookup_insert_ne in Hk by done. apply Hbelow in Hk. lia.
Qed.

Lemma ids_below_delete {A} (next : Z) (m : gmap Z A) (k : Z) :
  ids_below next m -> ids_below next (delete k m).
Proof.
  intros Hbelow j Hj. apply Hbelow.
  destruct (decide (j = k)) as [->|Hne].
  - rewrite lookup_delete_eq in Hj. by destruct Hj.
  - by rewrite lookup_delete_ne in Hj.
Qed.

Lemma max_id_ge (ids : list Z) (i : Z) : i ∈ ids -> i <= DataStorage.max_id ids.
Proof.
  induction ids as [|j ids IH]; intros Hin.
  - by apply elem_of_nil in Hin.
  - simpl. apply elem_of_cons in Hin as [->|Hin]; [lia|]. apply IH in Hin. lia.
Qed.

Lemma max_id_nil : DataStorage.max_id [] + 1 = 1.
Proof. reflexivity. Qed.

(** [max(ids + [0])] is the greatest id, or 0 when none is positive. *)
Lemma max_id_spec (ids : list Z) :
  (DataStorage.max_id ids = 0 \/ DataStorage.max_id ids ∈ ids)
  /\ 0 <= DataStorage.max_id ids
  /\ forall i, i ∈ ids -> i <= DataStorage.max_id ids.
Proof.
  split; [|split; [|apply max_id_ge]].
  - induction ids as [|j ids IH]; [by left|]. simpl.
    destruct (Z.max_spec j (DataStorage.max_id ids)) as [[_ ->]|[_ ->]].
    + destruct IH as [->|Hin]; [by left|]. right. by right.
    + right. left.
  - induction ids as [|j ids IH]; simpl; lia.
Qed.

(** After loading a collection whose entries are stored under their own
    id, every key is below the counter computed by [__init__]. *)
Lemma loaded_ids_below {A} (id_of : A -> Z) (m : gmap Z A) :
  (forall k x, m !! k = Some x -> id_of x = k) ->
  ids_below (DataStorage.max_id (id_of <$> (map_to_list m).*2) + 1) m.
Proof.
  intros Hkeys k [x Hx].
  assert (k <= DataStorage.max_id (id_of <$> (map_to_list m).*2)); [|lia].
  apply max_id_ge. rewrite <- (Hkeys k x Hx).
  apply list_elem_of_fmap_2. apply list_elem_of_fmap. exists (k, x). split; [done|].
  by apply elem_of_map_to_list.
Qed.

(** C4. On a first start (every persisted collection empty) the counters
    are computed as 1 before [create_test_data] fills the collections, so
    the ids handed out next are ids that are in use: [add_city] returns 1
    and overwrites the seeded city 1, [add_category] and [add_product] do
    the same to category 1 and product 1.  No entity is added: the 21
    cities stay 21. *)
Theorem first_start_reuses_ids :
  DataStorage.next_city_id fresh_start = 1
  /\ City.name <$> DataStorage.cities fresh_start !! 1 = Some (py "🌍Калининград🌍")
  /\ size (DataStorage.cities fresh_start) = 21%nat
  /\ (DataStorage.add_city (City.mk 0 (py "Riverton") 999 true) fresh_start).1 = 1
  /\ City.name <$>
       DataStorage.cities
         (DataStorage.add_city (City.mk 0 (py "Riverton") 999 true) fresh_start).2 !! 1
     = Some (py "Riverton")
  /\ size (DataStorage.cities
             (DataStorage.add_city (City.mk 0 (py "Riverton") 999 true) fresh_start).2)
     = 21%nat
  /\ is_Some (DataStorage.categories fresh_start !! 1)
  /\ (DataStorage.add_category (Category.mk 0 (py "Tools") (Some 1) true) fresh_start).1 = 1
  /\ Product.name <$> DataStorage.products fresh_start !! 1 = Some (Some (py "iPhone 15 Pro"))
  /\ (DataStorage.add_product hammer fresh_start).1 = 1
  /\ Product.name <$>
       DataStorage.products (DataStorage.add_product hammer fresh_start).2 !! 1
     = Some (Some (py "Hammer")).
Proof.
  vm_compute. repeat split; try reflexivity; eexists; reflexivity.
Qed.

(** The same through the handler: the first city an administrator adds
    after a first start replaces the seeded city 1. *)
Example first_city_added_replaces_seeded_city :
  let out :=
    admin_add_city_finish owner_only fresh_start
      (owner_says "Riverton") (FSMContext.mk (Some waiting_for_city_name) Data.empty) in
  replies out = [CityAdded 1]
  /\ City.name <$> DataStorage.cities (storage_db out) !! 1 = Some (py "Riverton").
Proof. vm_compute. split; reflexivity. Qed.

(** ** City order *)

Lemma bulk_update_step_alter (cs : gmap Z City.t) (item : Z * Z) :
  DataStorage.bulk_update_step cs item = alter (City.set_order item.2) item.1 cs.
Proof.
  unfold DataStorage.bulk_update_step. destruct item as [c o]. simpl.
  destruct (cs !! c) eqn:Hc; [done|].
  apply map_eq. intros k.
  destruct (decide (k = c)) as [->|Hne].
  - by rewrite lookup_alter_eq, Hc.
  - by rewrite lookup_alter_ne.
Qed.

Lemma bulk_update_absent (items : list (Z * Z)) (cs : gmap Z City.t) (k : Z) :
  k ∉ items.*1 -> foldl DataStorage.bulk_update_step cs items !! k = cs !! k.
Proof.
  revert cs. induction items as [|[c o] items IH]; intros cs Hnot; [done|].
  simpl in *. apply not_elem_of_cons in Hnot as [Hne Hnot].
  rewrite IH by done. rewrite bulk_update_step_alter. simpl.
  by rewrite lookup_alter_ne.
Qed.

Lemma bulk_update_present (items : list (Z * Z)) (cs : gmap Z City.t) (k o : Z) :
  NoDup items.*1 -> (k, o) ∈ items ->
  foldl DataStorage.bulk_update_step cs items !! k = City.set_order o <$> cs !! k.
Proof.
  revert cs. induction items as [|[c o'] items IH]; intros cs Hnd Hin.
  - by apply elem_of_nil in Hin.
  - simpl in *. apply NoDup_cons in Hnd as [Hfresh Hnd].
    apply elem_of_cons in Hin as [Heq|Hin].
    + injection Heq as <- <-. rewrite bulk_update_absent by done.
      rewrite bulk_update_step_alter. simpl. by rewrite lookup_alter_eq.
    + rewrite IH by done. rewrite bulk_update_step_alter. simpl.
      rewrite lookup_alter_ne; [done|].
      intros <-. apply Hfresh. apply list_elem_of_fmap. by exists (c, o).
Qed.

(** What [bulk_update_city_orders] does: it never fails, it sets the order
    of every city that the mapping names and that is in the store, and it
    passes over the ids that are not in the store. *)
Lemma bulk_update_city_orders_spec (order_mapping : gmap Z Z) (s : DataStorage.t) :
  (DataStorage.bulk_update_city_orders order_mapping s).1 = true
  /\ forall k,
      DataStorage.cities (DataStorage.bulk_update_city_orders order_mapping s).2 !! k
      = match order_mapping !! k with
        | Some o => City.set_order o <$> DataStorage.cities s !! k
        | None => DataStorage.cities s !! k
        end.
Proof.
  split; [done|]. intros k. simpl.
  destruct (order_mapping !! k) as [o|] eqn:Hk.
  - apply bulk_update_present.
    + apply NoDup_fst_map_to_list.
    + by apply elem_of_map_to_list.
  - apply bulk_update_absent. intros Hin.
    apply list_elem_of_fmap in Hin as ([k' o] & -> & Hin).
    apply elem_of_map_to_list in Hin. simpl in *. congruence.
Qed.

(** C2, the claim as stated, at the store: a mapping that names the unknown
    id 99 beside the known id 1 is not refused.  The call returns [True]
    and the order of city 1 changes from 1 to 5. *)
Lemma bulk_update_applies_known_ids :
  DataStorage.cities demo_store !! 99 = None
  /\ City.order <$> DataStorage.cities demo_store !! 1 = Some 1
  /\ (DataStorage.bulk_update_city_orders (<[99 := 1]> {[1 := 5]}) demo_store).1 = true
  /\ City.order <$>
       DataStorage.cities
         (DataStorage.bulk_update_city_orders (<[99 := 1]> {[1 := 5]}) demo_store).2 !! 1
     = Some 5.
Proof. vm_compute. repeat split; reflexivity. Qed.

Section CityOrder.
Context `{B : Builtins}.

(** C2, amended. All-or-nothing holds for the reorder message, not for the
    store method.  When the id list of a reorder message from an
    administrator names an id that is not in the store, the handler answers
    with the missing ids before it calls the store: the store, and with it
    every city's order, is what it was, and the conversation stays in its
    state.  The store method itself never fails: it sets the order of the ids
    it knows and passes over the others. *)
Theorem city_reorder_all_or_nothing (admin_manager : AdminManager.t)
    (db : DataStorage.t) (message : Message.t) (state : FSMContext.t)
    (text : str) (city_ids : list Z) (unknown : Z) :
  AdminManager.is_admin admin_manager (Message.from_user_id message) = true ->
  Message.text message = Some text ->
  parse_city_ids text = Some city_ids ->
  unknown ∈ city_ids ->
  DataStorage.cities db !! unknown = None ->
  admin_set_city_order_finish admin_manager db message state
  = done db state
         [CitiesNotFound
            (filter (fun city_id => DataStorage.cities db !! city_id = None) city_ids)]
  /\ forall (order_mapping : gmap Z Z) (s : DataStorage.t),
      (DataStorage.bulk_update_city_orders order_mapping s).1 = true
      /\ forall k,
          DataStorage.cities (DataStorage.bulk_update_city_orders order_mapping s).2 !! k
          = match order_mapping !! k with
            | Some o => City.set_order o <$> DataStorage.cities s !! k
            | None => DataStorage.cities s !! k
            end.
Proof.
  intros Hadmin Htext Hparse Hin Hunknown.
  split; [|apply bulk_update_city_orders_spec].
  unfold admin_set_city_order_finish. rewrite Hadmin, Htext, Hparse. simpl.
  destruct city_ids as [|c ids]; [by apply elem_of_nil in Hin|].
  destruct (filter _ (c :: ids)) as [|m ms] eqn:Hmissing; [|done].
  assert (unknown ∈ filter (fun city_id => DataStorage.cities db !! city_id = None)
                           (c :: ids)) as Hm.
  { apply list_elem_of_filter. by split. }
  rewrite Hmissing in Hm. by apply elem_of_nil in Hm.
Qed.

End CityOrder.

Lemma city_reorder_all_or_nothing_witness :
  admin_set_city_order_finish (B := ascii_builtins) owner_only demo_store
    (owner_says "2, 99, 1") (FSMContext.mk (Some waiting_for_city_order) Data.empty)
  = done demo_store (FSMContext.mk (Some waiting_for_city_order) Data.empty)
         [CitiesNotFound [99]].
Proof.
  destruct (city_reorder_all_or_nothing (B := ascii_builtins) owner_only demo_store
              (owner_says "2, 99, 1")
              (FSMContext.mk (Some waiting_for_city_order) Data.empty)
              (py "2, 99, 1") [2; 99; 1] 99) as [Hreject _].
  - vm_compute. reflexivity.
  - reflexivity.
  - vm_compute. reflexivity.
  - apply list_elem_of_In. simpl. tauto.
  - vm_compute. reflexivity.
  - rewrite Hreject. vm_compute. reflexivity.
Defined.

(** ** Single product add: the price step *)

(** Which parsed prices pass the test [price <= 0]: the positive ones
    (infinity included) and NaN, for which every comparison is false. *)
Lemma float_le_zero_false (p : float) :
  float_le p float_zero = false
  <-> SFltb float_zero p = true \/ p = float_nan.
Proof.
  unfold float_le, float_zero, float_nan, SFleb, SFltb.
  destruct p as [s|s| |s m e]; simpl; try destruct s; simpl;
    split; intros Hx; try done; try (by left); try (by right);
    destruct Hx; done.
Qed.

Section PriceStep.
Context `{B : Builtins}.

(** In both flows a text that [float()] refuses and a parsed price that is
    [<= 0] are answered with a re-prompt; the store, the state and the
    draft are what they were. *)
Lemma price_step_rejects (admin_manager : AdminManager.t) (db : DataStorage.t)
    (message : Message.t) (state : FSMContext.t) (text : str) :
  AdminManager.is_admin admin_manager (Message.from_user_id message) = true ->
  Message.text message = Some text ->
  (py_float text = None
   \/ exists price, py_float text = Some price /\ float_le price float_zero = true) ->
  (exists answer,
      (answer = PriceNotANumber \/ answer = PriceMustBePositive)
      /\ admin_add_product_price admin_manager db message state
         = done db state [answer])
  /\ (exists answer,
         (answer = PriceNotANumber \/ answer = PriceMustBePositive)
         /\ admin_add_product_to_city_price admin_manager db message state
            = done db state [answer]).
Proof.
  intros Hadmin Htext Hbad.
  unfold admin_add_product_price, admin_add_product_to_city_price.
  rewrite Hadmin, Htext. simpl.
  destruct Hbad as [-> | (price & -> & ->)].
  - split; exists PriceNotANumber; auto.
  - split; exists PriceMustBePositive; auto.
Qed.

(** The flow moves on to the photo step exactly when the text parses and
    the parsed value is not [<= 0]; the value is stored as it is. *)
Lemma price_step_advances (admin_manager : AdminManager.t) (db : DataStorage.t)
    (message : Message.t) (state : FSMContext.t) (text : str) (price : float) :
  AdminManager.is_admin admin_manager (Message.from_user_id message) = true ->
  Message.text message = Some text ->
  py_float text = Some price ->
  float_le price float_zero = false ->
  admin_add_product_price admin_manager db message state
  = done db
         (FSMContext.set_state waiting_for_product_photo
            (FSMContext.update_data (Data.set_product_price price) state))
         [AskProductPhoto]
  /\ admin_add_product_to_city_price admin_manager db message state
     = done db
            (FSMContext.set_state waiting_for_product_photo_direct
               (FSMContext.update_data (Data.set_direct_product_price price) state))
            [AskProductPhoto].
Proof.
  intros Hadmin Htext Hparse Hle.
  unfold admin_add_product_price, admin_add_product_to_city_price.
  by rewrite Hadmin, Htext, Hparse, Hle.
Qed.

End PriceStep.

(** C7. The text [nan] is read by [float()] as NaN; [nan <= 0] is false, so
    neither price handler re-prompts: the flow moves on to the photo step
    with NaN stored as the price, and the next message commits a product
    whose price is NaN.  A NaN is not a positive number. *)
Theorem nan_price_is_accepted :
  py_float (Builtins := ascii_builtins) (py "nan") = Some float_nan
  /\ float_le float_nan float_zero = false
  /\ SFltb float_zero float_nan = false
  /\ admin_add_product_price (B := ascii_builtins) owner_only demo_store
       (owner_says "nan") (FSMContext.mk (Some waiting_for_product_price) Data.empty)
     = done demo_store
            (FSMContext.mk (Some waiting_for_product_photo)
                           (Data.set_product_price float_nan Data.empty))
            [AskProductPhoto]
  /\ admin_add_product_to_city_price (B := ascii_builtins) owner_only demo_store
       (owner_says "nan")
       (FSMContext.mk (Some waiting_for_product_price_direct) Data.empty)
     = done demo_store
            (FSMContext.mk (Some waiting_for_product_photo_direct)
                           (Data.set_direct_product_price float_nan Data.empty))
            [AskProductPhoto]
  /\ Product.price <$>
       DataStorage.products
         (storage_db
            (admin_add_product_finish (B := ascii_builtins) owner_only demo_store
               (owner_says "нет")
               (FSMContext.mk (Some waiting_for_product_photo)
                              (Data.set_product_price float_nan Data.empty))))
       !! 4
     = Some (Some float_nan).
Proof. vm_compute. repeat split; reflexivity. Qed.

(** ** Bulk product add *)

Section BulkAdd.
Context `{B : Builtins}.

(** C6. In the bulk flow a description list, or a price list, whose number
    of items differs from the number of names is answered with a re-prompt
    that states both counts; the store, the state and the draft are what
    they were, so no product is created.  The last step commits nothing
    unless the three stored lists have the same length.  The description
    and price steps never write to the store, whoever sends the message and
    whatever it holds.  (The number of items of a list is the number of its
    non-blank comma-separated pieces.) *)
Theorem bulk_add_count_mismatch_rejected (admin_manager : AdminManager.t)
    (db : DataStorage.t) (message : Message.t) (state : FSMContext.t) (text : str) :
  AdminManager.is_admin admin_manager (Message.from_user_id message) = true ->
  Message.text message = Some text ->
  (length (comma_items text)
   <> length (default [] (Data.product_names (FSMContext.data state))) ->
   admin_add_multiple_products_descriptions admin_manager db message state
   = done db state
          [DescriptionCountMismatch
             (length (comma_items text))
             (length (default [] (Data.product_names (FSMContext.data state))))]
   /\ admin_add_multiple_products_prices admin_manager db message state
      = done db state
             [PriceCountMismatch
                (length (comma_items text))
                (length (default [] (Data.product_names (FSMContext.data state))))])
  /\ (forall (admins : AdminManager.t) (last_message : Message.t),
      (length (default [] (Data.product_names (FSMContext.data state)))
       <> length (default [] (Data.product_descriptions (FSMContext.data state)))
       \/ length (default [] (Data.product_names (FSMContext.data state)))
          <> length (default [] (Data.product_prices (FSMContext.data state)))) ->
      storage_db (admin_add_multiple_products_finish admins db last_message state) = db)
  /\ forall (admins : AdminManager.t) (any_message : Message.t) (any_state : FSMContext.t),
      storage_db
        (admin_add_multiple_products_descriptions admins db any_message any_state) = db
      /\ storage_db
           (admin_add_multiple_products_prices admins db any_message any_state) = db.
Proof.
  intros Hadmin Htext. split; [|split].
  - intros Hneq.
    unfold admin_add_multiple_products_descriptions, admin_add_multiple_products_prices.
    rewrite Hadmin, Htext. simpl.
    by rewrite (proj2 (Nat.eqb_neq _ _) Hneq).
  - intros admins last_message Hneq.
    unfold admin_add_multiple_products_finish.
    destruct (AdminManager.is_admin admins _); simpl; [|done].
    destruct Hneq as [Hneq|Hneq]; rewrite (proj2 (Nat.eqb_neq _ _) Hneq); simpl; [done|].
    by rewrite orb_true_r.
  - intros admins any_message any_state.
    unfold admin_add_multiple_products_descriptions, admin_add_multiple_products_prices.
    split; repeat case_match; reflexivity.
Qed.

End BulkAdd.

Lemma bulk_add_count_mismatch_witness :
  admin_add_multiple_products_descriptions owner_only demo_store
    (owner_says "Claw hammer, Wooden mallet")
    (FSMContext.mk (Some waiting_for_multiple_products_descriptions)
       (Data.set_product_names [py "Hammer"; py "Mallet"; py "Saw"] Data.empty))
  = done demo_store
         (FSMContext.mk (Some waiting_for_multiple_products_descriptions)
            (Data.set_product_names [py "Hammer"; py "Mallet"; py "Saw"] Data.empty))
         [DescriptionCountMismatch 2 3].
Proof.
  destruct (bulk_add_count_mismatch_rejected (B := ascii_builtins) owner_only demo_store
              (owner_says "Claw hammer, Wooden mallet")
              (FSMContext.mk (Some waiting_for_multiple_products_descriptions)
                 (Data.set_product_names [py "Hammer"; py "Mallet"; py "Saw"] Data.empty))
              (py "Claw hammer, Wooden mallet")) as [Hreject _].
  - vm_compute. reflexivity.
  - reflexivity.
  - destruct Hreject as [Hdesc _].
    + vm_compute. discriminate.
    + rewrite Hdesc. vm_compute. reflexivity.
Defined.

(** ** Handlers as sequences of store calls *)

Lemma single_attachment_set_id (i : Z) (p : Product.t) :
  single_attachment p -> single_attachment (Product.set_id i p).
Proof. by destruct p. Qed.

Lemma add_products_loop_calls (P : Product.t -> Prop)
    (build : nat -> str -> Product.t) (names : list str) :
  (forall i name, P (build i name)) ->
  forall (i : nat) (db : DataStorage.t) (added : list Z),
    rtc (store_call P) db (add_products_loop build i names db added).2.
Proof.
  intros Hbuild. induction names as [|name names IH]; intros i db added; simpl.
  - apply rtc_refl.
  - eapply rtc_l; [|apply IH]. apply (call_add_product P db (build i name)), Hbuild.
Qed.

(** The number of products that the loop adds is the number of names. *)
Lemma add_products_loop_length (build : nat -> str -> Product.t) (names : list str) :
  forall (i : nat) (db : DataStorage.t) (added : list Z),
    length (add_products_loop build i names db added).1
    = (length added + length names)%nat.
Proof.
  induction names as [|name names IH]; intros i db added; simpl.
  - lia.
  - rewrite IH, length_app. simpl. lia.
Qed.

Section Runs.
Context `{B : Builtins}.

(** Name the store that a destructed call returned by the call itself. *)
Ltac fold_result :=
  match goal with
  | H : ?f = (_, ?d) |- rtc _ _ ?d => replace d with (f).2 by (by rewrite H)
  end.

Ltac one_call lem := try apply rtc_refl; fold_result; apply rtc_once, lem.

(** Every handler changes the store only through calls of the store
    methods, and every product that a handler passes to [add_product] has
    at most one attachment. *)
Lemma workflow_step_calls (db db' : DataStorage.t) :
  workflow_step db db' -> rtc (store_call single_attachment) db db'.
Proof.
  intros Hstep. destruct Hstep.
  - unfold receive_payment_proof.
    repeat case_match; simpl; one_call call_add_order.
  - unfold admin_add_product_finish.
    repeat case_match; simpl; one_call call_add_product; by right.
  - unfold admin_add_product_to_city_finish.
    repeat case_match; simpl; one_call call_add_product; by left.
  - unfold admin_add_multiple_products_finish.
    destruct (negb _); [apply rtc_refl|].
    destruct (_ || _); [apply rtc_refl|].
    destruct (_ && _); [apply rtc_refl|].
    destruct (str_eqb _ _).
    + match goal with
      | |- context [add_products_loop ?b ?i ?n ?d ?a] =>
        pose proof (add_products_loop_calls single_attachment b n
                      (fun _ _ => or_intror eq_refl) i d a) as Hloop;
        destruct (add_products_loop b i n d a) as [added db'']
      end.
      simpl in *. done.
    + match goal with
      | |- context [add_products_loop ?b ?i ?n ?d ?a] =>
        pose proof (add_products_loop_calls single_attachment b n
                      (fun _ _ => or_introl eq_refl) i d a) as Hloop;
        destruct (add_products_loop b i n d a) as [added db'']
      end.
      simpl in *. repeat case_match; done.
  - unfold admin_set_city_order_finish.
    repeat case_match; simpl; one_call call_bulk_update_city_orders.
  - unfold admin_delete_city_finish.
    repeat case_match; simpl; one_call call_delete_city.
  - unfold admin_delete_category_finish.
    repeat case_match; simpl; one_call call_delete_category.
  - unfold admin_delete_product_finish.
    repeat case_match; simpl; one_call call_delete_product.
  - unfold admin_add_city_finish.
    repeat case_match; simpl; one_call call_add_city.
  - unfold admin_add_category_finish.
    repeat case_match; simpl; one_call call_add_category.
  - apply rtc_once, call_add_user.
  - apply rtc_once, call_update_payment_details.
  - apply rtc_once, call_update_operator_settings.
Qed.

Lemma reachable_calls (db db' : DataStorage.t) :
  reachable db db' -> rtc (store_call single_attachment) db db'.
Proof.
  induction 1 as [|db mid db' Hstep _ IH]; [apply rtc_refl|].
  etrans; [|exact IH]. by apply workflow_step_calls.
Qed.

End Runs.

(** ** What a store call does to the products and to the orders *)

(** A product found in the store after a call was there before, or it was
    added by the call, under the key it carries as its id. *)
Lemma store_call_products (P : Product.t -> Prop) (s s' : DataStorage.t) :
  store_call P s s' ->
  forall k p,
    DataStorage.products s' !! k = Some p ->
    DataStorage.products s !! k = Some p
    \/ exists p0, P p0 /\ p = Product.set_id k p0.
Proof.
  intros Hcall k p. destruct Hcall; simpl.
  - unfold DataStorage.add_user. case_match; simpl; auto.
  - destruct (decide (k = DataStorage.next_product_id s)) as [->|Hne].
    + rewrite lookup_insert_eq. intros [= <-]. right. eauto.
    + rewrite lookup_insert_ne by done. auto.
  - auto.
  - auto.
  - auto.
  - auto.
  - auto.
  - unfold DataStorage.update_city_order. case_match; simpl; auto.
  - auto.
  - rewrite delete_city_spec. case_match; simpl; [|auto].
    intros Hk. apply map_lookup_filter_Some in Hk as [Hk _]. auto.
  - rewrite delete_category_spec. case_match; simpl; [|auto].
    intros Hk. apply map_lookup_filter_Some in Hk as [Hk _]. auto.
  - rewrite delete_product_eq. simpl.
    intros Hk. apply lookup_delete_Some in Hk as [_ Hk]. auto.
Qed.

(** An order that is in the store under an id below the counter stays in
    the store, unchanged, and below the counter. *)
Lemma store_call_orders (P : Product.t -> Prop) (s s' : DataStorage.t) :
  store_call P s s' ->
  forall order_id order,
    DataStorage.orders s !! order_id = Some order ->
    order_id < DataStorage.next_order_id s ->
    DataStorage.orders s' !! order_id = Some order
    /\ order_id < DataStorage.next_order_id s'.
Proof.
  intros Hcall order_id order Ho Hlt. destruct Hcall; simpl; auto.
  - unfold DataStorage.add_user. case_match; simpl; auto.
  - split; [|lia]. rewrite lookup_insert_ne; [done|lia].
  - unfold DataStorage.update_city_order. case_match; simpl; auto.
  - rewrite delete_city_spec. case_match; simpl; auto.
  - rewrite delete_category_spec. case_match; simpl; auto.
  - rewrite delete_product_eq. simpl. auto.
Qed.

Lemma store_calls_orders (P : Product.t -> Prop) (s s' : DataStorage.t) :
  rtc (store_call P) s s' ->
  forall order_id order,
    DataStorage.orders s !! order_id = Some order ->
    order_id < DataStorage.next_order_id s ->
    DataStorage.orders s' !! order_id = Some order
    /\ order_id < DataStorage.next_order_id s'.
Proof.
  induction 1 as [|s mid s' Hcall _ IH]; intros order_id order Ho Hlt; [done|].
  destruct (store_call_orders P s mid Hcall order_id order Ho Hlt) as [Ho' Hlt'].
  by apply IH.
Qed.

Lemma store_calls_single_attachment (s s' : DataStorage.t) :
  rtc (store_call single_attachment) s s' ->
  at_most_one_attachment (DataStorage.products s) ->
  at_most_one_attachment (DataStorage.products s').
Proof.
  induction 1 as [|s mid s' Hcall _ IH]; intros Hinv; [done|].
  apply IH. intros k p Hk.
  destruct (store_call_products _ s mid Hcall k p Hk) as [Hold | (p0 & Hp0 & ->)].
  - by apply (Hinv k).
  - by apply single_attachment_set_id.
Qed.

(** The products seeded by [create_test_data] belong to a category only. *)
Lemma init_single_attachment (products : gmap Z Product.t)
    (categories : gmap Z Category.t) (cities : gmap Z City.t)
    (orders : gmap Z Order.t) (users : list User.t)
    (payment_details : PaymentDetails.t) (operator_settings : OperatorSettings.t) :
  at_most_one_attachment products ->
  at_most_one_attachment
    (DataStorage.products
       (DataStorage.init products categories cities orders users
          payment_details operator_settings)).
Proof.
  intros Hinv. unfold DataStorage.init. case_match; [|done].
  unfold DataStorage.create_test_data. case_match. simpl.
  intros k p Hk.
  destruct (decide (k = 2)) as [->|Hne2].
  { rewrite lookup_insert_eq in Hk. injection Hk as <-. by right. }
  rewrite lookup_insert_ne in Hk by done.
  destruct (decide (k = 1)) as [->|Hne1].
  { rewrite lookup_insert_eq in Hk. injection Hk as <-. by right. }
  rewrite lookup_insert_ne in Hk by done.
  by apply (Hinv k).
Qed.

Section RunProperties.
Context `{B : Builtins}.

(** C9. Start the program on persisted products that have at most one
    attachment each (none, on a first start).  After every sequence of
    handler calls, every product in the store has at most one attachment:
    its [category_id] and its [city_id] are not both set. *)
Theorem products_have_at_most_one_attachment (products : gmap Z Product.t)
    (categories : gmap Z Category.t) (cities : gmap Z City.t)
    (orders : gmap Z Order.t) (users : list User.t)
    (payment_details : PaymentDetails.t) (operator_settings : OperatorSettings.t)
    (db : DataStorage.t) :
  at_most_one_attachment products ->
  reachable
    (DataStorage.init products categories cities orders users
       payment_details operator_settings) db ->
  forall product_id p,
    DataStorage.products db !! product_id = Some p ->
    Product.category_id p = None \/ Product.city_id p = None.
Proof.
  intros Hloaded Hrun.
  apply (store_calls_single_attachment _ db (reachable_calls _ _ Hrun)).
  by apply init_single_attachment.
Qed.

(** A payment proof for a product that is in the store places one order,
    built from the message, the draft and the product. *)
Lemma payment_proof_places_order (now : str) (notify_ok : Z -> bool)
    (admin_manager : AdminManager.t) (db : DataStorage.t)
    (message : Message.t) (state : FSMContext.t)
    (product_id : Z) (product : Product.t) :
  Data.selected_product_id (FSMContext.data state) = Some product_id ->
  DataStorage.products db !! product_id = Some product ->
  Message.photo message <> [] \/ Message.document message <> None ->
  exists payment_proof,
    storage_db (receive_payment_proof now notify_ok admin_manager db message state)
    = (DataStorage.add_order
         (Order.mk 0 (Message.from_user_id message)
            (str_or (Message.from_user_username message) (py "Без имени"))
            product_id (Product.name product) (Product.price product)
            (Data.payment_method (FSMContext.data state)) payment_proof
            Order.default_status now) db).2.
Proof.
  intros Hsel Hprod Hproof.
  unfold receive_payment_proof. rewrite Hsel, Hprod.
  assert (exists payment_proof,
             match last_photo message with
             | Some file_id => Some file_id
             | None => Message.document message
             end = Some payment_proof) as [payment_proof ->].
  { unfold last_photo. destruct (last (Message.photo message)) eqn:Hlast; [eauto|].
    apply last_None in Hlast. destruct Hproof as [Hp|Hd]; [done|].
    destruct (Message.document message); [eauto|done]. }
  exists payment_proof. simpl.
  by destruct (Product.price product).
Qed.

(** C3. A payment proof (photo or document) for the selected product
    creates an order under the current order counter with status
    [pending], carrying the product's name and price as they are in the
    store at that moment.  Whatever the handlers do afterwards (the
    product deleted, replaced, its category or city deleted, further orders
    placed), the order stored under that id stays as it was created. *)
Theorem order_keeps_product_snapshot (now : str) (notify_ok : Z -> bool)
    (admin_manager : AdminManager.t) (db : DataStorage.t)
    (message : Message.t) (state : FSMContext.t)
    (product_id : Z) (product : Product.t) :
  Data.selected_product_id (FSMContext.data state) = Some product_id ->
  DataStorage.products db !! product_id = Some product ->
  Message.photo message <> [] \/ Message.document message <> None ->
  exists order,
    DataStorage.orders
      (storage_db (receive_payment_proof now notify_ok admin_manager db message state))
      !! DataStorage.next_order_id db = Some order
    /\ Order.status order = py "pending"
    /\ Order.product_id order = product_id
    /\ Order.product_name order = Product.name product
    /\ Order.price order = Product.price product
    /\ forall db',
        reachable
          (storage_db (receive_payment_proof now notify_ok admin_manager db message state))
          db' ->
        DataStorage.orders db' !! DataStorage.next_order_id db = Some order.
Proof.
  intros Hsel Hprod Hproof.
  destruct (payment_proof_places_order now notify_ok admin_manager db message state
              product_id product Hsel Hprod Hproof) as [payment_proof ->].
  eexists. split; [apply lookup_insert_eq|].
  repeat split.
  intros db' Hrun. apply reachable_calls in Hrun.
  eapply store_calls_orders; [exact Hrun| |].
  - simpl. apply lookup_insert_eq.
  - simpl. lia.
Qed.

End RunProperties.

Lemma demo_products_single_attachment : at_most_one_attachment demo_products.
Proof.
  intros k p Hk. unfold demo_products in Hk.
  repeat (apply lookup_insert_Some in Hk as [[_ <-]|[_ Hk]]; [vm_compute; auto|]).
  by rewrite lookup_empty in Hk.
Qed.

Lemma products_have_at_most_one_attachment_witness :
  Product.category_id
    (Product.mk 4 (Some (py "Canoe")) (Some (py "Two-seat canoe"))
       (Some (float_of_decimal false 39900 (-2))) None (Some 2) None true) = None
  \/ Product.city_id
       (Product.mk 4 (Some (py "Canoe")) (Some (py "Two-seat canoe"))
          (Some (float_of_decimal false 39900 (-2))) None (Some 2) None true) = None.
Proof.
  refine (products_have_at_most_one_attachment (B := ascii_builtins)
            demo_products demo_categories demo_cities ∅ []
            PaymentDetails.default OperatorSettings.default
            (storage_db
               (admin_add_product_to_city_finish (B := ascii_builtins) owner_only
                  demo_store (owner_says "нет") direct_draft))
            demo_products_single_attachment _ 4 _ _).
  - apply rtc_once.
    exact (step_add_product_to_city_finish demo_store owner_only
             (owner_says "нет") direct_draft).
  - vm_compute. reflexivity.
Defined.

Lemma order_keeps_product_snapshot_witness :
  exists order,
    DataStorage.orders
      (storage_db (receive_payment_proof (py "2026-11-03T10:00:00") (fun _ => true)
                     owner_only demo_store buyer_photo buyer_checkout))
      !! DataStorage.next_order_id demo_store = Some order
    /\ Order.status order = py "pending"
    /\ Order.product_id order = 1
    /\ Order.product_name order = Product.name hammer
    /\ Order.price order = Product.price hammer
    /\ forall db',
        reachable (B := ascii_builtins)
          (storage_db (receive_payment_proof (py "2026-11-03T10:00:00") (fun _ => true)
                         owner_only demo_store buyer_photo buyer_checkout))
          db' ->
        DataStorage.orders db' !! DataStorage.next_order_id demo_store = Some order.
Proof.
  refine (order_keeps_product_snapshot (B := ascii_builtins)
            (py "2026-11-03T10:00:00") (fun _ => true) owner_only demo_store
            buyer_photo buyer_checkout 1 hammer _ _ _).
  - reflexivity.
  - vm_compute. reflexivity.
  - left. discriminate.
Defined.

(** The checkout scenario end to end: the buyer opens product 1 (Hammer,
    9.99), chooses [card] and sends a photo.  The order is stored with
    status [pending] and the price 9.99, the owner is notified, and the
    conversation returns to idle. *)
Example checkout_scenario :
  let selected :=
    fsm (show_product_detail (B := ascii_builtins) demo_store
           (CallbackQuery.mk 555 (py "product_1")) idle) in
  let paying :=
    fsm (select_payment_method demo_store
           (CallbackQuery.mk 555 (py "payment_card")) selected) in
  let out :=
    receive_payment_proof (py "2026-11-03T10:00:00") (fun _ => true)
      owner_only demo_store buyer_photo paying in
  paying = buyer_checkout
  /\ replies out = [OrderAccepted 1; WhatNext]
  /\ deliveries out = [owner_id]
  /\ fsm out = idle
  /\ DataStorage.orders (storage_db out) !! 1
     = Some (Order.mk 1 555 (py "buyer") 1 (Some (py "Hammer"))
               (Some (float_of_decimal false 999 (-2))) (Some (py "card"))
               (py "photo-large") (py "pending") (py "2026-11-03T10:00:00"))
  /\ format_f 2 (float_of_decimal false 999 (-2)) = py "9.99".
Proof. vm_compute. repeat split; reflexivity. Qed.

(** The order of that run, and the same order after the product is
    deleted. *)
Example order_survives_product_deletion :
  let placed :=
    storage_db (receive_payment_proof (py "2026-11-03T10:00:00") (fun _ => true)
                  owner_only demo_store buyer_photo buyer_checkout) in
  let later :=
    storage_db (admin_delete_product_finish (B := ascii_builtins) owner_only placed
                  (owner_presses "confirm_delete_product_1") idle) in
  DataStorage.products later !! 1 = None
  /\ DataStorage.orders later !! 1 = DataStorage.orders placed !! 1
  /\ DataStorage.orders later !! 1
     = Some (Order.mk 1 555 (py "buyer") 1 (Some (py "Hammer"))
               (Some (float_of_decimal false 999 (-2))) (Some (py "card"))
               (py "photo-large") (py "pending") (py "2026-11-03T10:00:00")).
Proof. vm_compute. repeat split; reflexivity. Qed.

(** ** Broadcast *)

(** Every user is the recipient of one send attempt, in the order of the
    user list, whatever succeeds or fails. *)
Lemma broadcast_loop_attempted (send_ok edit_ok : nat -> bool) (users : list User.t) :
  forall (i : nat) (t : Tally),
    attempted (broadcast_loop send_ok edit_ok i users t)
    = attempted t ++ (User.id <$> users).
Proof.
  induction users as [|user users IH]; intros i t; simpl.
  - by rewrite app_nil_r.
  - rewrite IH.
    destruct (send_ok i); [destruct (Z.of_nat i mod 10 =? 0); [destruct (edit_ok i)|]|];
      simpl; by rewrite <- app_assoc.
Qed.

(** When the progress updates go through, a send that returns counts as a
    success and a send that raises counts as a failure, one count per
    user. *)
Lemma broadcast_loop_counts (send_ok edit_ok : nat -> bool) (users : list User.t) :
  (forall i, edit_ok i = true) ->
  forall (i : nat) (t : Tally),
    success (broadcast_loop send_ok edit_ok i users t)
    = success t
      + Z.of_nat (length (filter (fun j => send_ok j = true) (seq i (length users))))
    /\ failed (broadcast_loop send_ok edit_ok i users t)
       = failed t
         + Z.of_nat (length (filter (fun j => send_ok j = false) (seq i (length users)))).
Proof.
  intros Hedit. induction users as [|user users IH]; intros i t; simpl.
  - split; lia.
  - rewrite !filter_cons.
    destruct (send_ok i) eqn:Hsend.
    + rewrite decide_True by done. rewrite decide_False by done.
      destruct (Z.of_nat i mod 10 =? 0); [rewrite Hedit|];
        destruct (IH (S i) (mkTally (success t + 1) (failed t)
                                    (attempted t ++ [User.id user]) (progress t)))
          as [Hs Hf];
        match goal with
        | |- context [broadcast_loop _ _ _ _ ?t'] =>
          destruct (IH (S i) t') as [Hs' Hf']
        end;
        rewrite Hs', Hf'; simpl; split; lia.
    + rewrite decide_False by done. rewrite decide_True by done.
      destruct (IH (S i) (mkTally (success t) (failed t + 1)
                                  (attempted t ++ [User.id user]) (progress t)))
        as [Hs Hf].
      rewrite Hs, Hf. simpl. split; lia.
Qed.

(** Each position is a success or a failure, never both. *)
Lemma outcomes_partition (send_ok : nat -> bool) (positions : list nat) :
  (length (filter (fun j => send_ok j = true) positions)
   + length (filter (fun j => send_ok j = false) positions))%nat
  = length positions.
Proof.
  induction positions as [|j positions IH]; [done|].
  rewrite !filter_cons.
  destruct (send_ok j) eqn:Hj.
  - rewrite decide_True by done. rewrite decide_False by done. simpl. lia.
  - rewrite decide_False by done. rewrite decide_True by done. simpl. lia.
Qed.

Lemma int_truediv_positive (a b : Z) : 0 < b -> is_Some (int_truediv a b).
Proof. intros Hb. destruct a, b; simpl; try lia; eauto. Qed.

(** C8, amended.  An administrator confirms a broadcast of a non-empty
    text.  With a non-empty user list, whatever sends and whatever progress
    updates fail: one send is attempted for every user, in the order of the
    list; the last message is the report, which states the number of
    recipients, the two counts of the loop and [success/total*100] printed
    with one decimal; the handler ends without an exception and clears the
    conversation.  Provided the progress updates go through, the success
    count is the number of sends that returned, the failure count the
    number of sends that raised, and the two add up to the number of
    users.  With an empty user list no broadcast takes place, whatever the
    conversation holds: the message step answers that there are no users,
    and the confirmation handler answers that there is no message or no
    users; both clear the conversation and neither sends anything. *)
Theorem broadcast_reaches_every_user (send_ok edit_ok : nat -> bool)
    (admin_manager : AdminManager.t) (db : DataStorage.t)
    (callback : CallbackQuery.t) (state : FSMContext.t) (text : str) :
  AdminManager.is_admin admin_manager (CallbackQuery.from_user_id callback) = true ->
  Data.broadcast_message (FSMContext.data state) = Some text ->
  text <> [] ->
  (DataStorage.users db <> [] ->
   exists (succeeded failures : Z) (ratio : float),
     deliveries (confirm_broadcast send_ok edit_ok admin_manager db callback state)
     = User.id <$> DataStorage.users db
     /\ int_truediv succeeded (Z.of_nat (length (DataStorage.users db))) = Some ratio
     /\ last (replies (confirm_broadcast send_ok edit_ok admin_manager db callback state))
        = Some (BroadcastReport
                  (broadcast_result_text (length (DataStorage.users db))
                     succeeded failures (float_mul ratio (float_of_Z 100))))
     /\ raised (confirm_broadcast send_ok edit_ok admin_manager db callback state) = None
     /\ fsm (confirm_broadcast send_ok edit_ok admin_manager db callback state)
        = FSMContext.clear state
     /\ ((forall i, edit_ok i = true) ->
         succeeded
         = Z.of_nat (length (filter (fun i => send_ok i = true)
                                    (seq 1 (length (DataStorage.users db)))))
         /\ failures
            = Z.of_nat (length (filter (fun i => send_ok i = false)
                                       (seq 1 (length (DataStorage.users db)))))
         /\ succeeded + failures = Z.of_nat (length (DataStorage.users db))))
  /\ (DataStorage.users db = [] ->
      (forall (state' : FSMContext.t),
          confirm_broadcast send_ok edit_ok admin_manager db callback state'
          = done db (FSMContext.clear state') [BroadcastNothingToSend])
      /\ (forall (message : Message.t) (state' : FSMContext.t),
             AdminManager.is_admin admin_manager (Message.from_user_id message) = true ->
             admin_broadcast_send admin_manager db message state'
             = done db (FSMContext.clear state') [NoUsers])).
Proof.
  intros Hadmin Hmsg Htext. split.
  - intros Husers.
    unfold confirm_broadcast. rewrite Hadmin, Hmsg. simpl.
    destruct text as [|c text]; [done|].
    destruct (DataStorage.users db) as [|user users] eqn:Hu; [done|].
    cbv beta iota.
    assert (0 < Z.of_nat (length (user :: users))) as Hpos by (simpl; lia).
    remember (user :: users) as all eqn:Hall. clear Hall.
    pose proof (broadcast_loop_attempted send_ok edit_ok all 1 (mkTally 0 0 [] [])) as Ha.
    change (attempted (mkTally 0 0 [] [])) with (@nil Z) in Ha.
    destruct (int_truediv_positive
                (success (broadcast_loop send_ok edit_ok 1 all (mkTally 0 0 [] [])))
                (Z.of_nat (length all)) Hpos) as [ratio Hratio].
    rewrite Hratio.
    exists (success (broadcast_loop send_ok edit_ok 1 all (mkTally 0 0 [] []))),
           (failed (broadcast_loop send_ok edit_ok 1 all (mkTally 0 0 [] []))),
           ratio.
    split; [exact Ha|].
    split; [exact Hratio|].
    split; [cbn [replies]; rewrite app_comm_cons; apply last_snoc|].
    split; [done|]. split; [done|].
    intros Hedit.
    destruct (broadcast_loop_counts send_ok edit_ok all Hedit 1 (mkTally 0 0 [] []))
      as [Hs Hf].
    pose proof (outcomes_partition send_ok (seq 1 (length all))) as Hpart.
    rewrite length_seq in Hpart.
    change (success (mkTally 0 0 [] [])) with 0 in Hs.
    change (failed (mkTally 0 0 [] [])) with 0 in Hf.
    rewrite Hs, Hf. repeat split; lia.
  - intros Husers. split.
    + intros state'. unfold confirm_broadcast. rewrite Hadmin, Husers. simpl.
      by destruct (Data.broadcast_message (FSMContext.data state')) as [[|? ?]|].
    + intros message state' Hsender. unfold admin_broadcast_send.
      by rewrite Hsender, Husers.
Qed.

Lemma broadcast_reaches_every_user_witness :
  exists (succeeded failures : Z) (ratio : float),
    deliveries (confirm_broadcast all_but_15th always owner_only store_23_users
                  (owner_presses "confirm_broadcast") broadcast_draft)
    = User.id <$> DataStorage.users store_23_users
    /\ int_truediv succeeded (Z.of_nat (length (DataStorage.users store_23_users)))
       = Some ratio
    /\ last (replies (confirm_broadcast all_but_15th always owner_only store_23_users
                        (owner_presses "confirm_broadcast") broadcast_draft))
       = Some (BroadcastReport
                 (broadcast_result_text (length (DataStorage.users store_23_users))
                    succeeded failures (float_mul ratio (float_of_Z 100))))
    /\ raised (confirm_broadcast all_but_15th always owner_only store_23_users
                 (owner_presses "confirm_broadcast") broadcast_draft) = None
    /\ fsm (confirm_broadcast all_but_15th always owner_only store_23_users
              (owner_presses "confirm_broadcast") broadcast_draft)
       = FSMContext.clear broadcast_draft
    /\ succeeded
       = Z.of_nat (length (filter (fun i => all_but_15th i = true)
                                  (seq 1 (length (DataStorage.users store_23_users)))))
    /\ failures
       = Z.of_nat (length (filter (fun i => all_but_15th i = false)
                                  (seq 1 (length (DataStorage.users store_23_users)))))
    /\ succeeded + failures = Z.of_nat (length (DataStorage.users store_23_users)).
Proof.
  assert (AdminManager.is_admin owner_only
            (CallbackQuery.from_user_id (owner_presses "confirm_broadcast")) = true)
    as Hadmin by (vm_compute; reflexivity).
  assert (py "Sale today" <> []) as Htext by discriminate.
  assert (DataStorage.users store_23_users <> []) as Husers by discriminate.
  destruct (broadcast_reaches_every_user all_but_15th always owner_only store_23_users
              (owner_presses "confirm_broadcast") broadcast_draft (py "Sale today")
              Hadmin eq_refl Htext)
    as [Hsome _].
  destruct (Hsome Husers)
    as (succeeded & failures & ratio & Hd & Hratio & Hlast & Hraised & Hfsm & Hcounts).
  exists succeeded, failures, ratio.
  destruct (Hcounts (fun _ => eq_refl)) as (Hs & Hf & Hsum).
  repeat split; assumption.
Defined.

(** The scenario of the specification: 23 users, the 15th send fails.
    The report shows 23 recipients, 22 successes, 1 failure and 95.7%. *)
Example broadcast_23_users_one_failure :
  deliveries (confirm_broadcast all_but_15th always owner_only store_23_users
                (owner_presses "confirm_broadcast") broadcast_draft)
  = (fun i => Z.of_nat i + 100) <$> seq 1 23
  /\ last (replies (confirm_broadcast all_but_15th always owner_only store_23_users
                      (owner_presses "confirm_broadcast") broadcast_draft))
     = Some (BroadcastReport
               (py "📢 <b>Рассылка завершена</b>" ++ nl ++ nl
                ++ py "📊 <b>Результаты:</b>" ++ nl
                ++ py "• Всего получателей: 23" ++ nl
                ++ py "• ✅ Успешно отправлено: 22" ++ nl
                ++ py "• ❌ Не удалось отправить: 1" ++ nl ++ nl
                ++ py "📈 <b>Успешность:</b> 95.7%"))
  /\ int_truediv 22 23 = Some (S754_finite false 8615581895839210 (-53))
  /\ float_mul (S754_finite false 8615581895839210 (-53)) (float_of_Z 100)
     = S754_finite false 6730923356124383 (-46)
  /\ format_f 1 (S754_finite false 6730923356124383 (-46)) = py "95.7".
Proof. vm_compute. repeat split; reflexivity. Qed.

(** When a progress update fails after a send that went through, the same
    recipient is counted as a success and as a failure: with 10 users and
    every send delivered, the report of a run whose update after the 10th
    send raises counts 10 successes and 1 failure. *)
Example progress_failure_counts_twice :
  let t :=
    broadcast_loop always (fun i => negb (i =? 10)%nat) 1
      ((fun i => User.mk (Z.of_nat i) [] []) <$> seq 1 10) (mkTally 0 0 [] []) in
  success t = 10 /\ failed t = 1.
Proof. vm_compute. split; reflexivity. Qed.

(** C8, the claim as stated, at the empty user list: the message step
    answers that there are no users and drops the conversation, and the
    confirmation handler sends nothing and answers that there is nothing to
    send.  There is no report with counts and a percentage (the rate would
    be 0/0). *)
Lemma broadcast_to_nobody_has_no_report :
  DataStorage.users demo_store = []
  /\ int_truediv 0 (Z.of_nat (length (DataStorage.users demo_store))) = None
  /\ admin_broadcast_send owner_only demo_store (owner_says "Sale today")
       (FSMContext.mk (Some waiting_for_broadcast_message) Data.empty)
     = done demo_store idle [NoUsers]
  /\ confirm_broadcast all_but_15th always owner_only demo_store
       (owner_presses "confirm_broadcast") broadcast_draft
     = done demo_store idle [BroadcastNothingToSend].
Proof. vm_compute. repeat split; reflexivity. Qed.

(** ** Further properties of the store *)

(** The cascade of [delete_city], entity by entity: the city is removed;
    a category is removed exactly when it belongs to the city; a product is
    removed exactly when its category belongs to the city; everything else,
    orders and users included, is kept as it was. *)
Theorem delete_city_cascade_exact (city_id : Z) (s : DataStorage.t) (city : City.t) :
  DataStorage.cities s !! city_id = Some city ->
  (DataStorage.delete_city city_id s).1 = true
  /\ DataStorage.cities (DataStorage.delete_city city_id s).2
     = delete city_id (DataStorage.cities s)
  /\ (forall k,
         DataStorage.categories (DataStorage.delete_city city_id s).2 !! k
         = match DataStorage.categories s !! k with
           | Some c =>
             if bool_decide (Category.city_id c = Some city_id) then None else Some c
           | None => None
           end)
  /\ (forall k,
         DataStorage.products (DataStorage.delete_city city_id s).2 !! k
         = match DataStorage.products s !! k with
           | Some p =>
             if in_category_of_city (DataStorage.categories s) city_id p
             then None else Some p
           | None => None
           end)
  /\ DataStorage.orders (DataStorage.delete_city city_id s).2 = DataStorage.orders s
  /\ DataStorage.users (DataStorage.delete_city city_id s).2 = DataStorage.users s.
Proof.
  intros Hcity. rewrite delete_city_spec, Hcity. simpl.
  repeat split.
  - intros k. rewrite map_lookup_filter.
    destruct (DataStorage.categories s !! k) as [c|]; simpl; [|done].
    destruct (decide (Category.city_id c = Some city_id)) as [Hc|Hc].
    + rewrite bool_decide_eq_true_2 by done. by rewrite option_guard_False by auto.
    + rewrite bool_decide_eq_false_2 by done. by rewrite option_guard_True.
  - intros k. rewrite map_lookup_filter.
    destruct (DataStorage.products s !! k) as [p|]; simpl; [|done].
    destruct (in_category_of_city (DataStorage.categories s) city_id p) eqn:Hin.
    + by rewrite option_guard_False by done.
    + by rewrite option_guard_True.
Qed.

Lemma delete_city_cascade_exact_witness :
  (DataStorage.delete_city 1 demo_store).1 = true
  /\ DataStorage.cities (DataStorage.delete_city 1 demo_store).2
     = delete 1 (DataStorage.cities demo_store).
Proof.
  destruct (delete_city_cascade_exact 1 demo_store (City.mk 1 (py "Riverton") 1 true))
    as (Hok & Hcities & _).
  - vm_compute. reflexivity.
  - split; [exact Hok | exact Hcities].
Defined.

(** When every key of a collection is below its counter, [add_*] hands out
    the counter, which is not in use, stores the entity under it, moves the
    counter up by one and keeps every key below it: the ids handed out from
    then on are all different and increase. *)
Theorem add_allocates_fresh_ids (s : DataStorage.t)
    (p : Product.t) (c : Category.t) (city : City.t) (o : Order.t) :
  ids_below (DataStorage.next_product_id s) (DataStorage.products s) ->
  ids_below (DataStorage.next_category_id s) (DataStorage.categories s) ->
  ids_below (DataStorage.next_city_id s) (DataStorage.cities s) ->
  ids_below (DataStorage.next_order_id s) (DataStorage.orders s) ->
  ((DataStorage.add_product p s).1 = DataStorage.next_product_id s
   /\ DataStorage.products s !! (DataStorage.add_product p s).1 = None
   /\ DataStorage.next_product_id (DataStorage.add_product p s).2
      = DataStorage.next_product_id s + 1
   /\ ids_below (DataStorage.next_product_id (DataStorage.add_product p s).2)
                (DataStorage.products (DataStorage.add_product p s).2))
  /\ ((DataStorage.add_category c s).1 = DataStorage.next_category_id s
      /\ DataStorage.categories s !! (DataStorage.add_category c s).1 = None
      /\ DataStorage.next_category_id (DataStorage.add_category c s).2
         = DataStorage.next_category_id s + 1
      /\ ids_below (DataStorage.next_category_id (DataStorage.add_category c s).2)
                   (DataStorage.categories (DataStorage.add_category c s).2))
  /\ ((DataStorage.add_city city s).1 = DataStorage.next_city_id s
      /\ DataStorage.cities s !! (DataStorage.add_city city s).1 = None
      /\ DataStorage.next_city_id (DataStorage.add_city city s).2
         = DataStorage.next_city_id s + 1
      /\ ids_below (DataStorage.next_city_id (DataStorage.add_city city s).2)
                   (DataStorage.cities (DataStorage.add_city city s).2))
  /\ ((DataStorage.add_order o s).1 = DataStorage.next_order_id s
      /\ DataStorage.orders s !! (DataStorage.add_order o s).1 = None
      /\ DataStorage.next_order_id (DataStorage.add_order o s).2
         = DataStorage.next_order_id s + 1
      /\ ids_below (DataStorage.next_order_id (DataStorage.add_order o s).2)
                   (DataStorage.orders (DataStorage.add_order o s).2)).
Proof.
  intros Hp Hc Hcity Ho. simpl.
  repeat split; auto using ids_below_fresh, ids_below_insert.
Qed.

Lemma init_ids_below (products : gmap Z Product.t)
    (categories : gmap Z Category.t) (cities : gmap Z City.t)
    (orders : gmap Z Order.t) (users : list User.t)
    (payment_details : PaymentDetails.t) (operator_settings : OperatorSettings.t) :
  cities <> ∅ ->
  (forall k x, products !! k = Some x -> Product.id x = k) ->
  (forall k x, categories !! k = Some x -> Category.id x = k) ->
  (forall k x, cities !! k = Some x -> City.id x = k) ->
  (forall k x, orders !! k = Some x -> Order.id x = k) ->
  let s := DataStorage.init products categories cities orders users
             payment_details operator_settings in
  DataStorage.next_product_id s
  = DataStorage.max_id (Product.id <$> (map_to_list products).*2) + 1
  /\ DataStorage.next_category_id s
     = DataStorage.max_id (Category.id <$> (map_to_list categories).*2) + 1
  /\ DataStorage.next_city_id s
     = DataStorage.max_id (City.id <$> (map_to_list cities).*2) + 1
  /\ DataStorage.next_order_id s
     = DataStorage.max_id (Order.id <$> (map_to_list orders).*2) + 1
  /\ ids_below (DataStorage.next_product_id s) (DataStorage.products s)
  /\ ids_below (DataStorage.next_category_id s) (DataStorage.categories s)
  /\ ids_below (DataStorage.next_city_id s) (DataStorage.cities s)
  /\ ids_below (DataStorage.next_order_id s) (DataStorage.orders s).
Proof.
  intros Hcities Hp Hc Hcity Ho. simpl.
  unfold DataStorage.init. rewrite bool_decide_eq_false_2 by done. simpl.
  repeat split; by apply loaded_ids_below.
Qed.

(** X4. A catalog read from disk with at least one city, whose entries
    are stored under their own ids, starts with each of the four counters
    (product, category, city, order) at [max(ids + [0]) + 1] of its
    collection, and with every key of every collection below its
    counter. *)
Theorem loaded_store_ids_below (products : gmap Z Product.t)
    (categories : gmap Z Category.t) (cities : gmap Z City.t)
    (orders : gmap Z Order.t) (users : list User.t)
    (payment_details : PaymentDetails.t) (operator_settings : OperatorSettings.t) :
  cities <> ∅ ->
  (forall k x, products !! k = Some x -> Product.id x = k) ->
  (forall k x, categories !! k = Some x -> Category.id x = k) ->
  (forall k x, cities !! k = Some x -> City.id x = k) ->
  (forall k x, orders !! k = Some x -> Order.id x = k) ->
  let s := DataStorage.init products categories cities orders users
             payment_details operator_settings in
  DataStorage.next_product_id s
  = DataStorage.max_id (Product.id <$> (map_to_list products).*2) + 1
  /\ DataStorage.next_category_id s
     = DataStorage.max_id (Category.id <$> (map_to_list categories).*2) + 1
  /\ DataStorage.next_city_id s
     = DataStorage.max_id (City.id <$> (map_to_list cities).*2) + 1
  /\ DataStorage.next_order_id s
     = DataStorage.max_id (Order.id <$> (map_to_list orders).*2) + 1
  /\ ids_below (DataStorage.next_product_id s) (DataStorage.products s)
  /\ ids_below (DataStorage.next_category_id s) (DataStorage.categories s)
  /\ ids_below (DataStorage.next_city_id s) (DataStorage.cities s)
  /\ ids_below (DataStorage.next_order_id s) (DataStorage.orders s).
Proof. exact (init_ids_below products categories cities orders users
                payment_details operator_settings). Qed.

(** The demo catalog is stored under its own ids and has a city. *)
Lemma demo_catalog_well_keyed :
  demo_cities <> ∅
  /\ (forall k x, demo_products !! k = Some x -> Product.id x = k)
  /\ (forall k x, demo_categories !! k = Some x -> Category.id x = k)
  /\ (forall k x, demo_cities !! k = Some x -> City.id x = k)
  /\ (forall k (x : Order.t), (∅ : gmap Z Order.t) !! k = Some x -> Order.id x = k).
Proof.
  split.
  { intros Hempty.
    assert (demo_cities !! 1 = (∅ : gmap Z City.t) !! 1) as Hlook by (by rewrite Hempty).
    vm_compute in Hlook. discriminate. }
  repeat split.
  - intros k x Hk. unfold demo_products in Hk.
    repeat (apply lookup_insert_Some in Hk as [[<- <-]|[_ Hk]]; [reflexivity|]).
    by rewrite lookup_empty in Hk.
  - intros k x Hk. unfold demo_categories in Hk.
    repeat (apply lookup_insert_Some in Hk as [[<- <-]|[_ Hk]]; [reflexivity|]).
    by rewrite lookup_empty in Hk.
  - intros k x Hk. unfold demo_cities in Hk.
    repeat (apply lookup_insert_Some in Hk as [[<- <-]|[_ Hk]]; [reflexivity|]).
    by rewrite lookup_empty in Hk.
  - intros k x Hk. by rewrite lookup_empty in Hk.
Qed.

Lemma loaded_store_ids_below_witness :
  DataStorage.next_product_id demo_store
  = DataStorage.max_id (Product.id <$> (map_to_list demo_products).*2) + 1
  /\ DataStorage.next_category_id demo_store
     = DataStorage.max_id (Category.id <$> (map_to_list demo_categories).*2) + 1
  /\ DataStorage.next_city_id demo_store
     = DataStorage.max_id (City.id <$> (map_to_list demo_cities).*2) + 1
  /\ DataStorage.next_order_id demo_store
     = DataStorage.max_id
         (Order.id <$> (map_to_list (∅ : gmap Z Order.t)).*2) + 1
  /\ ids_below (DataStorage.next_product_id demo_store) (DataStorage.products demo_store)
  /\ ids_below (DataStorage.next_category_id demo_store) (DataStorage.categories demo_store)
  /\ ids_below (DataStorage.next_city_id demo_store) (DataStorage.cities demo_store)
  /\ ids_below (DataStorage.next_order_id demo_store) (DataStorage.orders demo_store).
Proof.
  destruct demo_catalog_well_keyed as (H0 & H1 & H2 & H3 & H4).
  exact (loaded_store_ids_below demo_products demo_categories demo_cities ∅ []
           PaymentDetails.default OperatorSettings.default H0 H1 H2 H3 H4).
Defined.

Lemma demo_store_ids_below :
  ids_below (DataStorage.next_product_id demo_store) (DataStorage.products demo_store)
  /\ ids_below (DataStorage.next_category_id demo_store) (DataStorage.categories demo_store)
  /\ ids_below (DataStorage.next_city_id demo_store) (DataStorage.cities demo_store)
  /\ ids_below (DataStorage.next_order_id demo_store) (DataStorage.orders demo_store).
Proof.
  destruct demo_catalog_well_keyed as (H0 & H1 & H2 & H3 & H4).
  destruct (init_ids_below demo_products demo_categories demo_cities ∅ []
              PaymentDetails.default OperatorSettings.default H0 H1 H2 H3 H4)
    as (_ & _ & _ & _ & Hp & Hc & Hcity & Ho).
  repeat split; assumption.
Qed.


Lemma add_allocates_fresh_ids_witness :
  (DataStorage.add_product ladder demo_store).1 = DataStorage.next_product_id demo_store
  /\ DataStorage.products demo_store !! (DataStorage.add_product ladder demo_store).1 = None.
Proof.
  destruct demo_store_ids_below as (Hp & Hc & Hcity & Ho).
  destruct (add_allocates_fresh_ids demo_store ladder
              (Category.mk 0 (py "Garden") (Some 2) true)
              (City.mk 0 (py "Hillview") 999 true)
              (Order.mk 0 555 (py "buyer") 1 None None None (py "proof")
                 Order.default_status (py "2026-11-03T10:00:00"))
              Hp Hc Hcity Ho) as ((Hid & Hfresh & _) & _).
  split; [exact Hid | exact Hfresh].
Defined.

Lemma price_step_rejects_witness :
  (exists answer,
      (answer = PriceNotANumber \/ answer = PriceMustBePositive)
      /\ admin_add_product_price (B := ascii_builtins) owner_only demo_store
           (owner_says "-5")
           (FSMContext.mk (Some waiting_for_product_price) Data.empty)
         = done demo_store
                (FSMContext.mk (Some waiting_for_product_price) Data.empty) [answer])
  /\ (exists answer,
         (answer = PriceNotANumber \/ answer = PriceMustBePositive)
         /\ admin_add_product_to_city_price (B := ascii_builtins) owner_only demo_store
              (owner_says "-5")
              (FSMContext.mk (Some waiting_for_product_price) Data.empty)
            = done demo_store
                   (FSMContext.mk (Some waiting_for_product_price) Data.empty) [answer]).
Proof.
  refine (price_step_rejects (B := ascii_builtins) owner_only demo_store
            (owner_says "-5")
            (FSMContext.mk (Some waiting_for_product_price) Data.empty)
            (py "-5") _ _ _).
  - vm_compute. reflexivity.
  - reflexivity.
  - right. eexists. split; vm_compute; reflexivity.
Defined.

(** Runs of the price step on text that is refused, and on a price. *)
Example price_step_runs :
  replies (admin_add_product_price (B := ascii_builtins) owner_only demo_store
             (owner_says "cheap")
             (FSMContext.mk (Some waiting_for_product_price) Data.empty))
  = [PriceNotANumber]
  /\ replies (admin_add_product_price (B := ascii_builtins) owner_only demo_store
                (owner_says "0")
                (FSMContext.mk (Some waiting_for_product_price) Data.empty))
     = [PriceMustBePositive]
  /\ admin_add_product_price (B := ascii_builtins) owner_only demo_store
       (owner_says " 9.99 ")
       (FSMContext.mk (Some waiting_for_product_price) Data.empty)
     = done demo_store
            (FSMContext.mk (Some waiting_for_product_photo)
               (Data.set_product_price (float_of_decimal false 999 (-2)) Data.empty))
            [AskProductPhoto]
  /\ raised (admin_add_product_price (B := ascii_builtins) owner_only demo_store
               (Message.mk owner_id None None [py "photo"] None)
               (FSMContext.mk (Some waiting_for_product_price) Data.empty))
     = Some TypeError.
Proof. vm_compute. repeat split; reflexivity. Qed.

(** ** City order: the accepted case *)

Lemma order_mapping_positions (city_ids : list Z) :
  forall (g : nat -> Z) (m : gmap Z Z) (c : Z),
    (c ∉ city_ids ->
     foldl order_mapping_step m (imap (fun i city_id => (g i, city_id)) city_ids) !! c
     = m !! c)
    /\ (NoDup city_ids ->
        forall i, city_ids !! i = Some c ->
        foldl order_mapping_step m (imap (fun i city_id => (g i, city_id)) city_ids) !! c
        = Some (g i)).
Proof.
  induction city_ids as [|x city_ids IH]; intros g m c.
  - split; [done|]. intros _ i Hi. by rewrite lookup_nil in Hi.
  - simpl.
    change (imap (_ ∘ S) city_ids)
      with (imap (fun i city_id => (g (S i), city_id)) city_ids).
    split.
    + intros Hnot. apply not_elem_of_cons in Hnot as [Hne Hnot].
      destruct (IH (fun i => g (S i)) (order_mapping_step m (g 0%nat, x)) c) as [Habs _].
      rewrite Habs by done. unfold order_mapping_step. simpl.
      by rewrite lookup_insert_ne.
    + intros Hnd i Hi. apply NoDup_cons in Hnd as [Hfresh Hnd].
      destruct (IH (fun i => g (S i)) (order_mapping_step m (g 0%nat, x)) c)
        as [Habs Hpos].
      destruct i as [|i]; simpl in Hi.
      * injection Hi as ->. rewrite Habs by done.
        unfold order_mapping_step. simpl. by rewrite lookup_insert_eq.
      * by apply Hpos.
Qed.

Section CityOrderAccepted.
Context `{B : Builtins}.

(** A reorder message from an administrator that lists known city ids,
    each once, is applied as a whole: the order of the i-th listed city
    becomes i (counting from 1), every city that is not listed keeps its
    record, and the conversation returns to idle. *)
Theorem city_reorder_sets_positions (admin_manager : AdminManager.t)
    (db : DataStorage.t) (message : Message.t) (state : FSMContext.t)
    (text : str) (city_ids : list Z) :
  AdminManager.is_admin admin_manager (Message.from_user_id message) = true ->
  Message.text message = Some text ->
  parse_city_ids text = Some city_ids ->
  city_ids <> [] ->
  NoDup city_ids ->
  (forall c, c ∈ city_ids -> is_Some (DataStorage.cities db !! c)) ->
  fsm (admin_set_city_order_finish admin_manager db message state)
  = FSMContext.clear state
  /\ raised (admin_set_city_order_finish admin_manager db message state) = None
  /\ (forall i c,
         city_ids !! i = Some c ->
         DataStorage.cities
           (storage_db (admin_set_city_order_finish admin_manager db message state)) !! c
         = City.set_order (Z.of_nat i + 1) <$> DataStorage.cities db !! c)
  /\ (forall c,
         c ∉ city_ids ->
         DataStorage.cities
           (storage_db (admin_set_city_order_finish admin_manager db message state)) !! c
         = DataStorage.cities db !! c).
Proof.
  intros Hadmin Htext Hparse Hne Hnd Hknown.
  unfold admin_set_city_order_finish. rewrite Hadmin, Htext, Hparse. simpl.
  destruct city_ids as [|c0 ids] eqn:Hids; [done|]. rewrite <- Hids in *.
  assert (filter (fun city_id => DataStorage.cities db !! city_id = None) city_ids = [])
    as ->.
  { destruct (filter _ city_ids) as [|m ms] eqn:Hf; [done|].
    assert (m ∈ filter (fun city_id => DataStorage.cities db !! city_id = None) city_ids)
      as Hm by (rewrite Hf; left).
    apply list_elem_of_filter in Hm as [Hnone Hin].
    apply Hknown in Hin as [x Hx]. congruence. }
  cbn [fsm raised storage_db done].
  destruct (bulk_update_city_orders_spec (build_order_mapping city_ids) db) as [_ Hlookup].
  repeat split.
  - intros i c Hi. cbn [DataStorage.bulk_update_city_orders] in *.
    rewrite Hlookup. unfold build_order_mapping.
    destruct (order_mapping_positions city_ids (fun i => Z.of_nat i + 1) ∅ c) as [_ Hpos].
    by rewrite (Hpos Hnd i Hi).
  - intros c Hnot. cbn [DataStorage.bulk_update_city_orders] in *.
    rewrite Hlookup. unfold build_order_mapping.
    destruct (order_mapping_positions city_ids (fun i => Z.of_nat i + 1) ∅ c) as [Habs _].
    by rewrite (Habs Hnot), lookup_empty.
Qed.

End CityOrderAccepted.

Lemma city_reorder_sets_positions_witness :
  City.order <$>
    DataStorage.cities
      (storage_db
         (admin_set_city_order_finish (B := ascii_builtins) owner_only demo_store
            (owner_says "2, 1") (FSMContext.mk (Some waiting_for_city_order) Data.empty)))
    !! 2
  = Some 1.
Proof.
  destruct (city_reorder_sets_positions (B := ascii_builtins) owner_only demo_store
              (owner_says "2, 1")
              (FSMContext.mk (Some waiting_for_city_order) Data.empty)
              (py "2, 1") [2; 1]) as (_ & _ & Hpos & _).
  - vm_compute. reflexivity.
  - reflexivity.
  - vm_compute. reflexivity.
  - discriminate.
  - apply NoDup_cons. split; [|apply NoDup_singleton].
    intros Hin. apply list_elem_of_singleton in Hin. discriminate.
  - intros c Hin. apply elem_of_cons in Hin as [->|Hin].
    + vm_compute. eexists. reflexivity.
    + apply list_elem_of_singleton in Hin as ->. vm_compute. eexists. reflexivity.
  - rewrite (Hpos 0%nat 2 eq_refl). vm_compute. reflexivity.
Defined.

(** ** The catalog scenario end to end *)

(** An administrator adds a city (id 3), a category under it (id 3) and a
    product priced 9.99 under the category (id 4), then deletes the city:
    the category and the product are no longer retrievable, and the rest of
    the catalog is as before. *)
Example catalog_scenario :
  let with_city :=
    admin_add_city_finish owner_only demo_store (owner_says "Hillview")
      (FSMContext.mk (Some waiting_for_city_name) Data.empty) in
  let with_category :=
    admin_add_category_finish owner_only (storage_db with_city) (owner_says "Garden")
      (FSMContext.mk (Some waiting_for_category_name)
         (Data.mk None None None None None None (Some 3) None None None None
            None None None None None None None None None None)) in
  let priced :=
    admin_add_product_price (B := ascii_builtins) owner_only (storage_db with_category)
      (owner_says "9.99")
      (FSMContext.mk (Some waiting_for_product_price)
         (Data.mk None None None None None None None (Some 3)
            (Some (py "Spade")) (Some (py "Garden spade")) None
            None None None None None None None None None None)) in
  let with_product :=
    admin_add_product_finish (B := ascii_builtins) owner_only (storage_db priced)
      (owner_says "Нет") (fsm priced) in
  let after_delete :=
    admin_delete_city_finish (B := ascii_builtins) owner_only (storage_db with_product)
      (owner_presses "confirm_delete_city_3") idle in
  replies with_city = [CityAdded 3]
  /\ replies with_category = [CategoryAdded 3]
  /\ replies with_product = [ProductAdded 4 (py "9.99")]
  /\ Product.category_id <$> DataStorage.products (storage_db with_product) !! 4
     = Some (Some 3)
  /\ replies after_delete = [CityDeleted (py "Hillview")]
  /\ DataStorage.cities (storage_db after_delete) !! 3 = None
  /\ DataStorage.categories (storage_db after_delete) !! 3 = None
  /\ DataStorage.products (storage_db after_delete) !! 4 = None
  /\ DataStorage.products (storage_db after_delete) = DataStorage.products demo_store
  /\ DataStorage.categories (storage_db after_delete) = DataStorage.categories demo_store
  /\ DataStorage.cities (storage_db after_delete) = DataStorage.cities demo_store.
Proof. vm_compute. repeat split; reflexivity. Qed.

(* ================================================================== *)
(** * Properties of the further handlers *)
(* ================================================================== *)

(** ** Administrators *)

Lemma add_admin_spec (self : AdminManager.t) (user_id requester_id : Z) :
  AdminManager.add_admin self user_id requester_id
  = if AdminManager.is_admin self requester_id
    then (true, AdminManager.mk ({[user_id]} ∪ AdminManager.admins self))
    else (false, self).
Proof. unfold AdminManager.add_admin. by destruct (AdminManager.is_admin _ _). Qed.

Lemma admin_manager_ext (a b : AdminManager.t) :
  AdminManager.admins a = AdminManager.admins b -> a = b.
Proof. destruct a, b. simpl. by intros ->. Qed.

(** Who is an administrator after a call of [remove_admin]. *)
Lemma remove_admin_admins (self : AdminManager.t) (user_id requester_id : Z) (x : Z) :
  x ∈ AdminManager.admins (AdminManager.remove_admin self user_id requester_id).2
  <-> x ∈ AdminManager.admins self
      /\ ~ (x = user_id /\ user_id <> requester_id
            /\ requester_id ∈ AdminManager.admins self).
Proof.
  unfold AdminManager.remove_admin, AdminManager.is_admin.
  destruct (decide (requester_id ∈ AdminManager.admins self)) as [Hr|Hr].
  - rewrite (bool_decide_eq_true_2 _ Hr). simpl.
    destruct (decide (user_id = requester_id)) as [->|Hne].
    + rewrite bool_decide_eq_true_2 by done. simpl. tauto.
    + rewrite (bool_decide_eq_false_2 _ Hne).
      destruct (decide (user_id ∈ AdminManager.admins self)) as [Hu|Hu].
      * rewrite (bool_decide_eq_true_2 _ Hu). simpl.
        rewrite elem_of_difference, elem_of_singleton. tauto.
      * rewrite (bool_decide_eq_false_2 _ Hu). simpl.
        split; [|tauto]. intros Hx. split; [done|]. intros (-> & _). done.
  - rewrite (bool_decide_eq_false_2 _ Hr). simpl. tauto.
Qed.

Lemma add_admin_admins (self : AdminManager.t) (user_id requester_id : Z) (x : Z) :
  x ∈ AdminManager.admins (AdminManager.add_admin self user_id requester_id).2
  <-> x ∈ AdminManager.admins self
      \/ (x = user_id /\ requester_id ∈ AdminManager.admins self).
Proof.
  rewrite add_admin_spec. unfold AdminManager.is_admin.
  destruct (decide (requester_id ∈ AdminManager.admins self)) as [Hr|Hr].
  - rewrite (bool_decide_eq_true_2 _ Hr). simpl.
    rewrite elem_of_union, elem_of_singleton. tauto.
  - rewrite (bool_decide_eq_false_2 _ Hr). simpl. tauto.
Qed.

Section AdminProperties.
Context `{B : Builtins}.

(** The administrator set after a call of one of the two handlers is the
    set before, or the result of the one method call that the handler
    makes on behalf of the sender. *)
Lemma admin_add_admin_finish_admins (a : AdminManager.t) (db : DataStorage.t)
    (m : Message.t) (st : FSMContext.t) :
  (admin_add_admin_finish a db m st).1 = a
  \/ exists user_id,
      (admin_add_admin_finish a db m st).1
      = (AdminManager.add_admin a user_id (Message.from_user_id m)).2.
Proof.
  unfold admin_add_admin_finish.
  destruct (negb _); [by left|].
  destruct (Message.text m) as [text|]; [|by left].
  destruct (py_int text) as [n|]; [|by left].
  right. exists n.
  by destruct (AdminManager.add_admin a n (Message.from_user_id m)) as [[] a'].
Qed.

Lemma admin_remove_admin_finish_admins (a : AdminManager.t) (db : DataStorage.t)
    (m : Message.t) (st : FSMContext.t) :
  (admin_remove_admin_finish a db m st).1 = a
  \/ exists user_id,
      (admin_remove_admin_finish a db m st).1
      = (AdminManager.remove_admin a user_id (Message.from_user_id m)).2.
Proof.
  unfold admin_remove_admin_finish.
  destruct (negb _); [by left|].
  destruct (Message.text m) as [text|]; [|by left].
  destruct (py_int text) as [n|]; [|by left].
  right. exists n.
  by destruct (AdminManager.remove_admin a n (Message.from_user_id m)) as [[] a'].
Qed.

(** What one call can do to the administrator set: somebody who is an
    administrator afterwards was one before or was added at the request of
    the sender, who was one; somebody who was an administrator and is none
    afterwards is not the sender, who was one. *)
Lemma admin_turn_admins (allowed : Z -> Prop) (a a' : AdminManager.t) :
  admin_turn allowed a a' ->
  exists requester,
    allowed requester
    /\ (forall x, x ∈ AdminManager.admins a' ->
                  x ∈ AdminManager.admins a
                  \/ requester ∈ AdminManager.admins a)
    /\ (forall x, x ∈ AdminManager.admins a ->
                  x ∈ AdminManager.admins a'
                  \/ (x <> requester /\ requester ∈ AdminManager.admins a)).
Proof.
  intros Hturn. destruct Hturn as [db m st Hal | db m st Hal];
    exists (Message.from_user_id m); (split; [done|]).
  - destruct (admin_add_admin_finish_admins a db m st) as [-> | [u ->]]; [by auto|].
    split; intros x; rewrite add_admin_admins; tauto.
  - destruct (admin_remove_admin_finish_admins a db m st) as [-> | [u ->]]; [by auto|].
    split; intros x; rewrite remove_admin_admins.
    + tauto.
    + intros Hx. destruct (decide (x = u /\ u <> Message.from_user_id m
                                  /\ Message.from_user_id m ∈ AdminManager.admins a))
        as [(-> & Hne & Hr)|Hn]; [by right|]. left. tauto.
Qed.

(** X6. Messages from users outside the administrator set never change the
    set, however many are sent and whatever they say. *)
Theorem outsiders_cannot_change_admins (a0 a : AdminManager.t) :
  rtc (admin_turn (fun sender => sender ∉ AdminManager.admins a0)) a0 a ->
  a = a0.
Proof.
  intros Hrun.
  enough (forall a1 a2,
             rtc (admin_turn (fun sender => sender ∉ AdminManager.admins a0)) a1 a2 ->
             a1 = a0 -> a2 = a0) as Hgen by (by apply (Hgen a0 a)).
  clear a Hrun. intros a1 a2 Hrun.
  induction Hrun as [|a1 mid a2 Hturn _ IH]; [done|].
  intros ->. apply IH.
  destruct (admin_turn_admins _ _ _ Hturn) as (r & Hout & Hin & Hkeep).
  apply admin_manager_ext. apply set_eq. intros x. split.
  - intros Hx. destruct (Hin x Hx) as [|Hr]; [done|]. by destruct Hout.
  - intros Hx. destruct (Hkeep x Hx) as [|[_ Hr]]; [done|]. by destruct Hout.
Qed.

(** X7. A sender who is an administrator is still one after the call, so the
    set of administrators, once it has a member, never becomes empty. *)
Theorem admins_never_run_out (a0 a : AdminManager.t) :
  rtc (admin_turn (fun _ => True)) a0 a ->
  (exists x, x ∈ AdminManager.admins a0) ->
  exists x, x ∈ AdminManager.admins a.
Proof.
  induction 1 as [|a1 mid a2 Hturn _ IH]; [done|].
  intros [x Hx]. apply IH.
  destruct (admin_turn_admins _ _ _ Hturn) as (r & _ & _ & Hkeep).
  destruct (Hkeep x Hx) as [|[_ Hr]]; [by exists x|].
  exists r. destruct (Hkeep r Hr) as [|[Hne _]]; [done|by destruct Hne].
Qed.

End AdminProperties.

Lemma outsiders_cannot_change_admins_witness :
  (admin_add_admin_finish (B := ascii_builtins) owner_only demo_store
     (Message.mk 555 None (Some (py "555")) [] None) idle).1
  = owner_only.
Proof.
  apply (outsiders_cannot_change_admins (B := ascii_builtins) owner_only).
  apply rtc_once, turn_add_admin. simpl.
  apply (bool_decide_unpack _). vm_compute. exact I.
Defined.

Lemma admins_never_run_out_witness :
  exists x,
    x ∈ AdminManager.admins
          (admin_remove_admin_finish (B := ascii_builtins) owner_only demo_store
             (owner_says "8104914597") idle).1.
Proof.
  apply (admins_never_run_out (B := ascii_builtins) owner_only).
  - apply rtc_once. by apply turn_remove_admin.
  - exists owner_id. apply (bool_decide_unpack _). vm_compute. exact I.
Defined.

Section AdminRoundTrip.
Context `{B : Builtins}.

(** X8. An administrator who appoints a user that was none, and then removes
    the same user, is back at the administrator set of the start; in
    between the user is an administrator and is sent the congratulation. *)
Theorem appoint_then_dismiss_restores (a : AdminManager.t) (db db' : DataStorage.t)
    (appoint dismiss : Message.t) (st st' : FSMContext.t) (text text' : str) (n : Z) :
  AdminManager.is_admin a (Message.from_user_id appoint) = true ->
  Message.from_user_id dismiss = Message.from_user_id appoint ->
  Message.text appoint = Some text -> py_int text = Some n ->
  Message.text dismiss = Some text' -> py_int text' = Some n ->
  AdminManager.is_admin a n = false ->
  let appointed := admin_add_admin_finish a db appoint st in
  let dismissed := admin_remove_admin_finish appointed.1 db' dismiss st' in
  AdminManager.is_admin appointed.1 n = true
  /\ notices appointed.2 = [AdminAdded n]
  /\ notified appointed.2 = [n]
  /\ turn_fsm appointed.2 = FSMContext.clear st
  /\ dismissed.1 = a
  /\ notices dismissed.2 = [AdminRemoved n]
  /\ turn_fsm dismissed.2 = FSMContext.clear st'.
Proof.
  intros Hadmin Hsame Ht Hn Ht' Hn' Hnot. simpl.
  unfold admin_add_admin_finish. rewrite Hadmin, Ht, Hn. simpl.
  rewrite add_admin_spec, Hadmin. simpl.
  assert (n <> Message.from_user_id appoint) as Hne by (intros ->; congruence).
  apply is_admin_spec in Hadmin.
  assert (n ∉ AdminManager.admins a) as Hout.
  { intros Hin. apply is_admin_spec in Hin. congruence. }
  split.
  { apply is_admin_spec. simpl. apply elem_of_union. left. by apply elem_of_singleton. }
  do 3 (split; [done|]).
  unfold admin_remove_admin_finish. rewrite Hsame, Ht', Hn'.
  unfold AdminManager.remove_admin, AdminManager.is_admin. simpl.
  rewrite (bool_decide_eq_true_2 (Message.from_user_id appoint ∈ _)); simpl.
  2:{ apply elem_of_union. by right. }
  rewrite (bool_decide_eq_false_2 _ Hne).
  rewrite (bool_decide_eq_true_2 (n ∈ _)); simpl.
  2:{ apply elem_of_union. left. by apply elem_of_singleton. }
  split; [|done].
  apply admin_manager_ext. simpl. apply set_eq. intros x.
  rewrite elem_of_difference, elem_of_union, !elem_of_singleton.
  split; [tauto|]. intros Hx. split; [by right|]. by intros ->.
Qed.

End AdminRoundTrip.

Lemma appoint_then_dismiss_restores_witness :
  (admin_remove_admin_finish (B := ascii_builtins)
     (admin_add_admin_finish (B := ascii_builtins) owner_only demo_store
        (owner_says "555") idle).1
     demo_store (owner_says " 555") idle).1
  = owner_only.
Proof.
  destruct (appoint_then_dismiss_restores (B := ascii_builtins) owner_only
              demo_store demo_store (owner_says "555") (owner_says " 555")
              idle idle (py "555") (py " 555") 555)
    as (_ & _ & _ & _ & Hback & _).
  - vm_compute. reflexivity.
  - reflexivity.
  - reflexivity.
  - vm_compute. reflexivity.
  - reflexivity.
  - vm_compute. reflexivity.
  - vm_compute. reflexivity.
  - exact Hback.
Defined.

(** ** Registration *)

Lemma add_user_spec (user_id : Z) (username now : str) (s : DataStorage.t) :
  DataStorage.add_user user_id username now s
  = if bool_decide (user_id ∈ User.id <$> DataStorage.users s) then s
    else DataStorage.set_users
           (DataStorage.users s ++ [User.mk user_id username now]) s.
Proof.
  unfold DataStorage.add_user.
  destruct (existsb _ _) eqn:Hex.
  - rewrite bool_decide_eq_true_2; [done|].
    apply existsb_exists in Hex as (u & Hin & Hu). apply Z.eqb_eq in Hu.
    apply list_elem_of_fmap. exists u. split; [done|]. by apply list_elem_of_In.
  - rewrite bool_decide_eq_false_2; [done|].
    intros Hin. apply list_elem_of_fmap in Hin as (u & -> & Hin).
    apply not_true_iff_false in Hex. apply Hex.
    apply existsb_exists. exists u. split; [by apply list_elem_of_In|].
    by apply Z.eqb_eq.
Qed.

Lemma add_user_NoDup (user_id : Z) (username now : str) (s : DataStorage.t) :
  NoDup (User.id <$> DataStorage.users s) ->
  NoDup (User.id <$> DataStorage.users (DataStorage.add_user user_id username now s)).
Proof.
  intros Hnd. rewrite add_user_spec. case_bool_decide as Hin; [done|].
  simpl. rewrite fmap_app. simpl. apply NoDup_app. split; [done|]. split.
  - intros x Hx Hx'. apply list_elem_of_singleton in Hx' as ->. done.
  - apply NoDup_singleton.
Qed.

(** X9. [/start] registers the sender once.  For a sender who is registered the
    store stays as it is: the entry keeps the user name and the date of the
    first [/start].  For a new sender one entry is appended.  User ids
    that are pairwise different stay so, and nothing but the user list
    changes. *)
Theorem start_registers_sender_once (now : str) (db : DataStorage.t)
    (message : Message.t) (state : FSMContext.t) :
  let sender := Message.from_user_id message in
  let db' := turn_db (cmd_start now db message state) in
  sender ∈ User.id <$> DataStorage.users db'
  /\ (sender ∈ User.id <$> DataStorage.users db -> db' = db)
  /\ (sender ∉ User.id <$> DataStorage.users db ->
      DataStorage.users db'
      = DataStorage.users db
        ++ [User.mk sender (str_or (Message.from_user_username message) []) now])
  /\ (NoDup (User.id <$> DataStorage.users db) ->
      NoDup (User.id <$> DataStorage.users db'))
  /\ DataStorage.set_users (DataStorage.users db) db' = db
  /\ turn_fsm (cmd_start now db message state) = state
  /\ notices (cmd_start now db message state) = [Welcome].
Proof.
  simpl. split; [|split; [|split; [|split; [|split]]]].
  - rewrite add_user_spec. case_bool_decide as Hin; [done|].
    simpl. rewrite fmap_app. apply elem_of_app. right. simpl. left.
  - intros Hin. rewrite add_user_spec. by rewrite bool_decide_eq_true_2.
  - intros Hout. rewrite add_user_spec. by rewrite bool_decide_eq_false_2.
  - apply add_user_NoDup.
  - rewrite add_user_spec. case_bool_decide; by destruct db.
  - done.
Qed.

(** ** The user list along a run *)

Lemma store_call_users (P : Product.t -> Prop) (s s' : DataStorage.t) :
  store_call P s s' ->
  DataStorage.users s' = DataStorage.users s
  \/ exists user_id username now, s' = DataStorage.add_user user_id username now s.
Proof.
  intros Hcall. destruct Hcall; simpl; eauto.
  - unfold DataStorage.update_city_order. case_match; simpl; auto.
  - rewrite delete_city_spec. case_match; simpl; auto.
  - rewrite delete_category_spec. case_match; simpl; auto.
  - rewrite delete_product_eq. simpl. auto.
Qed.

Lemma store_calls_users_NoDup (P : Product.t -> Prop) (s s' : DataStorage.t) :
  rtc (store_call P) s s' ->
  NoDup (User.id <$> DataStorage.users s) ->
  NoDup (User.id <$> DataStorage.users s').
Proof.
  induction 1 as [|s mid s' Hcall _ IH]; [done|].
  intros Hnd. apply IH.
  destruct (store_call_users P s mid Hcall) as [-> | (u & n & t & ->)]; [done|].
  by apply add_user_NoDup.
Qed.

Section BroadcastOnce.
Context `{B : Builtins}.

(** X10. Start the program on a user list in which no id occurs twice.  After
    every sequence of handler calls no id occurs twice in the user list,
    and a broadcast delivers to no chat twice. *)
Theorem broadcast_sends_one_copy_per_user (products : gmap Z Product.t)
    (categories : gmap Z Category.t) (cities : gmap Z City.t)
    (orders : gmap Z Order.t) (users : list User.t)
    (payment_details : PaymentDetails.t) (operator_settings : OperatorSettings.t)
    (db : DataStorage.t) :
  NoDup (User.id <$> users) ->
  reachable
    (DataStorage.init products categories cities orders users
       payment_details operator_settings) db ->
  NoDup (User.id <$> DataStorage.users db)
  /\ forall (send_ok edit_ok : nat -> bool) (admin_manager : AdminManager.t)
            (callback : CallbackQuery.t) (state : FSMContext.t),
      NoDup (deliveries (confirm_broadcast send_ok edit_ok admin_manager db
                           callback state)).
Proof.
  intros Hnd Hrun.
  assert (NoDup (User.id <$> DataStorage.users db)) as Hdb.
  { apply (store_calls_users_NoDup _ _ db (reachable_calls _ _ Hrun)).
    unfold DataStorage.init. case_match; [|done].
    unfold DataStorage.create_test_data. by case_match. }
  split; [done|]. intros send_ok edit_ok am cb st.
  unfold confirm_broadcast.
  destruct (negb _); [apply NoDup_nil_2|].
  destruct (Data.broadcast_message (FSMContext.data st)) as [[|c r]|];
    try apply NoDup_nil_2.
  destruct (DataStorage.users db) as [|u us] eqn:Hus; [apply NoDup_nil_2|].
  rewrite <- Hus in *.
  assert (attempted (broadcast_loop send_ok edit_ok 1 (DataStorage.users db)
                       (mkTally 0 0 [] []))
          = User.id <$> DataStorage.users db) as Hatt
    by apply broadcast_loop_attempted.
  destruct (int_truediv _ _); simpl; by rewrite Hatt.
Qed.

End BroadcastOnce.

Lemma broadcast_sends_one_copy_per_user_witness :
  NoDup (User.id <$> DataStorage.users
           (turn_db (cmd_start (py "2026-11-03T10:00:00")
                       store_23_users (Message.mk 101 None None [] None) idle))).
Proof.
  assert (NoDup (User.id <$> users_23)) as Hnd.
  { apply (bool_decide_unpack _). vm_compute. exact I. }
  destruct (broadcast_sends_one_copy_per_user (B := ascii_builtins)
              demo_products demo_categories demo_cities ∅ users_23
              PaymentDetails.default OperatorSettings.default
              (turn_db (cmd_start (py "2026-11-03T10:00:00")
                          store_23_users (Message.mk 101 None None [] None) idle))
              Hnd) as [Hdb _].
  - apply rtc_once.
    exact (step_add_user (B := ascii_builtins) store_23_users 101 [] (py "2026-11-03T10:00:00")).
  - exact Hdb.
Defined.

(** ** Entities are stored under their own ids *)

Lemma well_keyed_insert {A} (id_of : A -> Z) (m : gmap Z A) (k : Z) (x : A) :
  id_of x = k ->
  (forall j y, m !! j = Some y -> id_of y = j) ->
  forall j y, <[k := x]> m !! j = Some y -> id_of y = j.
Proof.
  intros Hx Hm j y Hj. apply lookup_insert_Some in Hj as [[<- <-]|[_ Hj]]; [done|].
  by apply Hm.
Qed.

Lemma well_keyed_filter {A} (id_of : A -> Z) (P : Z * A -> Prop)
    `{!forall kx, Decision (P kx)} (m : gmap Z A) :
  (forall j y, m !! j = Some y -> id_of y = j) ->
  forall j y, filter P m !! j = Some y -> id_of y = j.
Proof.
  intros Hm j y Hj. apply map_lookup_filter_Some in Hj as [Hj _]. by apply Hm.
Qed.

Lemma well_keyed_delete {A} (id_of : A -> Z) (m : gmap Z A) (k : Z) :
  (forall j y, m !! j = Some y -> id_of y = j) ->
  forall j y, delete k m !! j = Some y -> id_of y = j.
Proof.
  intros Hm j y Hj. apply lookup_delete_Some in Hj as [_ Hj]. by apply Hm.
Qed.

Lemma bulk_update_well_keyed (items : list (Z * Z)) (cs : gmap Z City.t) :
  (forall j y, cs !! j = Some y -> City.id y = j) ->
  forall j y, foldl DataStorage.bulk_update_step cs items !! j = Some y -> City.id y = j.
Proof.
  revert cs. induction items as [|[c o] items IH]; intros cs Hcs; [done|].
  simpl. apply IH. rewrite bulk_update_step_alter. simpl.
  intros j y Hj. apply lookup_alter_Some in Hj as [(<- & x & Hx & ->)|[_ Hj]].
  - simpl. by apply Hcs.
  - by apply Hcs.
Qed.

Lemma store_call_well_keyed (P : Product.t -> Prop) (s s' : DataStorage.t) :
  store_call P s s' -> well_keyed s -> well_keyed s'.
Proof.
  intros Hcall (Hp & Hc & Hcity & Ho).
  destruct Hcall; unfold well_keyed; simpl.
  - unfold DataStorage.add_user. by case_match.
  - repeat split; try done. by apply well_keyed_insert.
  - repeat split; try done. by apply well_keyed_insert.
  - repeat split; try done. by apply well_keyed_insert.
  - repeat split; try done. by apply well_keyed_insert.
  - done.
  - done.
  - unfold DataStorage.update_city_order. case_match; [|done]. simpl.
    repeat split; try done.
    intros j y Hj. apply lookup_alter_Some in Hj as [(<- & x & Hx & ->)|[_ Hj]].
    + simpl. by apply Hcity.
    + by apply Hcity.
  - repeat split; try done. by apply bulk_update_well_keyed.
  - rewrite delete_city_spec. case_match; [|done]. simpl.
    repeat split; try done.
    + by apply well_keyed_filter.
    + by apply well_keyed_filter.
    + by apply well_keyed_delete.
  - rewrite delete_category_spec. case_match; [|done]. simpl.
    repeat split; try done.
    + by apply well_keyed_filter.
    + by apply well_keyed_delete.
  - rewrite delete_product_eq. simpl.
    repeat split; try done. by apply well_keyed_delete.
Qed.

(** The cities seeded by [create_test_data] on a first start. *)
Lemma create_test_data_cities (s : DataStorage.t) :
  DataStorage.cities s = ∅ ->
  map_Forall (fun k c => City.id c = k)
             (DataStorage.cities (DataStorage.create_test_data s)).
Proof.
  destruct s as [ps cs cities os us pd ops n1 n2 n3 n4].
  cbn [DataStorage.cities]. intros ->.
  unfold DataStorage.create_test_data.
  match goal with
  | |- context [foldl ?f ?a ?l] => set (seeded := foldl f a l)
  end.
  assert (map_Forall (fun k c => City.id c = k) seeded.1) as Hseeded.
  { apply (bool_decide_unpack _). vm_compute. exact I. }
  destruct seeded as [seeded_cities next].
  exact Hseeded.
Qed.

Lemma init_well_keyed (products : gmap Z Product.t)
    (categories : gmap Z Category.t) (cities : gmap Z City.t)
    (orders : gmap Z Order.t) (users : list User.t)
    (payment_details : PaymentDetails.t) (operator_settings : OperatorSettings.t) :
  (forall k x, products !! k = Some x -> Product.id x = k) ->
  (forall k x, categories !! k = Some x -> Category.id x = k) ->
  (forall k x, cities !! k = Some x -> City.id x = k) ->
  (forall k x, orders !! k = Some x -> Order.id x = k) ->
  well_keyed (DataStorage.init products categories cities orders users
                payment_details operator_settings).
Proof.
  intros Hp Hc Hcity Ho. unfold DataStorage.init.
  case_bool_decide as Hempty; [|done].
  match goal with
  | |- well_keyed (DataStorage.create_test_data ?s) =>
    pose proof (create_test_data_cities s Hempty) as Hseeded
  end.
  unfold well_keyed. split; [|split; [|split]].
  - unfold DataStorage.create_test_data. case_match. simpl.
    by repeat apply well_keyed_insert.
  - unfold DataStorage.create_test_data. case_match. simpl.
    by repeat apply well_keyed_insert.
  - intros k x Hk. by apply (Hseeded k x).
  - unfold DataStorage.create_test_data. by case_match.
Qed.

Lemma store_calls_well_keyed (P : Product.t -> Prop) (s s' : DataStorage.t) :
  rtc (store_call P) s s' -> well_keyed s -> well_keyed s'.
Proof.
  induction 1 as [|s mid s' Hcall _ IH]; [done|].
  intros Hs. apply IH. by apply (store_call_well_keyed P s).
Qed.

Section WellKeyed.
Context `{B : Builtins}.

(** X11. Start the program on collections read from disk in which every entry
    sits under its own id (none, on a first start).  After every sequence
    of handler calls every product, category, city and order is stored
    under the key that its [id] field holds, so a button built from the
    [id] field addresses the entity it was built from. *)
Theorem entities_stay_under_their_ids (products : gmap Z Product.t)
    (categories : gmap Z Category.t) (cities : gmap Z City.t)
    (orders : gmap Z Order.t) (users : list User.t)
    (payment_details : PaymentDetails.t) (operator_settings : OperatorSettings.t)
    (db : DataStorage.t) :
  (forall k x, products !! k = Some x -> Product.id x = k) ->
  (forall k x, categories !! k = Some x -> Category.id x = k) ->
  (forall k x, cities !! k = Some x -> City.id x = k) ->
  (forall k x, orders !! k = Some x -> Order.id x = k) ->
  reachable
    (DataStorage.init products categories cities orders users
       payment_details operator_settings) db ->
  (forall k x, DataStorage.products db !! k = Some x -> Product.id x = k)
  /\ (forall k x, DataStorage.categories db !! k = Some x -> Category.id x = k)
  /\ (forall k x, DataStorage.cities db !! k = Some x -> City.id x = k)
  /\ (forall k x, DataStorage.orders db !! k = Some x -> Order.id x = k).
Proof.
  intros Hp Hc Hcity Ho Hrun.
  apply (store_calls_well_keyed _ _ db (reachable_calls _ _ Hrun)).
  by apply init_well_keyed.
Qed.

End WellKeyed.

Lemma entities_stay_under_their_ids_witness :
  Product.id <$>
    DataStorage.products
      (storage_db
         (admin_add_product_to_city_finish (B := ascii_builtins) owner_only
            demo_store (owner_says "нет") direct_draft)) !! 4
  = Some 4.
Proof.
  destruct demo_catalog_well_keyed as (_ & H1 & H2 & H3 & H4).
  destruct (entities_stay_under_their_ids (B := ascii_builtins)
              demo_products demo_categories demo_cities ∅ []
              PaymentDetails.default OperatorSettings.default
              (storage_db
                 (admin_add_product_to_city_finish (B := ascii_builtins) owner_only
                    demo_store (owner_says "нет") direct_draft))
              H1 H2 H3 H4) as (Hp & _).
  - apply rtc_once.
    exact (step_add_product_to_city_finish demo_store owner_only
             (owner_says "нет") direct_draft).
  - destruct (DataStorage.products _ !! 4) as [p|] eqn:Hfour.
    + simpl. f_equal. by apply Hp.
    + vm_compute in Hfour. discriminate.
Defined.

(** ** Orders along a run *)

Lemma add_products_loop_orders (build : nat -> str -> Product.t) (names : list str) :
  forall (i : nat) (db : DataStorage.t) (added : list Z),
    DataStorage.orders (add_products_loop build i names db added).2
    = DataStorage.orders db.
Proof.
  induction names as [|name names IH]; intros i db added; simpl; [done|].
  by rewrite IH.
Qed.

Lemma delete_city_orders (city_id : Z) (s : DataStorage.t) :
  DataStorage.orders (DataStorage.delete_city city_id s).2 = DataStorage.orders s.
Proof. rewrite delete_city_spec. by case_match. Qed.

Lemma delete_category_orders (category_id : Z) (s : DataStorage.t) :
  DataStorage.orders (DataStorage.delete_category category_id s).2
  = DataStorage.orders s.
Proof. rewrite delete_category_spec. by case_match. Qed.

Lemma delete_product_orders (product_id : Z) (s : DataStorage.t) :
  DataStorage.orders (DataStorage.delete_product product_id s).2
  = DataStorage.orders s.
Proof. by rewrite delete_product_eq. Qed.

Lemma add_user_orders (user_id : Z) (username now : str) (s : DataStorage.t) :
  DataStorage.orders (DataStorage.add_user user_id username now s)
  = DataStorage.orders s.
Proof. unfold DataStorage.add_user. by case_match. Qed.

Section OrdersAlongRuns.
Context `{B : Builtins}.

(** Name the store that a destructed call returned by the call itself. *)
Ltac name_store :=
  repeat match goal with
         | H : ?f = (_, ?d) |- _ =>
           is_var d; apply (f_equal snd) in H; cbn [snd] in H; subst d
         end.

(** The only handler that writes to the orders is [receive_payment_proof],
    and the order it adds has the default status. *)
Lemma workflow_step_orders (db db' : DataStorage.t) :
  workflow_step db db' ->
  forall k o,
    DataStorage.orders db' !! k = Some o ->
    DataStorage.orders db !! k = Some o \/ Order.status o = py "pending".
Proof.
  intros Hstep k o. destruct Hstep.
  - unfold receive_payment_proof.
    repeat case_match; simpl; auto; name_store; simpl;
      (intros Hk; apply lookup_insert_Some in Hk as [[_ <-]|[_ Hk]]; [by right|by left]).
  - unfold admin_add_product_finish.
    repeat case_match; simpl; auto; name_store; simpl; auto.
  - unfold admin_add_product_to_city_finish.
    repeat case_match; simpl; auto; name_store; simpl; auto.
  - unfold admin_add_multiple_products_finish.
    repeat case_match; simpl; auto; name_store;
      rewrite add_products_loop_orders; auto.
  - unfold admin_set_city_order_finish.
    repeat case_match; simpl; auto; name_store; simpl; auto.
  - unfold admin_delete_city_finish.
    repeat case_match; simpl; auto; name_store; rewrite delete_city_orders; auto.
  - unfold admin_delete_category_finish.
    repeat case_match; simpl; auto; name_store; rewrite delete_category_orders; auto.
  - unfold admin_delete_product_finish.
    repeat case_match; simpl; auto; name_store; rewrite delete_product_orders; auto.
  - unfold admin_add_city_finish.
    repeat case_match; simpl; auto; name_store; simpl; auto.
  - unfold admin_add_category_finish.
    repeat case_match; simpl; auto; name_store; simpl; auto.
  - rewrite add_user_orders. auto.
  - simpl. auto.
  - simpl. auto.
Qed.

Lemma reachable_all_pending (db db' : DataStorage.t) :
  reachable db db' ->
  all_pending (DataStorage.orders db) -> all_pending (DataStorage.orders db').
Proof.
  induction 1 as [|db mid db' Hstep _ IH]; [done|].
  intros Hall. apply IH. intros k o Hk.
  destruct (workflow_step_orders db mid Hstep k o Hk) as [Hold|Hnew]; [|done].
  by apply (Hall k).
Qed.

(** X12. Start the program on orders that are all pending (none, on a first
    start).  No handler changes the status of an order, so after every
    sequence of handler calls every order is still pending, and the
    statistics screen counts every order as pending, none as confirmed,
    and shows a revenue of 0.00. *)
Theorem orders_are_never_confirmed (products : gmap Z Product.t)
    (categories : gmap Z Category.t) (cities : gmap Z City.t)
    (orders : gmap Z Order.t) (users : list User.t)
    (payment_details : PaymentDetails.t) (operator_settings : OperatorSettings.t)
    (db : DataStorage.t) :
  (forall k o, orders !! k = Some o -> Order.status o = py "pending") ->
  reachable
    (DataStorage.init products categories cities orders users
       payment_details operator_settings) db ->
  (forall k o, DataStorage.orders db !! k = Some o -> Order.status o = py "pending")
  /\ forall (admin_manager : AdminManager.t) (callback : CallbackQuery.t)
            (state : FSMContext.t),
      AdminManager.is_admin admin_manager (CallbackQuery.from_user_id callback) = true ->
      exists figures,
        admin_stats admin_manager db callback state
        = answer db state [Statistics figures]
        /\ total_orders figures = size (DataStorage.orders db)
        /\ pending_orders figures = total_orders figures
        /\ confirmed_orders figures = 0%nat
        /\ total_revenue figures = py "0.00".
Proof.
  intros Hloaded Hrun.
  assert (all_pending (DataStorage.orders db)) as Hall.
  { apply (reachable_all_pending _ _ Hrun).
    unfold DataStorage.init. case_match; [|done].
    unfold DataStorage.create_test_data. by case_match. }
  split; [done|]. intros am cb st Hadmin.
  unfold admin_stats. rewrite Hadmin. cbn [negb].
  assert (Forall (fun o => Order.status o = py "pending")
                 (map_to_list (DataStorage.orders db)).*2) as Hpending.
  { apply Forall_forall. intros o Hin.
    apply list_elem_of_fmap in Hin as ([k o'] & -> & Hin).
    apply elem_of_map_to_list in Hin. by apply (Hall k). }
  assert (filter (fun o => Order.status o = py "confirmed")
                 (map_to_list (DataStorage.orders db)).*2 = []) as ->.
  { induction Hpending as [|o os Ho _ IH]; [done|].
    rewrite filter_cons_False; [done|]. rewrite Ho. vm_compute. discriminate. }
  assert (filter (fun o => Order.status o = py "pending")
                 (map_to_list (DataStorage.orders db)).*2
          = (map_to_list (DataStorage.orders db)).*2) as ->.
  { induction Hpending as [|o os Ho _ IH]; [done|].
    rewrite filter_cons_True by done. by rewrite IH. }
  cbn [fmap list_fmap sum_prices foldl].
  eexists. split; [reflexivity|]. cbn [total_orders pending_orders confirmed_orders
                                       total_revenue length].
  split; [|split; [done|split; [done|]]].
  - rewrite length_fmap. apply length_map_to_list.
  - vm_compute. reflexivity.
Qed.

End OrdersAlongRuns.

Lemma orders_are_never_confirmed_witness :
  Order.status <$>
    DataStorage.orders
      (storage_db (receive_payment_proof (py "2026-11-03T10:00:00") (fun _ => true)
                     owner_only demo_store buyer_photo buyer_checkout)) !! 1
  = Some (py "pending").
Proof.
  destruct (orders_are_never_confirmed (B := ascii_builtins)
              demo_products demo_categories demo_cities ∅ []
              PaymentDetails.default OperatorSettings.default
              (storage_db (receive_payment_proof (py "2026-11-03T10:00:00")
                             (fun _ => true) owner_only demo_store buyer_photo
                             buyer_checkout))) as [Hpending _].
  - intros k o Hk. by rewrite lookup_empty in Hk.
  - apply rtc_once.
    exact (step_receive_payment_proof (B := ascii_builtins) demo_store
             (py "2026-11-03T10:00:00") (fun _ => true) owner_only buyer_photo
             buyer_checkout).
  - destruct (DataStorage.orders _ !! 1) as [o|] eqn:Hone.
    + simpl. f_equal. by apply (Hpending 1).
    + vm_compute in Hone. discriminate.
Defined.


(** ** Deleting a category, deleting twice, the two ways to set an order *)

(** X13. The cascade of [delete_category], entity by entity: the category is
    removed; a product is removed exactly when its [category_id] is the
    category; cities, orders, users and every other category and product
    are kept as they were. *)
Theorem delete_category_cascade_exact (category_id : Z) (s : DataStorage.t)
    (category : Category.t) :
  DataStorage.categories s !! category_id = Some category ->
  (DataStorage.delete_category category_id s).1 = true
  /\ DataStorage.categories (DataStorage.delete_category category_id s).2
     = delete category_id (DataStorage.categories s)
  /\ (forall k,
         DataStorage.products (DataStorage.delete_category category_id s).2 !! k
         = match DataStorage.products s !! k with
           | Some p =>
             if bool_decide (Product.category_id p = Some category_id)
             then None else Some p
           | None => None
           end)
  /\ DataStorage.cities (DataStorage.delete_category category_id s).2
     = DataStorage.cities s
  /\ DataStorage.orders (DataStorage.delete_category category_id s).2
     = DataStorage.orders s
  /\ DataStorage.users (DataStorage.delete_category category_id s).2
     = DataStorage.users s.
Proof.
  intros Hcat. rewrite delete_category_spec, Hcat. simpl.
  repeat split.
  intros k. rewrite map_lookup_filter.
  destruct (DataStorage.products s !! k) as [p|]; simpl; [|done].
  destruct (decide (Product.category_id p = Some category_id)) as [Hc|Hc].
  - rewrite bool_decide_eq_true_2 by done. by rewrite option_guard_False by auto.
  - rewrite bool_decide_eq_false_2 by done. by rewrite option_guard_True.
Qed.

Lemma delete_category_cascade_exact_witness :
  (DataStorage.delete_category 1 demo_store).1 = true
  /\ DataStorage.products (DataStorage.delete_category 1 demo_store).2 !! 1 = None
  /\ DataStorage.products (DataStorage.delete_category 1 demo_store).2 !! 2
     = Some ladder.
Proof.
  destruct (delete_category_cascade_exact 1 demo_store
              (Category.mk 1 (py "Tools") (Some 1) true))
    as (Hok & _ & Hproducts & _).
  - vm_compute. reflexivity.
  - split; [exact Hok|]. rewrite !Hproducts. split; vm_compute; reflexivity.
Defined.

(** X14. Deleting what is not there, in particular deleting a second time,
    returns [False] and leaves the store as it is, for a product, for a
    category and for a city. *)
Theorem second_delete_changes_nothing (k : Z) (s : DataStorage.t) :
  DataStorage.delete_product k (DataStorage.delete_product k s).2
  = (false, (DataStorage.delete_product k s).2)
  /\ DataStorage.delete_category k (DataStorage.delete_category k s).2
     = (false, (DataStorage.delete_category k s).2)
  /\ DataStorage.delete_city k (DataStorage.delete_city k s).2
     = (false, (DataStorage.delete_city k s).2).
Proof.
  split; [|split].
  - rewrite delete_product_eq. unfold DataStorage.delete_product. simpl.
    by rewrite lookup_delete_eq.
  - rewrite (delete_category_spec k s).
    destruct (DataStorage.categories s !! k) eqn:Hk; simpl.
    + unfold DataStorage.delete_category. simpl. by rewrite lookup_delete_eq.
    + unfold DataStorage.delete_category. by rewrite Hk.
  - rewrite (delete_city_spec k s).
    destruct (DataStorage.cities s !! k) eqn:Hk; simpl.
    + unfold DataStorage.delete_city. simpl. by rewrite lookup_delete_eq.
    + unfold DataStorage.delete_city. by rewrite Hk.
Qed.

(** [update_city_order] agrees with [bulk_update_city_orders] on a mapping
    with that one entry: the same store results; the single update reports
    whether the city exists, and changes, if anything, only the [order]
    field of that city. *)
Lemma update_city_order_is_bulk_update_of_one (city_id order : Z) (s : DataStorage.t) :
  DataStorage.update_city_order city_id order s
  = (bool_decide (is_Some (DataStorage.cities s !! city_id)),
     (DataStorage.bulk_update_city_orders {[city_id := order]} s).2)
  /\ forall k,
      DataStorage.cities (DataStorage.update_city_order city_id order s).2 !! k
      = if bool_decide (k = city_id)
        then City.set_order order <$> DataStorage.cities s !! k
        else DataStorage.cities s !! k.
Proof.
  assert (DataStorage.update_city_order city_id order s
          = (bool_decide (is_Some (DataStorage.cities s !! city_id)),
             DataStorage.set_cities
               (alter (City.set_order order) city_id (DataStorage.cities s)) s))
    as Hsingle.
  { unfold DataStorage.update_city_order.
    destruct (DataStorage.cities s !! city_id) as [c|] eqn:Hc.
    - by rewrite bool_decide_eq_true_2.
    - rewrite bool_decide_eq_false_2 by (by intros [? ?]).
      f_equal. rewrite <- (set_cities_id s) at 1. f_equal.
      apply map_eq. intros k. destruct (decide (k = city_id)) as [->|Hne].
      + by rewrite lookup_alter_eq, Hc.
      + by rewrite lookup_alter_ne. }
  split.
  - rewrite Hsingle. f_equal. simpl. rewrite map_to_list_singleton. simpl.
    by rewrite bulk_update_step_alter.
  - intros k. rewrite Hsingle. simpl.
    destruct (decide (k = city_id)) as [->|Hne].
    + rewrite bool_decide_eq_true_2 by done. by rewrite lookup_alter_eq.
    + rewrite bool_decide_eq_false_2 by done. by rewrite lookup_alter_ne.
Qed.

(** ** Settings handlers *)

Lemma text_shorter_than_false (n : nat) (message : Message.t) (text : str) :
  Message.text message = Some text -> (0 < n)%nat -> (n <= length (strip text))%nat ->
  text_shorter_than n message = false.
Proof.
  intros Htext Hpos Hlen. unfold text_shorter_than. rewrite Htext.
  destruct text as [|c r].
  - vm_compute in Hlen. lia.
  - apply Nat.ltb_ge. done.
Qed.

(** X15. The card flow: a card number of at least 16 characters, then a holder
    name that is not blank.  The two fields of the card are set to the
    texts typed, without the surrounding white space; the crypto fields
    and the rest of the store stay as they are at the second step. *)
Theorem card_flow_sets_the_card (admin_manager : AdminManager.t)
    (db db' : DataStorage.t) (number holder : Message.t) (state : FSMContext.t)
    (number_text holder_text : str) :
  AdminManager.is_admin admin_manager (Message.from_user_id number) = true ->
  AdminManager.is_admin admin_manager (Message.from_user_id holder) = true ->
  Message.text number = Some number_text ->
  (16 <= length (strip number_text))%nat ->
  Message.text holder = Some holder_text ->
  strip holder_text <> [] ->
  let typed := admin_set_card_number admin_manager db number state in
  let saved := admin_set_card_finish admin_manager db' holder (turn_fsm typed) in
  turn_db typed = db
  /\ FSMContext.state (turn_fsm typed) = Some waiting_for_card_holder
  /\ DataStorage.payment_details (turn_db saved)
     = PaymentDetails.mk
         (VStr (strip number_text)) (VStr (strip holder_text))
         (PaymentDetails.crypto_wallet (DataStorage.payment_details db'))
         (PaymentDetails.crypto_network (DataStorage.payment_details db'))
         (PaymentDetails.crypto_coin (DataStorage.payment_details db'))
  /\ turn_db saved
     = DataStorage.set_payment_details
         (DataStorage.payment_details (turn_db saved)) db'
  /\ turn_fsm saved = FSMContext.clear state
  /\ notices saved = [CardUpdated (Some (strip number_text)) (strip holder_text)].
Proof.
  intros Hadmin Hadmin' Hnumber Hlong Hholder Hfilled. simpl.
  unfold admin_set_card_number. rewrite Hadmin.
  rewrite (text_shorter_than_false 16 number number_text) by (done || lia).
  cbn [negb turn_db turn_fsm answer]. rewrite Hnumber. cbn [default].
  split; [done|]. split; [done|].
  unfold admin_set_card_finish. rewrite Hadmin', Hholder. cbn [negb].
  destruct (strip holder_text) as [|c r] eqn:Hstrip; [done|].
  cbn [turn_db turn_fsm notices answer FSMContext.data FSMContext.update_data
       FSMContext.set_state Data.card_number Draft.set_card_number value_of].
  split; [|done].
  reflexivity.
Qed.

(** X16. The crypto flow: a wallet address of at least 10 characters, a network
    of at least 3, then a coin that is not blank.  The three crypto fields
    are set to the texts typed, without the surrounding white space; the
    card fields and the rest of the store stay as they are at the last
    step. *)
Theorem crypto_flow_sets_the_wallet (admin_manager : AdminManager.t)
    (db1 db2 db3 : DataStorage.t) (wallet network coin : Message.t)
    (state : FSMContext.t) (wallet_text network_text coin_text : str) :
  AdminManager.is_admin admin_manager (Message.from_user_id wallet) = true ->
  AdminManager.is_admin admin_manager (Message.from_user_id network) = true ->
  AdminManager.is_admin admin_manager (Message.from_user_id coin) = true ->
  Message.text wallet = Some wallet_text ->
  (10 <= length (strip wallet_text))%nat ->
  Message.text network = Some network_text ->
  (3 <= length (strip network_text))%nat ->
  Message.text coin = Some coin_text ->
  strip coin_text <> [] ->
  let step1 := admin_set_crypto_wallet admin_manager db1 wallet state in
  let step2 := admin_set_crypto_network admin_manager db2 network (turn_fsm step1) in
  let saved := admin_set_crypto_finish admin_manager db3 coin (turn_fsm step2) in
  turn_db step1 = db1
  /\ turn_db step2 = db2
  /\ DataStorage.payment_details (turn_db saved)
     = PaymentDetails.mk
         (PaymentDetails.card_number (DataStorage.payment_details db3))
         (PaymentDetails.card_holder (DataStorage.payment_details db3))
         (VStr (strip wallet_text)) (VStr (strip network_text))
         (VStr (strip coin_text))
  /\ turn_db saved
     = DataStorage.set_payment_details
         (DataStorage.payment_details (turn_db saved)) db3
  /\ turn_fsm saved = FSMContext.clear state
  /\ notices saved
     = [CryptoUpdated (Some (strip network_text)) (strip coin_text)
                      (Some (strip wallet_text))].
Proof.
  intros Ha1 Ha2 Ha3 Hwallet Hw Hnetwork Hn Hcoin Hfilled. simpl.
  unfold admin_set_crypto_wallet. rewrite Ha1.
  rewrite (text_shorter_than_false 10 wallet wallet_text) by (done || lia).
  cbn [negb turn_db turn_fsm answer]. rewrite Hwallet. cbn [default].
  split; [done|].
  unfold admin_set_crypto_network. rewrite Ha2.
  rewrite (text_shorter_than_false 3 network network_text) by (done || lia).
  cbn [negb turn_db turn_fsm answer]. rewrite Hnetwork. cbn [default].
  split; [done|].
  unfold admin_set_crypto_finish. rewrite Ha3, Hcoin. cbn [negb].
  destruct (strip coin_text) as [|c r] eqn:Hstrip; [done|].
  cbn [turn_db turn_fsm notices answer FSMContext.data FSMContext.update_data
       FSMContext.set_state Data.crypto_wallet Data.crypto_network
       Draft.set_crypto_wallet Draft.set_crypto_network value_of].
  split; [|done].
  reflexivity.
Qed.

(** X17. One press of the toggle sets the operator flag to the negation of the
    truth value it had, shows the menu with the new flag, and changes
    neither the link nor the button text nor anything else in the store; a
    second press sets the flag to the truth value of the start. *)
Theorem toggle_operator_flips_the_flag (admin_manager : AdminManager.t)
    (db : DataStorage.t) (callback : CallbackQuery.t) (state : FSMContext.t) :
  AdminManager.is_admin admin_manager (CallbackQuery.from_user_id callback) = true ->
  let old := DataStorage.operator_settings db in
  let once := admin_toggle_operator admin_manager db callback state in
  let twice := admin_toggle_operator admin_manager (turn_db once) callback state in
  DataStorage.operator_settings (turn_db once)
  = OperatorSettings.mk
      (OperatorSettings.operator_link old)
      (VBool (negb (truthy (OperatorSettings.operator_enabled old))))
      (OperatorSettings.operator_button_text old)
  /\ turn_db once
     = DataStorage.set_operator_settings
         (DataStorage.operator_settings (turn_db once)) db
  /\ notices once
     = [OperatorToggled (negb (truthy (OperatorSettings.operator_enabled old)));
        OperatorMenu (negb (truthy (OperatorSettings.operator_enabled old)))]
  /\ turn_fsm once = state
  /\ DataStorage.operator_settings (turn_db twice)
     = OperatorSettings.mk
         (OperatorSettings.operator_link old)
         (VBool (truthy (OperatorSettings.operator_enabled old)))
         (OperatorSettings.operator_button_text old).
Proof.
  intros Hadmin. cbn zeta.
  assert (forall s,
             DataStorage.operator_settings
               (turn_db (admin_toggle_operator admin_manager s callback state))
             = OperatorSettings.mk
                 (OperatorSettings.operator_link (DataStorage.operator_settings s))
                 (VBool (negb (truthy (OperatorSettings.operator_enabled
                                         (DataStorage.operator_settings s)))))
                 (OperatorSettings.operator_button_text
                    (DataStorage.operator_settings s))) as Honce.
  { intros s. unfold admin_toggle_operator. rewrite Hadmin.
    cbn [negb turn_db answer]. reflexivity. }
  split; [apply Honce|].
  split.
  { unfold admin_toggle_operator. rewrite Hadmin. reflexivity. }
  split.
  { pose proof (Honce db) as Hdb. revert Hdb.
    unfold admin_toggle_operator. rewrite Hadmin. cbn [negb turn_db notices answer].
    intros ->. reflexivity. }
  split.
  { unfold admin_toggle_operator. by rewrite Hadmin. }
  rewrite Honce, Honce. cbn [OperatorSettings.operator_link
                               OperatorSettings.operator_enabled
                               OperatorSettings.operator_button_text truthy].
  by rewrite negb_involutive.
Qed.

(** [text.startswith(prefix)] says that the text is the prefix followed by
    something. *)
Lemma startswith_app (prefix text : str) :
  startswith prefix text = true <-> exists rest, text = prefix ++ rest.
Proof.
  revert text. induction prefix as [|p prefix IH]; intros text; simpl.
  - split; [eauto|done].
  - destruct text as [|c text].
    + split; [done|]. by intros [rest Hrest].
    + rewrite andb_true_iff, IH, N.eqb_eq. split.
      * intros [-> [rest ->]]. by exists rest.
      * intros [rest Hrest]. injection Hrest as -> ->. eauto.
Qed.

(** White space is stripped from the end of a text up to its last
    character that is none. *)
Lemma lstrip_app_keep (a b : str) :
  lstrip b = b -> lstrip (a ++ b) = lstrip a ++ b.
Proof.
  intros Hb. induction a as [|c a IH]; simpl; [done|].
  by destruct (is_space c).
Qed.

Lemma rstrip_app_keep (a b : str) :
  lstrip (rev a) = rev a -> rstrip (a ++ b) = a ++ rstrip b.
Proof.
  intros Ha. unfold rstrip.
  by rewrite rev_app_distr, lstrip_app_keep, rev_app_distr, rev_involutive.
Qed.

(** X18. The link that the operator-link step stores starts with
    [https://t.me/]: the step refuses every text that does not start with
    it, leaving the store and the conversation as they are, and stripping
    the accepted text keeps the prefix.  Nothing but the link changes. *)
Theorem operator_link_keeps_its_prefix (admin_manager : AdminManager.t)
    (db : DataStorage.t) (message : Message.t) (state : FSMContext.t) (text : str) :
  AdminManager.is_admin admin_manager (Message.from_user_id message) = true ->
  Message.text message = Some text ->
  let saved := admin_set_operator_link_finish admin_manager db message state in
  if startswith (py "https://t.me/") text
  then
    DataStorage.operator_settings (turn_db saved)
    = OperatorSettings.mk
        (VStr (strip text))
        (OperatorSettings.operator_enabled (DataStorage.operator_settings db))
        (OperatorSettings.operator_button_text (DataStorage.operator_settings db))
    /\ startswith (py "https://t.me/") (strip text) = true
    /\ turn_db saved
       = DataStorage.set_operator_settings
           (DataStorage.operator_settings (turn_db saved)) db
    /\ turn_fsm saved = FSMContext.clear state
    /\ notices saved = [OperatorLinkUpdated (strip text)]
  else saved = answer db state [OperatorLinkBadPrefix].
Proof.
  intros Hadmin Htext. cbn zeta.
  unfold admin_set_operator_link_finish. rewrite Hadmin, Htext. cbn [negb].
  destruct (startswith (py "https://t.me/") text) eqn:Hprefix; [|done].
  cbn [negb turn_db turn_fsm notices answer].
  split; [|split; [|done]].
  - reflexivity.
  - apply startswith_app in Hprefix as [rest ->].
    apply startswith_app. exists (rstrip rest).
    unfold strip.
    replace (lstrip (py "https://t.me/" ++ rest)) with (py "https://t.me/" ++ rest)
      by (vm_compute; reflexivity).
    apply rstrip_app_keep. vm_compute. reflexivity.
Qed.


Lemma owner_is_admin_of_owner_only :
  AdminManager.is_admin owner_only owner_id = true.
Proof. vm_compute. reflexivity. Qed.

Lemma card_flow_sets_the_card_witness :
  DataStorage.payment_details
    (turn_db
       (admin_set_card_finish owner_only demo_store (owner_says " Ann Lee ")
          (turn_fsm
             (admin_set_card_number owner_only demo_store
                (owner_says "2200 0000 1111 2222") idle))))
  = PaymentDetails.mk (VStr (py "2200 0000 1111 2222")) (VStr (py "Ann Lee"))
      (VStr (py "TXYZ1234567890abcdef")) (VStr (py "TRC20 (TRON)"))
      (VStr (py "USDT")).
Proof.
  destruct (card_flow_sets_the_card owner_only demo_store demo_store
              (owner_says "2200 0000 1111 2222") (owner_says " Ann Lee ") idle
              (py "2200 0000 1111 2222") (py " Ann Lee "))
    as (_ & _ & Hcard & _).
  - exact owner_is_admin_of_owner_only.
  - exact owner_is_admin_of_owner_only.
  - reflexivity.
  - vm_compute. lia.
  - reflexivity.
  - vm_compute. discriminate.
  - rewrite Hcard. vm_compute. reflexivity.
Defined.

Lemma crypto_flow_sets_the_wallet_witness :
  DataStorage.payment_details
    (turn_db
       (admin_set_crypto_finish owner_only demo_store (owner_says "BTC")
          (turn_fsm
             (admin_set_crypto_network owner_only demo_store (owner_says "Bitcoin")
                (turn_fsm
                   (admin_set_crypto_wallet owner_only demo_store
                      (owner_says "bc1qexampleaddress") idle))))))
  = PaymentDetails.mk (VStr (py "2200 1234 5678 9012")) (VStr (py "Иван Иванов"))
      (VStr (py "bc1qexampleaddress")) (VStr (py "Bitcoin")) (VStr (py "BTC")).
Proof.
  destruct (crypto_flow_sets_the_wallet owner_only demo_store demo_store demo_store
              (owner_says "bc1qexampleaddress") (owner_says "Bitcoin")
              (owner_says "BTC") idle
              (py "bc1qexampleaddress") (py "Bitcoin") (py "BTC"))
    as (_ & _ & Hcrypto & _).
  - exact owner_is_admin_of_owner_only.
  - exact owner_is_admin_of_owner_only.
  - exact owner_is_admin_of_owner_only.
  - reflexivity.
  - vm_compute. lia.
  - reflexivity.
  - vm_compute. lia.
  - reflexivity.
  - vm_compute. discriminate.
  - rewrite Hcrypto. vm_compute. reflexivity.
Defined.

Lemma toggle_operator_flips_the_flag_witness :
  OperatorSettings.operator_enabled
    (DataStorage.operator_settings
       (turn_db (admin_toggle_operator owner_only demo_store
                   (owner_presses "admin_toggle_operator") idle)))
  = VBool true.
Proof.
  destruct (toggle_operator_flips_the_flag owner_only demo_store
              (owner_presses "admin_toggle_operator") idle
              owner_is_admin_of_owner_only) as (Honce & _).
  rewrite Honce. vm_compute. reflexivity.
Defined.

Lemma operator_link_keeps_its_prefix_witness :
  DataStorage.operator_settings
    (turn_db (admin_set_operator_link_finish owner_only demo_store
                (owner_says "https://t.me/helpdesk ") idle))
  = OperatorSettings.mk (VStr (py "https://t.me/helpdesk")) (VBool false)
      (VStr (py "👨‍💼 Связаться с оператором")).
Proof.
  pose proof (operator_link_keeps_its_prefix owner_only demo_store
                (owner_says "https://t.me/helpdesk ") idle
                (py "https://t.me/helpdesk ")
                owner_is_admin_of_owner_only eq_refl) as Hlink.
  cbn zeta in Hlink.
  replace (startswith (py "https://t.me/") (py "https://t.me/helpdesk ")) with true
    in Hlink by (vm_compute; reflexivity).
  destruct Hlink as (Hsaved & _).
  rewrite Hsaved. vm_compute. reflexivity.
Defined.

(** ** The product add flows, from the button to the commit *)

Section AddFlows.
Context `{B : Builtins}.

Lemma photo_or_no_passes (message : Message.t) :
  photo_or_no message ->
  negb (bool_decide (is_Some (last_photo message))) && text_is_not_no message = false.
Proof.
  intros [Hphoto | Hno].
  - unfold last_photo. destruct (last (Message.photo message)) eqn:Hlast.
    + by rewrite bool_decide_eq_true_2.
    + by apply last_None in Hlast.
  - rewrite Hno. apply andb_false_r.
Qed.

(** X19. The single add flow: the category button, then a name of at least 2
    characters, a description of at least 5, a price that [float()] reads
    and that is not [<= 0], and a photo or [нет].  The product committed
    at the last step carries the category of the button, the name and the
    description as typed, without the surrounding white space, the price as
    parsed, and the largest size of the photo; it is attached to no city;
    it is stored under the product counter.  The first four steps leave the
    store alone. *)
Theorem single_add_flow_commits_what_was_typed (admin_manager : AdminManager.t)
    (db1 db2 db3 db4 db : DataStorage.t) (place : CallbackQuery.t)
    (name description price photo : Message.t) (state : FSMContext.t)
    (category_id : Z) (name_text description_text price_text : str) (p : float) :
  AdminManager.is_admin admin_manager (CallbackQuery.from_user_id place) = true ->
  AdminManager.is_admin admin_manager (Message.from_user_id name) = true ->
  AdminManager.is_admin admin_manager (Message.from_user_id description) = true ->
  AdminManager.is_admin admin_manager (Message.from_user_id price) = true ->
  AdminManager.is_admin admin_manager (Message.from_user_id photo) = true ->
  callback_arg 2 (CallbackQuery.data place) = inr category_id ->
  Message.text name = Some name_text ->
  (2 <= length (strip name_text))%nat ->
  Message.text description = Some description_text ->
  (5 <= length (strip description_text))%nat ->
  Message.text price = Some price_text ->
  py_float price_text = Some p ->
  float_le p float_zero = false ->
  photo_or_no photo ->
  let step1 := admin_add_product_category admin_manager db1 place state in
  let step2 := admin_add_product_name admin_manager db2 name (turn_fsm step1) in
  let step3 :=
    admin_add_product_description admin_manager db3 description (turn_fsm step2) in
  let step4 := admin_add_product_price admin_manager db4 price (turn_fsm step3) in
  let committed := admin_add_product_finish admin_manager db photo (fsm step4) in
  let product_id := DataStorage.next_product_id db in
  let product :=
    Product.mk product_id (Some (strip name_text)) (Some (strip description_text))
               (Some p) (Some category_id) None (last_photo photo) true in
  turn_db step1 = db1 /\ turn_db step2 = db2 /\ turn_db step3 = db3
  /\ storage_db step4 = db4
  /\ storage_db committed
     = DataStorage.set_next_product_id (product_id + 1)
         (DataStorage.set_products (<[product_id := product]> (DataStorage.products db))
            db)
  /\ replies committed = [ProductAdded product_id (format_f 2 p)]
  /\ fsm committed = FSMContext.clear state
  /\ raised committed = None.
Proof.
  intros Ha1 Ha2 Ha3 Ha4 Ha5 Hplace Hname Hn Hdescription Hd Hprice Hp Hpos Hphoto.
  cbn zeta.
  unfold admin_add_product_category. rewrite Ha1, Hplace.
  cbn [negb turn_db turn_fsm answer]. split; [done|].
  unfold admin_add_product_name. rewrite Ha2.
  rewrite (text_shorter_than_false 2 name name_text) by (done || lia).
  cbn [negb turn_db turn_fsm answer]. rewrite Hname. cbn [default from_option id]. split; [done|].
  unfold admin_add_product_description. rewrite Ha3.
  rewrite (text_shorter_than_false 5 description description_text) by (done || lia).
  cbn [negb turn_db turn_fsm answer]. rewrite Hdescription. cbn [default from_option id].
  split; [done|].
  unfold admin_add_product_price. rewrite Ha4, Hprice, Hp, Hpos.
  cbn [negb storage_db fsm done]. split; [done|].
  unfold admin_add_product_finish. rewrite Ha5, (photo_or_no_passes photo Hphoto).
  cbn [negb]. simpl. done.
Qed.

(** X20. The direct flow checks the city twice: when it is chosen, and again
    at the last step, against the store as it is then.  When the city is
    still there, the product committed carries the city of the button and
    no category, and [get_city_products] of that city returns it; when the
    city is gone, nothing is stored. *)
Theorem direct_add_flow_needs_the_city (admin_manager : AdminManager.t)
    (db1 db2 db3 db4 db : DataStorage.t) (place : CallbackQuery.t)
    (name description price photo : Message.t) (state : FSMContext.t)
    (city_id : Z) (name_text description_text price_text : str) (p : float) :
  AdminManager.is_admin admin_manager (CallbackQuery.from_user_id place) = true ->
  AdminManager.is_admin admin_manager (Message.from_user_id name) = true ->
  AdminManager.is_admin admin_manager (Message.from_user_id description) = true ->
  AdminManager.is_admin admin_manager (Message.from_user_id price) = true ->
  AdminManager.is_admin admin_manager (Message.from_user_id photo) = true ->
  callback_arg 2 (CallbackQuery.data place) = inr city_id ->
  is_Some (DataStorage.cities db1 !! city_id) ->
  Message.text name = Some name_text ->
  (2 <= length (strip name_text))%nat ->
  Message.text description = Some description_text ->
  (5 <= length (strip description_text))%nat ->
  Message.text price = Some price_text ->
  py_float price_text = Some p ->
  float_le p float_zero = false ->
  photo_or_no photo ->
  let step1 := admin_add_product_to_city_city admin_manager db1 place state in
  let step2 := admin_add_product_to_city_name admin_manager db2 name (turn_fsm step1) in
  let step3 :=
    admin_add_product_to_city_description admin_manager db3 description
      (turn_fsm step2) in
  let step4 :=
    admin_add_product_to_city_price admin_manager db4 price (turn_fsm step3) in
  let committed :=
    admin_add_product_to_city_finish admin_manager db photo (fsm step4) in
  let product_id := DataStorage.next_product_id db in
  let product :=
    Product.mk product_id (Some (strip name_text)) (Some (strip description_text))
               (Some p) None (Some city_id) (last_photo photo) true in
  turn_db step1 = db1 /\ turn_db step2 = db2 /\ turn_db step3 = db3
  /\ storage_db step4 = db4
  /\ fsm committed = FSMContext.clear state
  /\ match DataStorage.cities db !! city_id with
     | Some _ =>
       storage_db committed
       = DataStorage.set_next_product_id (product_id + 1)
           (DataStorage.set_products
              (<[product_id := product]> (DataStorage.products db)) db)
       /\ replies committed = [ProductAddedToCity product_id (format_f 2 p)]
       /\ product ∈ DataStorage.get_city_products city_id (storage_db committed)
     | None =>
       storage_db committed = db /\ replies committed = [CityNotFound]
     end.
Proof.
  intros Ha1 Ha2 Ha3 Ha4 Ha5 Hplace [city Hcity] Hname Hn Hdescription Hd
         Hprice Hp Hpos Hphoto.
  cbn zeta.
  unfold admin_add_product_to_city_city. rewrite Ha1, Hplace, Hcity.
  cbn [negb turn_db turn_fsm answer]. split; [done|].
  unfold admin_add_product_to_city_name. rewrite Ha2.
  rewrite (text_shorter_than_false 2 name name_text) by (done || lia).
  cbn [negb turn_db turn_fsm answer]. rewrite Hname. cbn [default from_option id]. split; [done|].
  unfold admin_add_product_to_city_description. rewrite Ha3.
  rewrite (text_shorter_than_false 5 description description_text) by (done || lia).
  cbn [negb turn_db turn_fsm answer]. rewrite Hdescription. cbn [default from_option id].
  split; [done|].
  unfold admin_add_product_to_city_price. rewrite Ha4, Hprice, Hp, Hpos.
  cbn [negb storage_db fsm done]. split; [done|].
  unfold admin_add_product_to_city_finish.
  rewrite Ha5, (photo_or_no_passes photo Hphoto).
  cbn [negb]. simpl.
  destruct (DataStorage.cities db !! city_id) as [city'|] eqn:Hthere; simpl; [|done].
  split; [done|]. split; [done|]. split; [done|].
  unfold DataStorage.get_city_products. simpl.
  apply list_elem_of_filter. split; [done|].
  apply list_elem_of_fmap.
  exists (DataStorage.next_product_id db,
          Product.mk (DataStorage.next_product_id db) (Some (strip name_text))
            (Some (strip description_text)) (Some p) None (Some city_id)
            (last_photo photo) true).
  split; [done|]. apply elem_of_map_to_list. apply lookup_insert_eq.
Qed.

End AddFlows.

(** ** Bulk product add, from the button to the commit *)

(** The loop of the last step: the i-th name is stored under the counter
    plus i, the counter moves up by the number of names, and no other key
    and no other part of the store changes. *)
Lemma add_products_loop_spec (build : nat -> str -> Product.t) (names : list str) :
  forall (i : nat) (db : DataStorage.t) (added : list Z),
    let next := DataStorage.next_product_id db in
    let result := add_products_loop build i names db added in
    result.1 = added ++ ((fun j => next + Z.of_nat j) <$> seq 0 (length names))
    /\ (forall j name,
           names !! j = Some name ->
           DataStorage.products result.2 !! (next + Z.of_nat j)
           = Some (Product.set_id (next + Z.of_nat j) (build (i + j)%nat name)))
    /\ (forall k,
           k < next \/ next + Z.of_nat (length names) <= k ->
           DataStorage.products result.2 !! k = DataStorage.products db !! k)
    /\ result.2
       = DataStorage.set_next_product_id (next + Z.of_nat (length names))
           (DataStorage.set_products (DataStorage.products result.2) db).
Proof.
  induction names as [|name names IH]; intros i db added; cbn zeta.
  - simpl. rewrite app_nil_r, Z.add_0_r. repeat split; try done.
    by destruct db.
  - cbn [add_products_loop]. rewrite add_product_spec.
    set (next := DataStorage.next_product_id db).
    set (db1 := DataStorage.set_next_product_id (next + 1)
                  (DataStorage.set_products
                     (<[next := Product.set_id next (build i name)]>
                        (DataStorage.products db)) db)).
    destruct (IH (S i) db1 (added ++ [next])) as (Hadded & Hnew & Hold & Hframe).
    change (DataStorage.next_product_id db1) with (next + 1) in *.
    split; [|split; [|split]].
    + rewrite Hadded, <- app_assoc. f_equal. cbn [length seq fmap list_fmap app].
      rewrite Z.add_0_r. f_equal. rewrite <- fmap_S_seq, <- list_fmap_compose.
      apply list_fmap_ext. intros _ j _. simpl. lia.
    + intros [|j] name' Hj.
      * injection Hj as <-. rewrite Z.add_0_r, Nat.add_0_r.
        rewrite Hold by lia. unfold db1. simpl. apply lookup_insert_eq.
      * simpl in Hj. specialize (Hnew j name' Hj).
        replace (next + Z.of_nat (S j)) with (next + 1 + Z.of_nat j) by lia.
        replace (i + S j)%nat with (S i + j)%nat by lia. exact Hnew.
    + intros k Hk. cbn [length] in Hk. rewrite Hold by lia.
      unfold db1. simpl. apply lookup_insert_ne. lia.
    + rewrite Hframe. cbn [length]. unfold db1. simpl.
      unfold DataStorage.set_next_product_id, DataStorage.set_products. simpl.
      f_equal. lia.
Qed.

(** What the price step stores when every text is read and is not
    [<= 0]. *)
Lemma read_prices_accepts `{B : Builtins} (product_names : list str)
    (price_texts : list str) (prices : list float) :
  Forall2 (fun price_text price =>
             py_float price_text = Some price /\ float_le price float_zero = false)
          price_texts prices ->
  forall (i : nat) (read : list float),
    read_prices product_names i price_texts read = inr (read ++ prices).
Proof.
  induction 1 as [|price_text price price_texts prices [Hp Hpos] _ IH];
    intros i read; simpl.
  - by rewrite app_nil_r.
  - rewrite Hp, Hpos, IH. by rewrite <- app_assoc.
Qed.

Section BulkFlow.
Context `{B : Builtins}.

(** X21. The bulk flow into a category or into a city: the button, then the
    names, as many descriptions, as many prices that [float()] reads and
    that are not [<= 0], and a photo or [нет].  The last step stores one
    product per name, the i-th under the product counter plus i, with the
    i-th name, description and price, the place of the button and the photo
    of the last message; the counter moves up by the number of names; no
    other product and no other part of the store changes.  The steps before
    the last leave the store alone. *)
Theorem bulk_add_flow_commits_every_item (admin_manager : AdminManager.t)
    (db1 db2 db3 db4 db : DataStorage.t) (to_city : bool) (place : CallbackQuery.t)
    (names descriptions prices photo : Message.t) (state : FSMContext.t)
    (place_id : Z) (names_text descriptions_text prices_text : str)
    (price_list : list float) :
  AdminManager.is_admin admin_manager (CallbackQuery.from_user_id place) = true ->
  AdminManager.is_admin admin_manager (Message.from_user_id names) = true ->
  AdminManager.is_admin admin_manager (Message.from_user_id descriptions) = true ->
  AdminManager.is_admin admin_manager (Message.from_user_id prices) = true ->
  AdminManager.is_admin admin_manager (Message.from_user_id photo) = true ->
  callback_arg 3 (CallbackQuery.data place) = inr place_id ->
  Message.text names = Some names_text ->
  comma_items names_text <> [] ->
  Message.text descriptions = Some descriptions_text ->
  length (comma_items descriptions_text) = length (comma_items names_text) ->
  Message.text prices = Some prices_text ->
  length (comma_items prices_text) = length (comma_items names_text) ->
  Forall2 (fun price_text price =>
             py_float price_text = Some price /\ float_le price float_zero = false)
          (comma_items prices_text) price_list ->
  photo_or_no photo ->
  let step1 :=
    if to_city
    then admin_add_multiple_products_city admin_manager db1 place state
    else admin_add_multiple_products_category admin_manager db1 place state in
  let step2 := admin_add_multiple_products_names admin_manager db2 names (turn_fsm step1) in
  let step3 :=
    admin_add_multiple_products_descriptions admin_manager db3 descriptions (fsm step2) in
  let step4 := admin_add_multiple_products_prices admin_manager db4 prices (fsm step3) in
  let committed := admin_add_multiple_products_finish admin_manager db photo (fsm step4) in
  let next := DataStorage.next_product_id db in
  let count := Z.of_nat (length (comma_items names_text)) in
  turn_db step1 = db1 /\ storage_db step2 = db2 /\ storage_db step3 = db3
  /\ storage_db step4 = db4
  /\ (forall (i : nat) (name description : str) (price : float),
         comma_items names_text !! i = Some name ->
         comma_items descriptions_text !! i = Some description ->
         price_list !! i = Some price ->
         DataStorage.products (storage_db committed) !! (next + Z.of_nat i)
         = Some (Product.mk (next + Z.of_nat i) (Some name) (Some description)
                   (Some price)
                   (if to_city then None else Some place_id)
                   (if to_city then Some place_id else None)
                   (last_photo photo) true))
  /\ (forall k,
         k < next \/ next + count <= k ->
         DataStorage.products (storage_db committed) !! k
         = DataStorage.products db !! k)
  /\ storage_db committed
     = DataStorage.set_next_product_id (next + count)
         (DataStorage.set_products (DataStorage.products (storage_db committed)) db).
Proof.
  intros Ha1 Ha2 Ha3 Ha4 Ha5 Hplace Hnames Hsome Hdescriptions Hdlen
         Hprices Hplen Hread Hphoto.
  cbn zeta.
  assert (exists first rest, comma_items names_text = first :: rest)
    as (first & rest & Hitems).
  { destruct (comma_items names_text); [done|eauto]. }
  assert (length price_list = length (comma_items names_text)) as Hlen.
  { rewrite <- Hplen. symmetry. by eapply Forall2_length. }
  set (step1 := if to_city
                then admin_add_multiple_products_city admin_manager db1 place state
                else admin_add_multiple_products_category admin_manager db1 place state).
  assert (turn_db step1 = db1
          /\ turn_fsm step1
             = FSMContext.mk (Some waiting_for_multiple_products_data)
                 (if to_city
                  then Draft.set_multiple_type (py "city")
                         (Draft.set_multiple_city_id place_id (FSMContext.data state))
                  else Draft.set_multiple_type (py "category")
                         (Draft.set_multiple_category_id place_id
                            (FSMContext.data state))))
    as [Hdb1 Hfsm1].
  { unfold step1. destruct to_city.
    - unfold admin_add_multiple_products_city. by rewrite Ha1, Hplace.
    - unfold admin_add_multiple_products_category. by rewrite Ha1, Hplace. }
  split; [done|]. rewrite Hfsm1. clearbody step1. clear Hdb1 Hfsm1.
  unfold admin_add_multiple_products_names. rewrite Ha2, Hnames.
  cbn [negb]. rewrite Hitems. rewrite <- Hitems.
  cbn [storage_db fsm done]. split; [done|].
  unfold admin_add_multiple_products_descriptions. rewrite Ha3, Hdescriptions.
  cbn [negb]. 
  assert (forall d, Data.product_names
            (Data.set_product_names (comma_items names_text) d)
          = Some (comma_items names_text)) as Hstored by done.
  cbn [FSMContext.data FSMContext.update_data FSMContext.set_state].
  rewrite Hstored. cbn [default from_option id]. rewrite Hdlen, Nat.eqb_refl.
  cbn [negb storage_db fsm done]. split; [done|].
  unfold admin_add_multiple_products_prices. rewrite Ha4, Hprices.
  cbn [negb FSMContext.data FSMContext.update_data FSMContext.set_state].
  assert (forall x d, Data.product_names (Data.set_product_descriptions x d)
                      = Data.product_names d) as Hkeep by done.
  rewrite Hkeep, Hstored. cbn [default from_option id]. rewrite Hplen, Nat.eqb_refl. cbn [negb].
  rewrite (read_prices_accepts _ _ price_list Hread). cbn [app].
  assert (forall x d, Data.product_descriptions (Data.set_product_descriptions x d)
                      = Some x) as Hdesc by done.
  rewrite Hdesc. cbn [default from_option id]. rewrite Hdlen, Nat.ltb_irrefl.
  cbn [storage_db fsm done]. split; [done|].
  unfold admin_add_multiple_products_finish.
  rewrite Ha5, (photo_or_no_passes photo Hphoto).
  cbn [negb FSMContext.data FSMContext.update_data FSMContext.set_state].
  set (draft := Data.set_product_prices price_list
                  (Data.set_product_descriptions (comma_items descriptions_text)
                     (Data.set_product_names (comma_items names_text)
                        (if to_city
                         then Draft.set_multiple_type (py "city")
                                (Draft.set_multiple_city_id place_id
                                   (FSMContext.data state))
                         else Draft.set_multiple_type (py "category")
                                (Draft.set_multiple_category_id place_id
                                   (FSMContext.data state)))))).
  assert (Data.product_names draft = Some (comma_items names_text)) as -> by done.
  assert (Data.product_descriptions draft = Some (comma_items descriptions_text))
    as -> by done.
  assert (Data.product_prices draft = Some price_list) as -> by done.
  cbn [default from_option id]. rewrite Hdlen, Hlen, Nat.eqb_refl. cbn [negb orb].
  assert (Data.multiple_type draft = Some (if to_city then py "city" else py "category"))
    as -> by (by destruct to_city).
  assert (Data.multiple_category_id draft
          = if to_city then Data.multiple_category_id (FSMContext.data state)
            else Some place_id) as Hcat by (by destruct to_city).
  assert (Data.multiple_city_id draft
          = if to_city then Some place_id
            else Data.multiple_city_id (FSMContext.data state)) as Hcity
    by (by destruct to_city).
  cbn [default from_option id].
  destruct to_city.
  - replace (str_eqb (py "city") (py "category")) with false by (vm_compute; reflexivity).
    rewrite Hcity.
    match goal with
    | |- context [add_products_loop ?b ?i ?n ?d ?a] =>
      destruct (add_products_loop_spec b n i d a) as (Hadded & Hnew & Hold & Hframe);
      destruct (add_products_loop b i n d a) as [added db'] eqn:Hloop
    end.
    cbn [fst snd] in *.
    assert (forall i name description price,
               comma_items names_text !! i = Some name ->
               comma_items descriptions_text !! i = Some description ->
               price_list !! i = Some price ->
               DataStorage.products db' !! (DataStorage.next_product_id db + Z.of_nat i)
               = Some (Product.mk (DataStorage.next_product_id db + Z.of_nat i)
                         (Some name) (Some description) (Some price) None
                         (Some place_id) (last_photo photo) true)) as Hitems'.
    { intros i name description price Hi Hd Hp.
      rewrite (Hnew i name Hi). cbn [Nat.add Product.set_id Product.name
        Product.description Product.price Product.category_id Product.city_id
        Product.photo_url Product.is_active].
      unfold str in *. by rewrite Hd, Hp. }
    destruct added as [|a added']; [|destruct (Some place_id ≫= _)];
      cbn [storage_db done raise]; (split; [exact Hitems'|split; [done|done]]).
  - replace (str_eqb (py "category") (py "category")) with true
      by (vm_compute; reflexivity).
    rewrite Hcat.
    match goal with
    | |- context [add_products_loop ?b ?i ?n ?d ?a] =>
      destruct (add_products_loop_spec b n i d a) as (Hadded & Hnew & Hold & Hframe);
      destruct (add_products_loop b i n d a) as [added db'] eqn:Hloop
    end.
    cbn [fst snd storage_db done] in *.
    split; [|split; [done|done]].
    intros i name description price Hi Hd Hp.
    rewrite (Hnew i name Hi). cbn [Nat.add Product.set_id Product.name
      Product.description Product.price Product.category_id Product.city_id
      Product.photo_url Product.is_active].
    unfold str in *. by rewrite Hd, Hp.
Qed.

End BulkFlow.

Lemma single_add_flow_commits_what_was_typed_witness :
  DataStorage.products
    (storage_db
       (admin_add_product_finish (B := ascii_builtins) owner_only demo_store
          (owner_says "нет")
          (fsm (admin_add_product_price (B := ascii_builtins) owner_only demo_store
                  (owner_says "9.99")
                  (turn_fsm
                     (admin_add_product_description owner_only demo_store
                        (owner_says "Garden spade")
                        (turn_fsm
                           (admin_add_product_name owner_only demo_store
                              (owner_says " Spade ")
                              (turn_fsm
                                 (admin_add_product_category (B := ascii_builtins)
                                    owner_only demo_store
                                    (owner_presses "admin_category_1") idle))))))))))
    !! 4
  = Some (Product.mk 4 (Some (py "Spade")) (Some (py "Garden spade"))
            (Some (float_of_decimal false 999 (-2))) (Some 1) None None true).
Proof.
  destruct (single_add_flow_commits_what_was_typed (B := ascii_builtins) owner_only
              demo_store demo_store demo_store demo_store demo_store
              (owner_presses "admin_category_1") (owner_says " Spade ")
              (owner_says "Garden spade") (owner_says "9.99") (owner_says "нет") idle
              1 (py " Spade ") (py "Garden spade") (py "9.99")
              (float_of_decimal false 999 (-2)))
    as (_ & _ & _ & _ & Hcommitted & _).
  - exact owner_is_admin_of_owner_only.
  - exact owner_is_admin_of_owner_only.
  - exact owner_is_admin_of_owner_only.
  - exact owner_is_admin_of_owner_only.
  - exact owner_is_admin_of_owner_only.
  - vm_compute. reflexivity.
  - reflexivity.
  - vm_compute. lia.
  - reflexivity.
  - vm_compute. lia.
  - reflexivity.
  - vm_compute. reflexivity.
  - vm_compute. reflexivity.
  - right. vm_compute. reflexivity.
  - rewrite Hcommitted. vm_compute. reflexivity.
Defined.

Lemma direct_add_flow_needs_the_city_witness :
  DataStorage.products
    (storage_db
       (admin_add_product_to_city_finish (B := ascii_builtins) owner_only demo_store
          (owner_says "нет")
          (fsm (admin_add_product_to_city_price (B := ascii_builtins) owner_only
                  demo_store (owner_says "399")
                  (turn_fsm
                     (admin_add_product_to_city_description owner_only demo_store
                        (owner_says "Two-seat canoe")
                        (turn_fsm
                           (admin_add_product_to_city_name owner_only demo_store
                              (owner_says "Canoe")
                              (turn_fsm
                                 (admin_add_product_to_city_city (B := ascii_builtins)
                                    owner_only demo_store
                                    (owner_presses "direct_city_2") idle))))))))))
    !! 4
  = Some (Product.mk 4 (Some (py "Canoe")) (Some (py "Two-seat canoe"))
            (Some (float_of_decimal false 399 0)) None (Some 2) None true).
Proof.
  destruct (direct_add_flow_needs_the_city (B := ascii_builtins) owner_only
              demo_store demo_store demo_store demo_store demo_store
              (owner_presses "direct_city_2") (owner_says "Canoe")
              (owner_says "Two-seat canoe") (owner_says "399") (owner_says "нет") idle
              2 (py "Canoe") (py "Two-seat canoe") (py "399")
              (float_of_decimal false 399 0))
    as (_ & _ & _ & _ & _ & Hcommitted).
  - exact owner_is_admin_of_owner_only.
  - exact owner_is_admin_of_owner_only.
  - exact owner_is_admin_of_owner_only.
  - exact owner_is_admin_of_owner_only.
  - exact owner_is_admin_of_owner_only.
  - vm_compute. reflexivity.
  - vm_compute. eexists. reflexivity.
  - reflexivity.
  - vm_compute. lia.
  - reflexivity.
  - vm_compute. lia.
  - reflexivity.
  - vm_compute. reflexivity.
  - vm_compute. reflexivity.
  - right. vm_compute. reflexivity.
  - assert (DataStorage.cities demo_store !! 2
            = Some (City.mk 2 (py "Lakeside") 2 true)) as Hcity
      by (vm_compute; reflexivity).
    rewrite Hcity in Hcommitted. destruct Hcommitted as (Hdb & _).
    rewrite Hdb. vm_compute. reflexivity.
Defined.

Lemma bulk_add_flow_commits_every_item_witness :
  DataStorage.products
    (storage_db
       (admin_add_multiple_products_finish (B := ascii_builtins) owner_only demo_store
          (owner_says "нет")
          (fsm (admin_add_multiple_products_prices (B := ascii_builtins) owner_only
                  demo_store (owner_says "12.50, 8")
                  (fsm (admin_add_multiple_products_descriptions owner_only demo_store
                          (owner_says "Leaf rake, Draw hoe")
                          (fsm (admin_add_multiple_products_names owner_only
                                  demo_store (owner_says "Rake, Hoe")
                                  (turn_fsm
                                     (admin_add_multiple_products_category
                                        (B := ascii_builtins) owner_only demo_store
                                        (owner_presses "admin_multiple_category_1")
                                        idle))))))))))
    !! 5
  = Some (Product.mk 5 (Some (py "Hoe")) (Some (py "Draw hoe"))
            (Some (float_of_decimal false 8 0)) (Some 1) None None true).
Proof.
  destruct (bulk_add_flow_commits_every_item (B := ascii_builtins) owner_only
              demo_store demo_store demo_store demo_store demo_store false
              (owner_presses "admin_multiple_category_1") (owner_says "Rake, Hoe")
              (owner_says "Leaf rake, Draw hoe") (owner_says "12.50, 8")
              (owner_says "нет") idle
              1 (py "Rake, Hoe") (py "Leaf rake, Draw hoe") (py "12.50, 8")
              [float_of_decimal false 1250 (-2); float_of_decimal false 8 0])
    as (_ & _ & _ & _ & Hitems & _).
  - exact owner_is_admin_of_owner_only.
  - exact owner_is_admin_of_owner_only.
  - exact owner_is_admin_of_owner_only.
  - exact owner_is_admin_of_owner_only.
  - exact owner_is_admin_of_owner_only.
  - vm_compute. reflexivity.
  - reflexivity.
  - vm_compute. discriminate.
  - reflexivity.
  - vm_compute. reflexivity.
  - reflexivity.
  - vm_compute. reflexivity.
  - assert (comma_items (py "12.50, 8") = [py "12.50"; py "8"]) as ->
      by (vm_compute; reflexivity).
    repeat constructor; vm_compute; reflexivity.
  - right. vm_compute. reflexivity.
  - exact (Hitems 1%nat (py "Hoe") (py "Draw hoe") (float_of_decimal false 8 0)
             ltac:(vm_compute; reflexivity) ltac:(vm_compute; reflexivity) eq_refl).
Defined.

(** ** What users who are not administrators can change *)

Section VisitorRuns.
Context `{B : Builtins}.

(** Unfold the handler at the head of the call [t]. *)
Ltac unfold_handler t :=
  lazymatch t with
  | ?f _ => unfold_handler f
  | _ => unfold t
  end.

Lemma visitor_step_managed (admin_manager : AdminManager.t) (db db' : DataStorage.t) :
  visitor_step admin_manager db db' ->
  managed db' = managed db.
Proof.
  intros Hstep. destruct Hstep as
      [now m st | cb st | cb st | now notify_ok m st
       | handler m st Hin Hadmin | send_ok edit_ok handler cb st Hin Hadmin
       | handler m st Hin Hadmin | handler cb st Hin Hadmin].
  - unfold cmd_start, DataStorage.add_user. simpl. by case_match.
  - unfold show_product_detail. by repeat case_match.
  - unfold select_payment_method. by repeat case_match.
  - unfold receive_payment_proof. repeat case_match; try done.
    all: match goal with
         | H : DataStorage.add_order _ _ = (_, ?d) |- _ =>
           apply (f_equal snd) in H; cbn [snd] in H; subst d
         end; reflexivity.
  - unfold guarded_message_handlers in Hin.
    repeat (apply elem_of_cons in Hin as [->|Hin];
            [match goal with
             | |- context [storage_db ?call] => unfold_handler call
             end; by rewrite Hadmin|]).
    by apply elem_of_nil in Hin.
  - unfold guarded_callback_handlers in Hin.
    repeat (apply elem_of_cons in Hin as [->|Hin];
            [match goal with
             | |- context [storage_db ?call] => unfold_handler call
             end; by rewrite Hadmin|]).
    by apply elem_of_nil in Hin.
  - unfold guarded_message_turns in Hin.
    repeat (apply elem_of_cons in Hin as [->|Hin];
            [cbv beta;
             match goal with
             | |- context [turn_db (snd ?call)] => unfold_handler call
             | |- context [turn_db ?call] => unfold_handler call
             end; by rewrite Hadmin|]).
    by apply elem_of_nil in Hin.
  - unfold guarded_callback_turns in Hin.
    repeat (apply elem_of_cons in Hin as [->|Hin];
            [match goal with
             | |- context [turn_db ?call] => unfold_handler call
             end; by rewrite Hadmin|]).
    by apply elem_of_nil in Hin.
Qed.

(** X22. Whatever users who are not administrators send, and however often, the
    catalog (products, categories, cities and their counters) and the two
    settings objects stay exactly as they are: such users can only register
    and place orders. *)
Theorem visitors_cannot_change_the_catalog (admin_manager : AdminManager.t)
    (db db' : DataStorage.t) :
  rtc (visitor_step admin_manager) db db' ->
  DataStorage.products db' = DataStorage.products db
  /\ DataStorage.categories db' = DataStorage.categories db
  /\ DataStorage.cities db' = DataStorage.cities db
  /\ DataStorage.payment_details db' = DataStorage.payment_details db
  /\ DataStorage.operator_settings db' = DataStorage.operator_settings db
  /\ DataStorage.next_product_id db' = DataStorage.next_product_id db
  /\ DataStorage.next_category_id db' = DataStorage.next_category_id db
  /\ DataStorage.next_city_id db' = DataStorage.next_city_id db.
Proof.
  intros Hrun.
  assert (managed db' = managed db) as Hsame.
  { induction Hrun as [|db mid db' Hstep _ IH]; [done|].
    rewrite IH. by apply (visitor_step_managed admin_manager). }
  unfold managed in Hsame. by simplify_eq.
Qed.

End VisitorRuns.

Lemma visitors_cannot_change_the_catalog_witness :
  DataStorage.products
    (storage_db
       (admin_delete_product_finish (B := ascii_builtins) owner_only demo_store
          (CallbackQuery.mk 555 (py "confirm_delete_product_1")) idle))
  = DataStorage.products demo_store.
Proof.
  destruct (visitors_cannot_change_the_catalog (B := ascii_builtins) owner_only
              demo_store
              (storage_db
                 (admin_delete_product_finish (B := ascii_builtins) owner_only
                    demo_store (CallbackQuery.mk 555 (py "confirm_delete_product_1"))
                    idle))) as (Hproducts & _).
  - apply rtc_once.
    apply (visit_guarded_callback (B := ascii_builtins) owner_only demo_store
             always always admin_delete_product_finish).
    + unfold guarded_callback_handlers. do 2 right. left.
    + vm_compute. reflexivity.
  - exact Hproducts.
Defined.

(** ** Checkout: the payment proof *)

(** [notification_sent] after the loop over the administrators. *)
Lemma notification_sent_spec (notify_ok : Z -> bool) (admin_manager : AdminManager.t) :
  (existsb notify_ok (AdminManager.get_admins_list admin_manager) = true
   /\ exists admin_id,
       admin_id ∈ AdminManager.admins admin_manager /\ notify_ok admin_id = true)
  \/ (existsb notify_ok (AdminManager.get_admins_list admin_manager) = false
      /\ forall admin_id,
          admin_id ∈ AdminManager.admins admin_manager -> notify_ok admin_id = false).
Proof.
  destruct (existsb notify_ok (AdminManager.get_admins_list admin_manager)) eqn:Hex.
  - left. split; [done|].
    apply existsb_exists in Hex as (a & Hin & Hok). exists a. split; [|done].
    apply elem_of_elements. apply list_elem_of_In. exact Hin.
  - right. split; [done|]. intros a Hin.
    destruct (notify_ok a) eqn:Hok; [|done].
    apply not_true_iff_false in Hex. destruct Hex.
    apply existsb_exists. exists a. split; [|done].
    apply list_elem_of_In. unfold AdminManager.get_admins_list.
    by apply elem_of_elements.
Qed.

(** X23. The three ways in which [receive_payment_proof] ends.  When the
    selected product is not in the store, the buyer is told so and the
    conversation is cleared.  When it is and the message carries neither a
    photo nor a document, the buyer is asked again and nothing changes.
    Otherwise exactly one order is stored, under the order counter, with
    the largest size of the photo, or else the document, as its proof, and
    the notification is attempted once for every administrator; the buyer
    is told that the order is accepted when at least one notification got
    through, and that the administrators could not be reached when none
    did: the order is stored in both cases. *)
Theorem payment_proof_is_required (now : str) (notify_ok : Z -> bool)
    (admin_manager : AdminManager.t) (db : DataStorage.t)
    (message : Message.t) (state : FSMContext.t) :
  let out := receive_payment_proof now notify_ok admin_manager db message state in
  let selected := Data.selected_product_id (FSMContext.data state) in
  match selected ≫= (fun product_id => DataStorage.products db !! product_id) with
  | None => out = done db (FSMContext.clear state) [ProductNotFound]
  | Some product =>
    if bool_decide (Message.photo message = [] /\ Message.document message = None)
    then out = done db state [AskPaymentProof]
    else
      exists order,
        Order.user_id order = Message.from_user_id message
        /\ Some (Order.product_id order) = selected
        /\ Order.payment_proof order
           = default (default [] (Message.document message))
                     (last (Message.photo message))
        /\ storage_db out
           = DataStorage.set_next_order_id (DataStorage.next_order_id db + 1)
               (DataStorage.set_orders
                  (<[DataStorage.next_order_id db
                     := Order.set_id (DataStorage.next_order_id db) order]>
                     (DataStorage.orders db)) db)
        /\ fsm out = FSMContext.clear state
        /\ (is_Some (Product.price product) ->
            deliveries out = AdminManager.get_admins_list admin_manager
            /\ NoDup (deliveries out)
            /\ ((replies out = [OrderAccepted (DataStorage.next_order_id db); WhatNext]
                 /\ exists admin_id,
                     admin_id ∈ AdminManager.admins admin_manager
                     /\ notify_ok admin_id = true)
                \/ (replies out = [OrderAcceptedUnnotified; WhatNext]
                    /\ forall admin_id,
                        admin_id ∈ AdminManager.admins admin_manager ->
                        notify_ok admin_id = false)))
  end.
Proof.
  cbn zeta. unfold receive_payment_proof.
  destruct (Data.selected_product_id (FSMContext.data state)) as [product_id|];
    [|done].
  cbn [mbind option_bind].
  destruct (DataStorage.products db !! product_id) as [product|]; [|done].
  assert (forall payment_proof,
             let order :=
               Order.mk 0 (Message.from_user_id message)
                 (str_or (Message.from_user_username message) (py "Без имени"))
                 product_id (Product.name product) (Product.price product)
                 (Data.payment_method (FSMContext.data state)) payment_proof
                 Order.default_status now in
             forall out,
               out = (let '(order_id, db0) := DataStorage.add_order order db in
                      match Product.price product with
                      | None => done db0 (FSMContext.clear state) [PaymentError]
                      | Some _ =>
                        mkOutcome db0 (FSMContext.clear state)
                          [if existsb notify_ok
                                (AdminManager.get_admins_list admin_manager)
                           then OrderAccepted order_id
                           else OrderAcceptedUnnotified; WhatNext]
                          (AdminManager.get_admins_list admin_manager) None
                      end) ->
               storage_db out
               = DataStorage.set_next_order_id (DataStorage.next_order_id db + 1)
                   (DataStorage.set_orders
                      (<[DataStorage.next_order_id db
                         := Order.set_id (DataStorage.next_order_id db) order]>
                         (DataStorage.orders db)) db)
               /\ fsm out = FSMContext.clear state
               /\ (is_Some (Product.price product) ->
                   deliveries out = AdminManager.get_admins_list admin_manager
                   /\ NoDup (deliveries out)
                   /\ ((replies out
                        = [OrderAccepted (DataStorage.next_order_id db); WhatNext]
                        /\ exists admin_id,
                            admin_id ∈ AdminManager.admins admin_manager
                            /\ notify_ok admin_id = true)
                       \/ (replies out = [OrderAcceptedUnnotified; WhatNext]
                           /\ forall admin_id,
                               admin_id ∈ AdminManager.admins admin_manager ->
                               notify_ok admin_id = false)))) as Hplaced.
  { intros payment_proof order out ->. rewrite add_order_spec.
    destruct (Product.price product) as [price|].
    - split; [done|]. split; [done|]. intros _. cbn [deliveries replies].
      split; [done|].
      split; [unfold AdminManager.get_admins_list; apply NoDup_elements|].
      destruct (notification_sent_spec notify_ok admin_manager)
        as [[-> Hsome]|[-> Hnone]]; [by left|by right].
    - split; [done|]. split; [done|]. by intros [? ?]. }
  unfold last_photo.
  destruct (last (Message.photo message)) as [file_id|] eqn:Hlast.
  - rewrite bool_decide_eq_false_2.
    2:{ intros [Hphoto _]. by rewrite Hphoto in Hlast. }
    eexists. split; [|split; [|split; [|by apply (Hplaced file_id)]]]; done.
  - apply last_None in Hlast. rewrite Hlast.
    destruct (Message.document message) as [file_id|] eqn:Hdoc.
    + rewrite bool_decide_eq_false_2 by (by intros [_ ?]).
      eexists. split; [|split; [|split; [|by apply (Hplaced file_id)]]]; done.
    + by rewrite bool_decide_eq_true_2.
Qed.

(** ** Comma-separated lists *)

Lemma lstrip_suffix (s : str) : exists blank, s = blank ++ lstrip s.
Proof.
  induction s as [|c s [blank IH]]; [by exists []|]. simpl.
  destruct (is_space c).
  - exists (c :: blank). simpl. by f_equal.
  - by exists [].
Qed.

Lemma lstrip_head (s : str) (c : N) (r : str) :
  lstrip s = c :: r -> is_space c = false.
Proof.
  induction s as [|x s IH]; simpl; [done|].
  destruct (is_space x) eqn:Hx; [done|]. by intros [= <- _].
Qed.

Lemma lstrip_fixed (s : str) :
  lstrip s = s <-> match s with [] => True | c :: _ => is_space c = false end.
Proof.
  destruct s as [|c s]; simpl; [done|]. split.
  - intros Hs. by apply (lstrip_head (c :: s) c s).
  - by intros ->.
Qed.

Lemma lstrip_idemp (s : str) : lstrip (lstrip s) = lstrip s.
Proof.
  apply lstrip_fixed. destruct (lstrip s) as [|c r] eqn:Hs; [done|].
  by apply (lstrip_head s c r).
Qed.

Lemma rstrip_prefix (s : str) : exists blank, s = rstrip s ++ blank.
Proof.
  destruct (lstrip_suffix (rev s)) as [blank Hs]. exists (rev blank).
  unfold rstrip. rewrite <- rev_app_distr, <- Hs. by rewrite rev_involutive.
Qed.

Lemma rstrip_idemp (s : str) : rstrip (rstrip s) = rstrip s.
Proof. unfold rstrip. by rewrite rev_involutive, lstrip_idemp. Qed.

Lemma lstrip_rstrip (s : str) : lstrip s = s -> lstrip (rstrip s) = rstrip s.
Proof.
  intros Hs. apply lstrip_fixed.
  destruct (rstrip_prefix s) as [blank Hblank].
  destruct (rstrip s) as [|c r]; [done|].
  rewrite Hblank in Hs. by apply (lstrip_head _ c (r ++ blank)) in Hs.
Qed.

(** [s.strip().strip() == s.strip()] *)
Lemma strip_idemp (s : str) : strip (strip s) = strip s.
Proof.
  unfold strip. rewrite (lstrip_rstrip (lstrip s)) by apply lstrip_idemp.
  apply rstrip_idemp.
Qed.

(** Stripping only removes characters. *)
Lemma strip_elem_of (s : str) (c : N) : c ∈ strip s -> c ∈ s.
Proof.
  intros Hc. unfold strip in Hc.
  destruct (rstrip_prefix (lstrip s)) as [blank Hr].
  destruct (lstrip_suffix s) as [blank' Hl].
  rewrite Hl. apply elem_of_app. right.
  rewrite Hr. apply elem_of_app. by left.
Qed.

(** The pieces of [s.split(sep)] do not contain the separator. *)
Lemma split_pieces (sep : N) (s : str) (piece : str) :
  piece ∈ split sep s -> sep ∉ piece.
Proof.
  revert piece. induction s as [|c s IH]; intros piece; simpl.
  - intros Hin. apply list_elem_of_singleton in Hin as ->. apply not_elem_of_nil.
  - destruct (c =? sep)%N eqn:Hc.
    + intros Hin. apply elem_of_cons in Hin as [->|Hin]; [apply not_elem_of_nil|].
      by apply IH.
    + apply N.eqb_neq in Hc.
      destruct (split sep s) as [|first pieces] eqn:Hsplit.
      * intros Hin. apply list_elem_of_singleton in Hin as ->.
        intros Hsep. apply list_elem_of_singleton in Hsep. congruence.
      * intros Hin. apply elem_of_cons in Hin as [->|Hin].
        -- intros Hsep. apply elem_of_cons in Hsep as [Heq|Hsep]; [congruence|].
           apply (IH first); [left|done].
        -- apply IH. by right.
Qed.

(** X24. An item of a comma-separated list, read with
    [[x.strip() for x in text.split(',') if x.strip()]], is not empty, has
    no white space at either end (stripping it again changes nothing) and
    contains no comma; there are at most as many items as there are commas
    in the text, plus one. *)
Theorem comma_items_are_clean (text : str) :
  (forall item,
      item ∈ comma_items text ->
      item <> [] /\ strip item = item /\ comma ∉ item)
  /\ (length (comma_items text) <= S (length (filter (fun c => c = comma) text)))%nat.
Proof.
  split.
  - intros item Hin. unfold comma_items in Hin.
    apply list_elem_of_filter in Hin as [Hne Hin].
    apply list_elem_of_fmap in Hin as (piece & -> & Hpiece).
    split; [done|]. split; [apply strip_idemp|].
    intros Hcomma. apply strip_elem_of in Hcomma.
    by apply (split_pieces comma text piece).
  - unfold comma_items.
    etrans; [apply length_filter|]. rewrite length_map.
    unfold str in *.
    induction text as [|c text IH]; [simpl; lia|].
    rewrite filter_cons. cbn [split].
    destruct (c =? comma)%N eqn:Hc.
    + apply N.eqb_eq in Hc. rewrite decide_True by done. simpl. lia.
    + apply N.eqb_neq in Hc. rewrite decide_False by done.
      destruct (split comma text); simpl in *; lia.
Qed.

(** ** Sorting *)

Lemma str_ltb_asym (a b : str) : str_ltb a b = true -> str_ltb b a = false.
Proof.
  revert b. induction a as [|x a IH]; intros [|y b]; simpl; try done.
  destruct (N.ltb_spec x y), (N.ltb_spec y x); try done; try lia.
  apply IH.
Qed.

Lemma str_ltb_trans (a b c : str) :
  str_ltb a b = true -> str_ltb b c = true -> str_ltb a c = true.
Proof.
  revert b c. induction a as [|x a IH]; intros [|y b] [|z c]; simpl; try done.
  destruct (N.ltb_spec x y), (N.ltb_spec y x), (N.ltb_spec y z), (N.ltb_spec z y),
    (N.ltb_spec x z), (N.ltb_spec z x); try done; try lia.
  apply IH.
Qed.

Lemma city_key_ltb_spec (a b : City.t) :
  city_key_ltb a b = true
  <-> City.order a < City.order b
      \/ (City.order a = City.order b /\ str_ltb (City.name a) (City.name b) = true).
Proof.
  unfold city_key_ltb.
  rewrite orb_true_iff, andb_true_iff, Z.ltb_lt, Z.eqb_eq. tauto.
Qed.

Lemma city_key_ltb_asym (a b : City.t) :
  city_key_ltb a b = true -> city_key_ltb b a = false.
Proof.
  intros Hab. apply not_true_iff_false. intros Hba.
  apply city_key_ltb_spec in Hab, Hba.
  destruct Hab as [Hab|[Hab Hn]], Hba as [Hba|[Hba Hn']]; try lia.
  apply str_ltb_asym in Hn. congruence.
Qed.

Lemma city_key_ltb_trans (a b c : City.t) :
  city_key_ltb a b = true -> city_key_ltb b c = true -> city_key_ltb a c = true.
Proof.
  intros Hab Hbc. apply city_key_ltb_spec in Hab, Hbc. apply city_key_ltb_spec.
  destruct Hab as [Hab|[Hab Hn]], Hbc as [Hbc|[Hbc Hn']]; try (left; lia).
  right. split; [lia|]. by apply (str_ltb_trans _ (City.name b)).
Qed.

Section Sorting.
Context {A : Type} (lt : A -> A -> bool).

Lemma insort_Permutation (x : A) (placed : list A) :
  insort lt x placed ≡ₚ x :: placed.
Proof.
  induction placed as [|y placed IH]; simpl; [done|].
  destruct (lt x y); [done|]. rewrite IH. apply Permutation_swap.
Qed.

(** The sorted list holds the items that were given, each as often as it
    was given. *)
Lemma sort_by_Permutation (items : list A) : sort_by lt items ≡ₚ items.
Proof.
  unfold sort_by.
  enough (forall placed, foldl (fun placed x => insort lt x placed) placed items
                         ≡ₚ placed ++ items) as Hgen by apply (Hgen []).
  induction items as [|x items IH]; intros placed; simpl.
  - by rewrite app_nil_r.
  - rewrite IH, insort_Permutation. simpl. apply Permutation_middle.
Qed.

Hypothesis lt_asym : forall x y, lt x y = true -> lt y x = false.
Hypothesis lt_trans : forall x y z, lt x y = true -> lt y z = true -> lt x z = true.

Lemma insort_sorted (x : A) (placed : list A) :
  StronglySorted (fun a b => lt b a = false) placed ->
  StronglySorted (fun a b => lt b a = false) (insort lt x placed).
Proof.
  induction 1 as [|y placed Hsorted IH Hall]; simpl.
  - repeat constructor.
  - destruct (lt x y) eqn:Hxy.
    + constructor; [by constructor|].
      constructor; [by apply lt_asym|].
      eapply Forall_impl; [exact Hall|]. intros z Hyz. simpl in Hyz.
      apply not_true_iff_false. intros Hzx.
      apply not_true_iff_false in Hyz. apply Hyz. by apply (lt_trans z x y).
    + constructor; [exact IH|].
      rewrite insort_Permutation. by constructor.
Qed.

(** No item of the sorted list is followed by a smaller one. *)
Lemma sort_by_sorted (items : list A) :
  StronglySorted (fun a b => lt b a = false) (sort_by lt items).
Proof.
  unfold sort_by.
  enough (forall placed,
             StronglySorted (fun a b => lt b a = false) placed ->
             StronglySorted (fun a b => lt b a = false)
               (foldl (fun placed x => insort lt x placed) placed items)) as Hgen
      by (apply Hgen; constructor).
  induction items as [|x items IH]; intros placed Hplaced; simpl; [done|].
  by apply IH, insort_sorted.
Qed.

End Sorting.

Lemma StronglySorted_lookup {A : Type} (R : A -> A -> Prop) (l : list A) :
  StronglySorted R l ->
  forall (i j : nat) (x y : A),
    l !! i = Some x -> l !! j = Some y -> (i < j)%nat -> R x y.
Proof.
  induction 1 as [|z l Hsorted IH Hall]; intros i j x y Hi Hj Hlt.
  - by rewrite lookup_nil in Hi.
  - destruct j as [|j]; [lia|]. simpl in Hj. destruct i as [|i].
    + injection Hi as <-. rewrite Forall_forall in Hall. apply Hall.
      by eapply list_elem_of_lookup_2.
    + simpl in Hi. apply (IH i j); [done|done|lia].
Qed.

(** ** The main menu *)

Lemma active_cities_sorted_Permutation (db : DataStorage.t) :
  active_cities_sorted db
  ≡ₚ filter (fun kc => City.is_active kc.2 = true)
            (map_to_list (DataStorage.cities db)).
Proof. apply sort_by_Permutation. Qed.

Lemma active_cities_sorted_elem (db : DataStorage.t) (city_id : Z) (city : City.t) :
  (city_id, city) ∈ active_cities_sorted db
  <-> DataStorage.cities db !! city_id = Some city /\ City.is_active city = true.
Proof.
  rewrite active_cities_sorted_Permutation, list_elem_of_filter, elem_of_map_to_list.
  simpl. tauto.
Qed.

Lemma active_cities_sorted_NoDup (db : DataStorage.t) :
  NoDup (active_cities_sorted db).*1.
Proof.
  rewrite active_cities_sorted_Permutation. apply NoDup_fmap_fst.
  - intros k x y Hx Hy.
    apply list_elem_of_filter in Hx as [_ Hx]. apply list_elem_of_filter in Hy as [_ Hy].
    apply elem_of_map_to_list in Hx. apply elem_of_map_to_list in Hy. congruence.
  - apply NoDup_filter, NoDup_map_to_list.
Qed.

Lemma active_cities_sorted_ordered (db : DataStorage.t) (i j : nat)
    (x y : Z * City.t) :
  active_cities_sorted db !! i = Some x ->
  active_cities_sorted db !! j = Some y ->
  (i < j)%nat ->
  City.order x.2 < City.order y.2
  \/ (City.order x.2 = City.order y.2
      /\ str_ltb (City.name y.2) (City.name x.2) = false).
Proof.
  intros Hi Hj Hlt.
  pose proof (sort_by_sorted (fun x y : Z * City.t => city_key_ltb x.2 y.2)
                (fun x y => city_key_ltb_asym x.2 y.2)
                (fun x y z => city_key_ltb_trans x.2 y.2 z.2)
                (filter (fun kc => City.is_active kc.2 = true)
                        (map_to_list (DataStorage.cities db)))) as Hsorted.
  pose proof (StronglySorted_lookup _ _ Hsorted i j x y Hi Hj Hlt) as Hxy.
  simpl in Hxy. apply not_true_iff_false in Hxy.
  rewrite city_key_ltb_spec in Hxy.
  destruct (Z.lt_trichotomy (City.order x.2) (City.order y.2)) as [Ho|[Ho|Ho]].
  - by left.
  - right. split; [done|]. apply not_true_iff_false. intros Hn. apply Hxy.
    right. by split.
  - destruct Hxy. by left.
Qed.

(** X25. The city buttons of the main menu are the active cities of the store,
    each once, in the order of [(order, name)]: no button is followed by
    the button of a city with a smaller order, or with the same order and
    a smaller name.  The operator button follows them when the operator
    flag is set, and only then. *)
Theorem main_menu_lists_active_cities_in_order (db : DataStorage.t) :
  let shown := active_cities_sorted db in
  (forall city_id city,
      (city_id, city) ∈ shown
      <-> DataStorage.cities db !! city_id = Some city /\ City.is_active city = true)
  /\ NoDup shown.*1
  /\ (forall (i j : nat) x y,
         shown !! i = Some x -> shown !! j = Some y -> (i < j)%nat ->
         City.order x.2 < City.order y.2
         \/ (City.order x.2 = City.order y.2
             /\ str_ltb (City.name y.2) (City.name x.2) = false))
  /\ added (get_cities_keyboard_two_columns db)
     = (city_button <$> shown)
       ++ (if truthy (OperatorSettings.operator_enabled
                        (DataStorage.operator_settings db))
           then [UrlButton
                   (OperatorSettings.operator_button_text
                      (DataStorage.operator_settings db))
                   (OperatorSettings.operator_link (DataStorage.operator_settings db))]
           else [])
  /\ row (get_cities_keyboard_two_columns db)
     = [CallbackButton (py "🔙 Назад") (py "main_menu")].
Proof.
  cbn zeta. split; [|split; [|split; [|split]]].
  - apply active_cities_sorted_elem.
  - apply active_cities_sorted_NoDup.
  - apply active_cities_sorted_ordered.
  - unfold get_cities_keyboard_two_columns.
    destruct (truthy _); simpl; [done|by rewrite app_nil_r].
  - unfold get_cities_keyboard_two_columns. by destruct (truthy _).
Qed.

(** ** The main menu after a reorder *)

Lemma StronglySorted_from_lookup {A : Type} (R : A -> A -> Prop) (l : list A) :
  (forall (i j : nat) (x y : A),
      l !! i = Some x -> l !! j = Some y -> (i < j)%nat -> R x y) ->
  StronglySorted R l.
Proof.
  induction l as [|z l IH]; intros Hl; constructor.
  - apply IH. intros i j x y Hi Hj Hlt. apply (Hl (S i) (S j)); [done|done|lia].
  - apply Forall_forall. intros y Hy.
    apply list_elem_of_lookup in Hy as [j Hj].
    apply (Hl 0%nat (S j)); [done|done|lia].
Qed.

(** The cities named by a list of ids, in the order of the list. *)
Lemma omap_lookup_sorted {A : Type} (R : A -> A -> Prop) (f : Z -> option A)
    (ids : list Z) :
  (forall (i j : nat) c1 c2 x y,
      ids !! i = Some c1 -> ids !! j = Some c2 -> (i < j)%nat ->
      f c1 = Some x -> f c2 = Some y -> R x y) ->
  StronglySorted R (omap f ids).
Proof.
  induction ids as [|c ids IH]; intros Hids; simpl; [constructor|].
  assert (StronglySorted R (omap f ids)) as Hrest.
  { apply IH. intros i j c1 c2 x y Hi Hj Hlt.
    apply (Hids (S i) (S j)); [done|done|lia]. }
  destruct (f c) as [x|] eqn:Hx; [|done].
  constructor; [done|]. apply Forall_forall. intros y Hy.
  apply list_elem_of_omap in Hy as (c2 & Hc2 & Hy).
  apply list_elem_of_lookup in Hc2 as [j Hj].
  apply (Hids 0%nat (S j) c c2); [done|done|lia|done|done].
Qed.

Lemma omap_fst_filter {A : Type} (f : Z -> option (Z * A)) (ids : list Z) :
  (forall c x, f c = Some x -> x.1 = c) ->
  (omap f ids).*1 = filter (fun c => is_Some (f c)) ids.
Proof.
  intros Hf. induction ids as [|c ids IH]; [done|].
  rewrite filter_cons.
  change (omap f (c :: ids))
    with (match f c with Some y => y :: omap f ids | None => omap f ids end).
  destruct (f c) as [x|] eqn:Hx.
  - rewrite decide_True by eauto. rewrite fmap_cons, IH. f_equal.
    by apply Hf.
  - rewrite decide_False; [done|]. by intros [? ?].
Qed.

Section MenuAfterReorder.
Context `{B : Builtins}.

(** The cities of the store after an accepted reorder message. *)
Lemma reorder_applied (admin_manager : AdminManager.t)
    (db : DataStorage.t) (message : Message.t) (state : FSMContext.t)
    (text : str) (city_ids : list Z) :
  AdminManager.is_admin admin_manager (Message.from_user_id message) = true ->
  Message.text message = Some text ->
  parse_city_ids text = Some city_ids ->
  city_ids <> [] ->
  NoDup city_ids ->
  (forall c, c ∈ city_ids -> is_Some (DataStorage.cities db !! c)) ->
  let db' := storage_db (admin_set_city_order_finish admin_manager db message state) in
  (forall i c,
      city_ids !! i = Some c ->
      DataStorage.cities db' !! c
      = City.set_order (Z.of_nat i + 1) <$> DataStorage.cities db !! c)
  /\ (forall c, c ∉ city_ids ->
                DataStorage.cities db' !! c = DataStorage.cities db !! c)
  /\ DataStorage.operator_settings db' = DataStorage.operator_settings db.
Proof.
  intros Hadmin Htext Hparse Hne Hnd Hknown.
  unfold admin_set_city_order_finish. rewrite Hadmin, Htext, Hparse. simpl.
  destruct city_ids as [|c0 ids] eqn:Hids; [done|]. rewrite <- Hids in *.
  assert (filter (fun city_id => DataStorage.cities db !! city_id = None) city_ids = [])
    as ->.
  { destruct (filter _ city_ids) as [|m ms] eqn:Hf; [done|].
    assert (m ∈ filter (fun city_id => DataStorage.cities db !! city_id = None) city_ids)
      as Hm by (rewrite Hf; left).
    apply list_elem_of_filter in Hm as [Hnone Hin].
    apply Hknown in Hin as [x Hx]. congruence. }
  cbn [storage_db done].
  destruct (bulk_update_city_orders_spec (build_order_mapping city_ids) db) as [_ Hlookup].
  repeat split.
  - intros i c Hi. cbn [DataStorage.bulk_update_city_orders] in *.
    rewrite Hlookup. unfold build_order_mapping.
    destruct (order_mapping_positions city_ids (fun i => Z.of_nat i + 1) ∅ c) as [_ Hpos].
    by rewrite (Hpos Hnd i Hi).
  - intros c Hnot. cbn [DataStorage.bulk_update_city_orders] in *.
    rewrite Hlookup. unfold build_order_mapping.
    destruct (order_mapping_positions city_ids (fun i => Z.of_nat i + 1) ∅ c) as [Habs _].
    by rewrite (Habs Hnot), lookup_empty.
Qed.

(** X26. After a reorder message that names every city of the store once, the
    main menu shows the active cities in exactly the order in which the
    message names them. *)
Theorem reorder_fixes_the_menu_order (admin_manager : AdminManager.t)
    (db : DataStorage.t) (message : Message.t) (state : FSMContext.t)
    (text : str) (city_ids : list Z) :
  AdminManager.is_admin admin_manager (Message.from_user_id message) = true ->
  Message.text message = Some text ->
  parse_city_ids text = Some city_ids ->
  city_ids <> [] ->
  NoDup city_ids ->
  (forall c, c ∈ city_ids <-> is_Some (DataStorage.cities db !! c)) ->
  (active_cities_sorted
     (storage_db (admin_set_city_order_finish admin_manager db message state))).*1
  = filter (fun c => City.is_active <$> DataStorage.cities db !! c = Some true)
           city_ids.
Proof.
  intros Hadmin Htext Hparse Hne Hnd Hall.
  destruct (reorder_applied admin_manager db message state text city_ids
              Hadmin Htext Hparse Hne Hnd (fun c Hc => proj1 (Hall c) Hc))
    as (Hlisted & Hother & _).
  set (db' := storage_db (admin_set_city_order_finish admin_manager db message state))
    in *.
  assert (forall k city, DataStorage.cities db' !! k = Some city -> k ∈ city_ids)
    as Hkeys_listed.
  { intros k city Hk. destruct (decide (k ∈ city_ids)) as [Hin|Hout]; [done|].
    apply Hall. rewrite <- (Hother k Hout). by rewrite Hk. }
  set (shown c := match DataStorage.cities db' !! c with
                  | Some city => if City.is_active city then Some (c, city) else None
                  | None => None
                  end).
  assert (forall c x, shown c = Some x ->
                      x.1 = c /\ DataStorage.cities db' !! c = Some x.2
                      /\ City.is_active x.2 = true) as Hshown.
  { intros c x. unfold shown.
    destruct (DataStorage.cities db' !! c) as [city|]; [|done].
    destruct (City.is_active city) eqn:Hactive; [|done]. by intros [= <-]. }
  assert (forall i c x, city_ids !! i = Some c -> shown c = Some x ->
                        City.order x.2 = Z.of_nat i + 1) as Hposition.
  { intros i c x Hi Hx. apply Hshown in Hx as (_ & Hx & _).
    rewrite (Hlisted i c Hi) in Hx.
    destruct (DataStorage.cities db !! c) as [city|]; [|done].
    injection Hx as <-. done. }
  assert (active_cities_sorted db' = omap shown city_ids) as ->.
  { assert (AntiSymm (=) (fun x y : Z * City.t => City.order x.2 < City.order y.2))
      as Hanti by (intros x y Hxy Hyx; lia).
    apply (StronglySorted_unique
             (fun x y : Z * City.t => City.order x.2 < City.order y.2)).
    - apply StronglySorted_from_lookup. intros i j x y Hi Hj Hlt.
      destruct (active_cities_sorted_ordered db' i j x y Hi Hj Hlt) as [|[Heq _]];
        [done|].
      exfalso.
      assert (x.1 <> y.1) as Hkeys.
      { intros Heq'. pose proof (active_cities_sorted_NoDup db') as Hnodup.
        assert (i = j); [|lia].
        apply (NoDup_lookup _ i j x.1 Hnodup); rewrite list_lookup_fmap.
        - by rewrite Hi.
        - rewrite Hj. simpl. by rewrite Heq'. }
      destruct x as [k1 c1], y as [k2 c2]. simpl in *.
      apply list_elem_of_lookup_2 in Hi, Hj.
      apply active_cities_sorted_elem in Hi as [Hc1 _].
      apply active_cities_sorted_elem in Hj as [Hc2 _].
      assert (k1 ∈ city_ids) as Hk1 by (by apply (Hkeys_listed k1 c1)).
      assert (k2 ∈ city_ids) as Hk2 by (by apply (Hkeys_listed k2 c2)).
      apply list_elem_of_lookup in Hk1 as [p1 Hp1].
      apply list_elem_of_lookup in Hk2 as [p2 Hp2].
      rewrite (Hlisted p1 k1 Hp1) in Hc1. rewrite (Hlisted p2 k2 Hp2) in Hc2.
      destruct (DataStorage.cities db !! k1) as [o1|]; [|done].
      destruct (DataStorage.cities db !! k2) as [o2|]; [|done].
      injection Hc1 as <-. injection Hc2 as <-. simpl in Heq.
      assert (p1 = p2) by lia. subst p2. congruence.
    - apply omap_lookup_sorted. intros i j c1 c2 x y Hi Hj Hlt Hx Hy.
      rewrite (Hposition i c1 x Hi Hx), (Hposition j c2 y Hj Hy). lia.
    - apply NoDup_Permutation.
      + eapply NoDup_fmap_1. apply active_cities_sorted_NoDup.
      + apply (NoDup_fmap_1 fst).
        rewrite (omap_fst_filter shown city_ids (fun c x Hx => proj1 (Hshown c x Hx))).
        by apply NoDup_filter.
      + intros [k city]. rewrite active_cities_sorted_elem, list_elem_of_omap. split.
        * intros [Hk Hactive]. exists k. split.
          -- by apply (Hkeys_listed k city).
          -- unfold shown. by rewrite Hk, Hactive.
        * intros (c & Hc & Hx). apply Hshown in Hx as (Heq & Hk & Hactive).
          simpl in *. by subst c. }
  rewrite (omap_fst_filter shown city_ids (fun c x Hx => proj1 (Hshown c x Hx))).
  apply list_filter_iff. intros c. unfold shown.
  destruct (decide (c ∈ city_ids)) as [Hin|Hout].
  - apply list_elem_of_lookup in Hin as [i Hi]. rewrite (Hlisted i c Hi).
    destruct (DataStorage.cities db !! c) as [city|]; simpl.
    + destruct (City.is_active city); split; intros Hx; try done; by destruct Hx.
    + split; [by intros [? ?]|done].
  - rewrite (Hother c Hout).
    assert (DataStorage.cities db !! c = None) as ->.
    { destruct (DataStorage.cities db !! c) eqn:Hc; [|done].
      destruct Hout. apply Hall. by rewrite Hc. }
    simpl. split; [by intros [? ?]|done].
Qed.

End MenuAfterReorder.

Lemma demo_city_ids (c : Z) :
  c ∈ [2; 1] <-> is_Some (DataStorage.cities demo_store !! c).
Proof.
  change (DataStorage.cities demo_store) with demo_cities. unfold demo_cities. split.
  - intros Hc. apply elem_of_cons in Hc as [->|Hc].
    + rewrite lookup_insert_eq. eauto.
    + apply list_elem_of_singleton in Hc as ->.
      rewrite lookup_insert_ne by done. rewrite lookup_insert_eq. eauto.
  - intros [city Hc].
    apply lookup_insert_Some in Hc as [[<- _]|[_ Hc]]; [left|].
    apply lookup_insert_Some in Hc as [[<- _]|[_ Hc]]; [right; left|].
    by rewrite lookup_empty in Hc.
Qed.

Lemma reorder_fixes_the_menu_order_witness :
  (active_cities_sorted
     (storage_db
        (admin_set_city_order_finish (B := ascii_builtins) owner_only demo_store
           (owner_says "2, 1")
           (FSMContext.mk (Some waiting_for_city_order) Data.empty)))).*1
  = [2; 1].
Proof.
  rewrite (reorder_fixes_the_menu_order (B := ascii_builtins) owner_only demo_store
             (owner_says "2, 1")
             (FSMContext.mk (Some waiting_for_city_order) Data.empty)
             (py "2, 1") [2; 1]).
  - vm_compute. reflexivity.
  - exact owner_is_admin_of_owner_only.
  - reflexivity.
  - vm_compute. reflexivity.
  - discriminate.
  - apply NoDup_cons. split; [|apply NoDup_singleton].
    intros Hin. apply list_elem_of_singleton in Hin. discriminate.
  - exact demo_city_ids.
Defined.

(** ** The operator button *)

(** X27. A new text for the operator button, of at least 2 characters, is what
    the main menu shows on the operator button from then on, without the
    surrounding white space, when the operator flag is set; the city
    buttons are the same as before, and with the flag unset there is no
    operator button. *)
Theorem operator_button_shows_the_text_set (admin_manager : AdminManager.t)
    (db : DataStorage.t) (message : Message.t) (state : FSMContext.t) (text : str) :
  AdminManager.is_admin admin_manager (Message.from_user_id message) = true ->
  Message.text message = Some text ->
  (2 <= length (strip text))%nat ->
  let saved := admin_set_operator_text_finish admin_manager db message state in
  let settings := DataStorage.operator_settings db in
  DataStorage.operator_settings (turn_db saved)
  = OperatorSettings.mk (OperatorSettings.operator_link settings)
      (OperatorSettings.operator_enabled settings) (VStr (strip text))
  /\ turn_db saved
     = DataStorage.set_operator_settings
         (DataStorage.operator_settings (turn_db saved)) db
  /\ turn_fsm saved = FSMContext.clear state
  /\ added (get_cities_keyboard_two_columns (turn_db saved))
     = (city_button <$> active_cities_sorted db)
       ++ (if truthy (OperatorSettings.operator_enabled settings)
           then [UrlButton (VStr (strip text))
                           (OperatorSettings.operator_link settings)]
           else []).
Proof.
  intros Hadmin Htext Hlong. cbn zeta.
  unfold admin_set_operator_text_finish. rewrite Hadmin.
  rewrite (text_shorter_than_false 2 message text) by (done || lia).
  rewrite Htext. cbn [negb default from_option id turn_db turn_fsm answer].
  assert (DataStorage.operator_settings
            (DataStorage.update_operator_settings
               [("operator_button_text"%string, VStr (strip text))] db)
          = OperatorSettings.mk
              (OperatorSettings.operator_link (DataStorage.operator_settings db))
              (OperatorSettings.operator_enabled (DataStorage.operator_settings db))
              (VStr (strip text))) as Hsettings.
  { reflexivity. }
  split; [exact Hsettings|]. split; [done|]. split; [done|].
  unfold get_cities_keyboard_two_columns. rewrite Hsettings.
  cbn [OperatorSettings.operator_enabled OperatorSettings.operator_button_text
       OperatorSettings.operator_link].
  destruct (truthy _); simpl; [done|by rewrite app_nil_r].
Qed.

Lemma operator_button_shows_the_text_set_witness :
  DataStorage.operator_settings
    (turn_db (admin_set_operator_text_finish owner_only demo_store
                (owner_says " Ask us ") idle))
  = OperatorSettings.mk (VStr (py "https://t.me/operator_bot")) (VBool false)
      (VStr (py "Ask us")).
Proof.
  destruct (operator_button_shows_the_text_set owner_only demo_store
              (owner_says " Ask us ") idle (py " Ask us "))
    as (Hsettings & _).
  - exact owner_is_admin_of_owner_only.
  - reflexivity.
  - vm_compute. lia.
  - rewrite Hsettings. vm_compute. reflexivity.
Defined.

(** ** The category flow *)

Section CategoryFlow.
Context `{B : Builtins}.

(** X28. The category flow: the city button, then a name of at least 2
    characters.  The category committed carries the city id of the button
    and the name as typed, without the surrounding white space, and is
    stored under the category counter.  Neither step looks the city up:
    the category is stored whether or not the store has a city with that
    id. *)
Theorem category_flow_commits_what_was_typed (admin_manager : AdminManager.t)
    (db1 db : DataStorage.t) (place : CallbackQuery.t) (name : Message.t)
    (state : FSMContext.t) (city_id : Z) (name_text : str) :
  AdminManager.is_admin admin_manager (CallbackQuery.from_user_id place) = true ->
  AdminManager.is_admin admin_manager (Message.from_user_id name) = true ->
  callback_arg 2 (CallbackQuery.data place) = inr city_id ->
  Message.text name = Some name_text ->
  (2 <= length (strip name_text))%nat ->
  let step1 := admin_add_category_city admin_manager db1 place state in
  let committed := admin_add_category_finish admin_manager db name (turn_fsm step1) in
  let category_id := DataStorage.next_category_id db in
  turn_db step1 = db1
  /\ storage_db committed
     = DataStorage.set_next_category_id (category_id + 1)
         (DataStorage.set_categories
            (<[category_id
               := Category.mk category_id (strip name_text) (Some city_id) true]>
               (DataStorage.categories db)) db)
  /\ replies committed = [CategoryAdded category_id]
  /\ fsm committed = FSMContext.clear state.
Proof.
  intros Ha1 Ha2 Hplace Hname Hlong. cbn zeta.
  unfold admin_add_category_city. rewrite Ha1, Hplace.
  cbn [negb turn_db turn_fsm answer]. split; [done|].
  unfold admin_add_category_finish. rewrite Ha2.
  assert (name_too_short name = false) as ->.
  { unfold name_too_short. rewrite Hname. destruct name_text as [|c r].
    - vm_compute in Hlong. lia.
    - apply Nat.ltb_ge. done. }
  rewrite Hname. cbn [negb]. simpl. done.
Qed.

End CategoryFlow.

Lemma category_flow_commits_what_was_typed_witness :
  DataStorage.categories
    (storage_db
       (admin_add_category_finish owner_only demo_store (owner_says " Garden ")
          (turn_fsm
             (admin_add_category_city (B := ascii_builtins) owner_only demo_store
                (owner_presses "admin_city_77") idle)))) !! 3
  = Some (Category.mk 3 (py "Garden") (Some 77) true).
Proof.
  destruct (category_flow_commits_what_was_typed (B := ascii_builtins) owner_only
              demo_store demo_store (owner_presses "admin_city_77")
              (owner_says " Garden ") idle 77 (py " Garden "))
    as (_ & Hcommitted & _).
  - exact owner_is_admin_of_owner_only.
  - exact owner_is_admin_of_owner_only.
  - vm_compute. reflexivity.
  - reflexivity.
  - vm_compute. lia.
  - rewrite Hcommitted. vm_compute. reflexivity.
Defined.

(** ** A broadcast draft is used once *)

(** X29. For an administrator, [confirm_broadcast] ends with the conversation
    cleared, whether it broadcast or found nothing to send, and so does
    [cancel_broadcast].  Pressing the confirm button again, on the same or
    on a later store, therefore sends nothing. *)
Theorem broadcast_draft_is_used_once (send_ok edit_ok send_ok' edit_ok' : nat -> bool)
    (admin_manager : AdminManager.t) (db db' : DataStorage.t)
    (callback callback' : CallbackQuery.t) (state : FSMContext.t) :
  AdminManager.is_admin admin_manager (CallbackQuery.from_user_id callback) = true ->
  let first := confirm_broadcast send_ok edit_ok admin_manager db callback state in
  let again :=
    confirm_broadcast send_ok' edit_ok' admin_manager db' callback' (fsm first) in
  let cancelled := cancel_broadcast admin_manager db callback state in
  let after_cancel :=
    confirm_broadcast send_ok' edit_ok' admin_manager db' callback'
      (turn_fsm cancelled) in
  fsm first = FSMContext.clear state
  /\ raised first = None
  /\ storage_db first = db
  /\ deliveries again = []
  /\ storage_db again = db'
  /\ turn_fsm cancelled = FSMContext.clear state
  /\ notices cancelled = [BroadcastCancelled]
  /\ deliveries after_cancel = []
  /\ storage_db after_cancel = db'.
Proof.
  intros Hadmin. cbn zeta.
  assert (forall s e a d c,
             deliveries (confirm_broadcast s e a d c (FSMContext.clear state)) = []
             /\ storage_db (confirm_broadcast s e a d c (FSMContext.clear state)) = d)
    as Hcleared.
  { intros s e a d c. unfold confirm_broadcast. by destruct (negb _). }
  assert (fsm (confirm_broadcast send_ok edit_ok admin_manager db callback state)
          = FSMContext.clear state
          /\ raised (confirm_broadcast send_ok edit_ok admin_manager db callback state)
             = None
          /\ storage_db (confirm_broadcast send_ok edit_ok admin_manager db callback
                           state) = db) as (Hfsm & Hraised & Hdb).
  { unfold confirm_broadcast. rewrite Hadmin. cbn [negb].
    destruct (Data.broadcast_message (FSMContext.data state)) as [[|c r]|]; try done.
    destruct (DataStorage.users db) as [|u us] eqn:Hus; [done|].
    rewrite <- Hus.
    destruct (int_truediv_positive
                (success (broadcast_loop send_ok edit_ok 1 (DataStorage.users db)
                            (mkTally 0 0 [] [])))
                (Z.of_nat (length (DataStorage.users db)))) as [ratio ->]; [|done].
    rewrite Hus. simpl. lia. }
  rewrite Hfsm. split; [done|]. split; [done|]. split; [done|].
  split; [apply Hcleared|]. split; [apply Hcleared|].
  unfold cancel_broadcast. rewrite Hadmin. cbn [negb turn_fsm notices answer].
  split; [done|]. split; [done|]. split; apply Hcleared.
Qed.

Lemma broadcast_draft_is_used_once_witness :
  deliveries
    (confirm_broadcast all_but_15th always owner_only store_23_users
       (owner_presses "confirm_broadcast")
       (fsm (confirm_broadcast all_but_15th always owner_only store_23_users
               (owner_presses "confirm_broadcast") broadcast_draft)))
  = [].
Proof.
  destruct (broadcast_draft_is_used_once all_but_15th always all_but_15th always
              owner_only store_23_users store_23_users
              (owner_presses "confirm_broadcast") (owner_presses "confirm_broadcast")
              broadcast_draft owner_is_admin_of_owner_only)
    as (_ & _ & _ & Hagain & _).
  exact Hagain.
Defined.

(** ** Checkout, from the product card to the order *)

Section CheckoutFlow.
Context `{B : Builtins}.

(** X30. The buyer opens the card of an active product, chooses a payment
    method and sends a photo or a document.  The order stored belongs to
    the buyer, names the product of the card and the method of the button,
    and carries the name and the price that the product has in the store
    when the proof arrives; the first two steps leave the store alone. *)
Theorem checkout_orders_the_product_shown (now : str) (notify_ok : Z -> bool)
    (admin_manager : AdminManager.t) (db1 db2 db : DataStorage.t)
    (card method : CallbackQuery.t) (proof : Message.t) (state : FSMContext.t)
    (product_id : Z) (shown product : Product.t) (price : float)
    (payment_method : str) :
  callback_arg 1 (CallbackQuery.data card) = inr product_id ->
  DataStorage.products db1 !! product_id = Some shown ->
  Product.is_active shown = true ->
  Product.price shown = Some price ->
  split 95 (CallbackQuery.data method) !! 1%nat = Some payment_method ->
  DataStorage.products db !! product_id = Some product ->
  Message.photo proof <> [] \/ Message.document proof <> None ->
  let step1 := show_product_detail db1 card state in
  let step2 := select_payment_method db2 method (fsm step1) in
  let placed := receive_payment_proof now notify_ok admin_manager db proof (fsm step2) in
  storage_db step1 = db1
  /\ replies step1 = [ProductCard product_id (format_f 2 price)]
  /\ storage_db step2 = db2
  /\ exists order,
      DataStorage.orders (storage_db placed) !! DataStorage.next_order_id db
      = Some order
      /\ Order.id order = DataStorage.next_order_id db
      /\ Order.user_id order = Message.from_user_id proof
      /\ Order.product_id order = product_id
      /\ Order.product_name order = Product.name product
      /\ Order.price order = Product.price product
      /\ Order.payment_method order = Some payment_method
      /\ Order.status order = py "pending"
      /\ Order.timestamp order = now.
Proof.
  intros Hcard Hshown Hactive Hprice Hmethod Hproduct Hproof. cbn zeta.
  unfold show_product_detail. rewrite Hcard, Hshown, Hactive, Hprice.
  cbn [negb storage_db replies fsm done]. split; [done|]. split; [done|].
  assert (storage_db
            (select_payment_method db2 method
               (FSMContext.update_data (Data.set_selected_product_id product_id) state))
          = db2
          /\ Data.selected_product_id
               (FSMContext.data
                  (fsm (select_payment_method db2 method
                          (FSMContext.update_data
                             (Data.set_selected_product_id product_id) state))))
             = Some product_id
          /\ Data.payment_method
               (FSMContext.data
                  (fsm (select_payment_method db2 method
                          (FSMContext.update_data
                             (Data.set_selected_product_id product_id) state))))
             = Some payment_method) as (Hdb2 & Hselected & Hpaying).
  { unfold select_payment_method. rewrite Hmethod.
    by repeat case_match. }
  split; [exact Hdb2|].
  unfold receive_payment_proof. rewrite Hselected, Hpaying, Hproduct.
  assert (exists payment_proof,
             match last_photo proof with
             | Some file_id => Some file_id
             | None => Message.document proof
             end = Some payment_proof) as [payment_proof ->].
  { unfold last_photo. destruct (last (Message.photo proof)) eqn:Hlast; [eauto|].
    apply last_None in Hlast. destruct Hproof as [Hp|Hd]; [done|].
    destruct (Message.document proof); [eauto|done]. }
  rewrite add_order_spec.
  exists (Order.set_id (DataStorage.next_order_id db)
            (Order.mk 0 (Message.from_user_id proof)
               (str_or (Message.from_user_username proof) (py "Без имени"))
               product_id (Product.name product) (Product.price product)
               (Some payment_method) payment_proof Order.default_status now)).
  split; [|by repeat split].
  destruct (Product.price product); simpl; apply lookup_insert_eq.
Qed.

End CheckoutFlow.

Lemma checkout_orders_the_product_shown_witness :
  Order.price <$>
    DataStorage.orders
      (storage_db
         (receive_payment_proof (py "2026-11-03T10:00:00") (fun _ => true) owner_only
            demo_store buyer_photo
            (fsm (select_payment_method demo_store
                    (CallbackQuery.mk 555 (py "payment_card"))
                    (fsm (show_product_detail (B := ascii_builtins) demo_store
                            (CallbackQuery.mk 555 (py "product_1")) idle)))))) !! 1
  = Some (Some (float_of_decimal false 999 (-2))).
Proof.
  destruct (checkout_orders_the_product_shown (B := ascii_builtins)
              (py "2026-11-03T10:00:00") (fun _ => true) owner_only
              demo_store demo_store demo_store
              (CallbackQuery.mk 555 (py "product_1"))
              (CallbackQuery.mk 555 (py "payment_card")) buyer_photo idle
              1 hammer hammer (float_of_decimal false 999 (-2)) (py "card"))
    as (_ & _ & _ & order & Hstored & _ & _ & _ & _ & Hprice & _).
  - vm_compute. reflexivity.
  - vm_compute. reflexivity.
  - reflexivity.
  - reflexivity.
  - vm_compute. reflexivity.
  - vm_compute. reflexivity.
  - left. discriminate.
  - change (DataStorage.next_order_id demo_store) with 1 in Hstored.
    rewrite Hstored. simpl. by rewrite Hprice.
Defined.
